(** * ai-pr-bot: budget-aware chunk planning and cost-gated chunk review

    A shallow embedding of
      - [src/lib/ai-service/enhanced-context-manager.ts] (class
        [EnhancedContextManager]: token estimation, prioritisation and the
        chunking strategies), and
      - [src/lib/ai-service/enhanced-ai-service.ts] (class
        [EnhancedAIService]: the sequential chunk loop of
        [reviewWithEnhancedContext] and [mergeChunkReviews]), and
      - [src/lib/ai-service/context-manager.ts] (class [ContextManager]:
        the window of a model, the ordering, truncation and selection of
        changes behind [reviewWithStandardContext], and the batches),
    followed by the properties of the planner, the cost gate, the merger
    and the standard context manager.

    Conventions of the embedding.
      - A JavaScript string is a Rocq [string]; a character stands for one
        code unit below 256, so [length] is the JavaScript [.length].
      - A JavaScript number that is only ever an integer here (priorities,
        token counts, lengths, window sizes) is a [Z].  Numbers that are
        genuinely fractional (multipliers, densities, confidences, costs in
        USD) are IEEE 754 binary64 values, Rocq's primitive [float], with the
        very operations the JavaScript engine applies.
      - A [Map] keeps insertion order: it is an association list.
      - [Array.prototype.sort] is stable; it is a stable insertion sort. *)

From Stdlib Require Import ZArith List String Ascii Bool Lia.
From Stdlib Require Import Permutation Sorted.
From Stdlib Require Import DecimalString.
From Stdlib Require Import Floats.PrimFloat Floats.FloatOps Floats.SpecFloat.
From Stdlib Require Floats.FloatAxioms.
From Stdlib Require Import Numbers.Cyclic.Int63.Uint63.
Import ListNotations.

Set Warnings "-inexact-float".

Local Open Scope string_scope.
Local Open Scope list_scope.
Local Open Scope Z_scope.

(* ================================================================== *)
(** ** JavaScript strings, numbers and maps *)
(* ================================================================== *)

Module Js.

Definition LF : ascii := "010"%char.

(** [\s] of a regular expression and the characters [trim] strips, below
    code unit 256: TAB, LF, VT, FF, CR, SPACE, NBSP. *)
Definition isWhiteSpace (c : ascii) : bool :=
  let n := nat_of_ascii c in
  ((9 <=? n) && (n <=? 13))%nat || (n =? 32)%nat || (n =? 160)%nat.

(** [s.split(sep)] for a one-character separator: never empty. *)
Fixpoint split (sep : ascii) (s : string) : list string :=
  match s with
  | EmptyString => [EmptyString]
  | String c rest =>
      if Ascii.eqb c sep then EmptyString :: split sep rest
      else match split sep rest with
           | [] => [String c EmptyString]
           | w :: ws => String c w :: ws
           end
  end.

Definition startsWith (s p : string) : bool := String.prefix p s.

(** [s.includes(needle)] *)
Fixpoint includes (s needle : string) : bool :=
  String.prefix needle s ||
  match s with
  | EmptyString => false
  | String _ rest => includes rest needle
  end.

Fixpoint trimStart (s : string) : string :=
  match s with
  | EmptyString => EmptyString
  | String c rest => if isWhiteSpace c then trimStart rest else s
  end.

Fixpoint rev_append (s acc : string) : string :=
  match s with
  | EmptyString => acc
  | String c rest => rev_append rest (String c acc)
  end.

Definition reverse (s : string) : string := rev_append s EmptyString.

Definition trimEnd (s : string) : string := reverse (trimStart (reverse s)).

Definition trim (s : string) : string := trimEnd (trimStart s).

Definition lowerChar (c : ascii) : ascii :=
  let n := nat_of_ascii c in
  if ((65 <=? n) && (n <=? 90))%nat then ascii_of_nat (n + 32) else c.

(** [s.toLowerCase()], on the letters A to Z. *)
Fixpoint toLowerCase (s : string) : string :=
  match s with
  | EmptyString => EmptyString
  | String c rest => String (lowerChar c) (toLowerCase rest)
  end.

(** [/word/i.test(s)] for a pattern [word] of lower-case ASCII letters:
    a case-insensitive substring search. *)
Definition test_i (word s : string) : bool := includes (toLowerCase s) word.

(** [s.replace(/\s+/g, by)]: every maximal run of white space becomes
    one copy of [by]. *)
Fixpoint replaceSpaces (by_ : string) (inRun : bool) (s : string) : string :=
  match s with
  | EmptyString => EmptyString
  | String c rest =>
      if isWhiteSpace c
      then if inRun then replaceSpaces by_ true rest
           else (by_ ++ replaceSpaces by_ true rest)%string
      else String c (replaceSpaces by_ false rest)
  end.

(** Template-literal rendering of a non-negative integer. *)
Definition showNat (n : nat) : string := NilZero.string_of_uint (Nat.to_uint n).

(** Truthiness of a string ([''] is falsy). *)
Definition truthy (s : string) : bool :=
  match s with EmptyString => false | _ => true end.

(** [s || dflt] on strings. *)
Definition orElse (s dflt : string) : string := if truthy s then s else dflt.

(** *** Numbers *)

(** An integer as a binary64 value (exact below 2^53). *)
Definition ofZ (z : Z) : float := PrimFloat.of_uint63 (Uint63.of_Z z).

(** [Math.ceil] of a finite binary64 value, as an integer.  The value of
    [S754_finite s m e] is (-1)^s * m * 2^e. *)
Definition ceil (x : float) : Z :=
  match Prim2SF x with
  | S754_zero _ => 0
  | S754_finite s m e =>
      let n := Z.pos m in
      if 0 <=? e then (if s then - (n * 2 ^ e) else n * 2 ^ e)
      else if s then - (n / 2 ^ (- e)) else - ((- n) / 2 ^ (- e))
  | S754_infinity _ | S754_nan => 0
  end.

(** [Math.min(x, y)] on two numbers neither of which is NaN. *)
Definition fmin (x y : float) : float := if PrimFloat.ltb y x then y else x.

(** Truthiness of a number: [0] and [NaN] are falsy. *)
Definition truthyNum (x : float) : bool :=
  PrimFloat.ltb 0%float x || PrimFloat.ltb x 0%float.

(** *** Insertion-ordered maps with string keys *)

Definition Map (V : Type) : Type := list (string * V).

Fixpoint get {V} (m : Map V) (k : string) : option V :=
  match m with
  | [] => None
  | (k', v) :: rest => if String.eqb k' k then Some v else get rest k
  end.

(** [m.set(k, v)]: an existing key keeps its position, a new key goes
    last. *)
Fixpoint set {V} (m : Map V) (k : string) (v : V) : Map V :=
  match m with
  | [] => [(k, v)]
  | (k', v') :: rest =>
      if String.eqb k' k then (k', v) :: rest else (k', v') :: set rest k v
  end.

(** [m.get(k) || []] *)
Definition getOrNil {A} (m : Map (list A)) (k : string) : list A :=
  match get m k with
  | Some l => l
  | None => []
  end.

(** The grouping idiom of the planner,
    [l.forEach(x => { const g = m.get(key(x)) || []; g.push(x); m.set(key(x), g) })]:
    the first occurrence of a key fixes the position of its group. *)
Definition pushInto {A} (key : A -> string) (m : Map (list A)) (x : A)
  : Map (list A) :=
  set m (key x) (getOrNil m (key x) ++ [x]).

Definition groupBy {A} (key : A -> string) (l : list A) : Map (list A) :=
  fold_left (pushInto key) l [].

(** *** Stable sort with a JavaScript comparator

    [cmp a b > 0] places [a] after [b]; elements that compare [<= 0] keep
    their input order. *)
Section Sort.
Context {A : Type} (cmp : A -> A -> Z).

Fixpoint insert (x : A) (l : list A) : list A :=
  match l with
  | [] => [x]
  | y :: rest => if 0 <? cmp x y then y :: insert x rest else x :: l
  end.

Definition sort (l : list A) : list A := fold_right insert [] l.
End Sort.

End Js.

(* ================================================================== *)
(** ** Data model ([types.ts], [code-analysis/analyzer/types.ts]) *)
(* ================================================================== *)

Inductive ChangeType : Set := added | modified | deleted.

Module DiffHunk.
Record Context : Set := mkContext { before : string; after : string }.
Record t : Set := mk {
  oldStart : Z;
  oldLines : Z;
  newStart : Z;
  newLines : Z;
  content : string;
  context : option Context
}.
End DiffHunk.

Module CodeChange.
Record t : Set := mk {
  file : string;
  language : option string;
  changeType : ChangeType;
  hunks : list DiffHunk.t;
  content : option string;
  previousContent : option string
}.
End CodeChange.

Inductive FindingSource : Set := semgrep | tree_sitter | privacy_guard | plugin.
Inductive FindingType : Set := security | performance | style | bug | privacy.
Inductive Severity : Set := critical | high | medium | low.

(** [AnalysisFinding]; the free-form [metadata] bag is left out. *)
Module Finding.
Record Location : Set := mkLocation {
  line : Z;
  column : Z;
  endLine : option Z;
  endColumn : option Z
}.
Record t : Set := mk {
  id : string;
  source : FindingSource;
  type : FindingType;
  severity : Severity;
  rule : string;
  message : string;
  file : string;
  location : Location;
  codeSnippet : option string;
  suggestion : option string;
  autoFixable : bool;
  confidence : float
}.
End Finding.

(** [enum ContentPriority] *)
Module ContentPriority.
Definition CRITICAL_SECURITY : Z := 100.
Definition HIGH_SECURITY : Z := 90.
Definition CRITICAL_BUG : Z := 80.
Definition HIGH_BUG : Z := 70.
Definition PERFORMANCE : Z := 60.
Definition MEDIUM_ISSUE : Z := 50.
Definition LOW_ISSUE : Z := 40.
Definition STYLE : Z := 30.
Definition CONTEXT : Z := 20.
Definition METADATA : Z := 10.
End ContentPriority.

(** [enum ChunkStrategy] and the string each member stands for. *)
Inductive ChunkStrategy : Set :=
  BY_MODULE | BY_SEVERITY | BY_FILE_TYPE | BY_SIZE | SMART.

Definition strategyValue (s : ChunkStrategy) : string :=
  match s with
  | BY_MODULE => "by-module"
  | BY_SEVERITY => "by-severity"
  | BY_FILE_TYPE => "by-file-type"
  | BY_SIZE => "by-size"
  | SMART => "smart"
  end.

(** One chunk of the plan. *)
Module Chunk.
Record t : Set := mk {
  id : string;
  priority : Z;
  changes : list CodeChange.t;
  findings : list Finding.t;
  tokenEstimate : Z;
  description : string
}.
End Chunk.

(** One element of [prioritizeContent]'s result. *)
Module Item.
Record t : Set := mk {
  change : CodeChange.t;
  priority : Z;
  relatedFindings : list Finding.t;
  mustInclude : bool
}.
End Item.

(** [interface ContextWindowConfig] and the [Partial] the constructor takes. *)
Module Config.
Record t : Set := mk {
  model : string;
  contextWindowSize : Z;
  reservedTokens : Z;
  enableSmartChunking : bool;
  prioritizeSecurityIssues : bool;
  maxChunks : Z
}.
Record partial : Set := mkPartial {
  p_model : option string;
  p_contextWindowSize : option Z;
  p_reservedTokens : option Z;
  p_enableSmartChunking : option bool;
  p_prioritizeSecurityIssues : option bool;
  p_maxChunks : option Z
}.
End Config.

(** The [options] argument of [analyzeAndChunk]. *)
Module Options.
Record t : Set := mk {
  strategy : option ChunkStrategy;
  systemPromptTokens : option Z;
  forceIncludeFiles : option (list string)
}.
Definition none : t := mk None None None.
End Options.

Module Summary.
Record t : Set := mk {
  totalChanges : Z;
  totalFindings : Z;
  criticalFindings : Z;
  estimatedTotalTokens : Z;
  recommendedStrategy : ChunkStrategy
}.
End Summary.

Module Analysis.
Record t : Set := mk {
  chunks : list Chunk.t;
  summary : Summary.t
}.
End Analysis.

Definition Severity_eqb (a b : Severity) : bool :=
  match a, b with
  | critical, critical | high, high | medium, medium | low, low => true
  | _, _ => false
  end.

Definition len {A} (l : list A) : Z := Z.of_nat (List.length l).

(** [x || dflt] on an optional number: [undefined] and [0] are falsy. *)
Definition numOr (x : option Z) (dflt : Z) : Z :=
  match x with
  | Some v => if v =? 0 then dflt else v
  | None => dflt
  end.

(* ================================================================== *)
(** ** [class EnhancedContextManager] *)
(* ================================================================== *)

Module EnhancedContextManager.

Definition TOKEN_MULTIPLIERS : Js.Map float :=
  [ ("code", 0.4%float); ("text", 0.25%float); ("markdown", 0.3%float);
    ("json", 0.35%float); ("diff", 0.45%float); ("minified", 0.5%float) ].

Definition CONTEXT_WINDOWS : Js.Map Z :=
  [ ("gpt-4-turbo-preview", 128000); ("gpt-4-1106-preview", 128000);
    ("gpt-4-vision-preview", 128000); ("gpt-4", 8192); ("gpt-4-32k", 32768);
    ("gpt-3.5-turbo", 16385); ("gpt-3.5-turbo-16k", 16385);
    ("claude-3-opus", 200000); ("claude-3-sonnet", 200000);
    ("claude-3-haiku", 200000); ("default", 8192) ].

(** [CONTEXT_WINDOWS[model] || 8192], for a model whose name is no member
    of [Object.prototype].  (For a name such as [toString] or
    [constructor] the code finds the inherited member, which is no number;
    such names are outside this embedding, whose window sizes are
    integers.) *)
Definition getModelContextWindow (model : string) : Z :=
  numOr (Js.get CONTEXT_WINDOWS model) 8192.

Definition strOr (x : option string) (dflt : string) : string :=
  match x with Some s => Js.orElse s dflt | None => dflt end.

(** [flag !== false] *)
Definition notFalse (x : option bool) : bool :=
  match x with Some false => false | _ => true end.

Definition constructor (config : Config.partial) : Config.t :=
  {| Config.model := strOr (Config.p_model config) "gpt-4-turbo-preview";
     Config.contextWindowSize :=
       numOr (Config.p_contextWindowSize config)
             (getModelContextWindow
                (strOr (Config.p_model config) "gpt-4-turbo-preview"));
     Config.reservedTokens := numOr (Config.p_reservedTokens config) 4000;
     Config.enableSmartChunking := notFalse (Config.p_enableSmartChunking config);
     Config.prioritizeSecurityIssues :=
       notFalse (Config.p_prioritizeSecurityIssues config);
     Config.maxChunks := numOr (Config.p_maxChunks config) 10 |}.

(** *** Token estimation *)

Definition detectContentType (content : string) : string :=
  if (500 <? Z.of_nat (String.length content))
     && (len (Js.split Js.LF content) <? 5)
  then "minified"
  else if Js.includes content "@@"
          && (Js.includes content "+++" || Js.includes content "---")
  then "diff"
  else if Js.startsWith (Js.trim content) "{"
          || Js.startsWith (Js.trim content) "["
  then "json"
  else "code".

Definition calculateContentDensity (content : string) : float :=
  let lines := Js.split Js.LF content in
  let nonEmptyLines :=
    filter (fun line => (0 <? String.length (Js.trim line))%nat) lines in
  if len lines =? 0 then 1%float else
  let avgLineLength :=
    PrimFloat.div (Js.ofZ (Z.of_nat (String.length content))) (Js.ofZ (len lines)) in
  let density := 1%float in
  let density :=
    if PrimFloat.ltb 80%float avgLineLength
    then PrimFloat.mul density 1.1%float else density in
  let density :=
    if PrimFloat.ltb 120%float avgLineLength
    then PrimFloat.mul density 1.1%float else density in
  let density :=
    if PrimFloat.ltb 0.9%float
         (PrimFloat.div (Js.ofZ (len nonEmptyLines)) (Js.ofZ (len lines)))
    then PrimFloat.mul density 1.1%float else density in
  Js.fmin density 1.3%float.

(** [estimateTokens(content, type)], for a [type] that is [undefined],
    empty, or a name that is no member of [Object.prototype]; the planner
    itself always calls it without a type.  (For a type such as [toString]
    or [constructor] the code takes the inherited member for the
    multiplier and returns [NaN]; such types are outside this embedding,
    whose token counts are integers.) *)
Definition estimateTokens (content : string) (type : option string) : Z :=
  let type :=
    match type with
    | Some t => if Js.truthy t then t else detectContentType content
    | None => detectContentType content
    end in
  let multiplier :=
    match Js.get TOKEN_MULTIPLIERS type with
    | Some m => m
    | None => 0.4%float
    end in
  let density := calculateContentDensity content in
  let adjustedMultiplier := PrimFloat.mul multiplier density in
  Js.ceil (PrimFloat.mul (Js.ofZ (Z.of_nat (String.length content)))
                         adjustedMultiplier).

Definition estimateHunkTokens (hunk : DiffHunk.t) : Z :=
  estimateTokens (DiffHunk.content hunk) None
  + match DiffHunk.context hunk with
    | Some ctx =>
        (if Js.truthy (DiffHunk.before ctx)
         then estimateTokens (DiffHunk.before ctx) None else 0)
        + (if Js.truthy (DiffHunk.after ctx)
           then estimateTokens (DiffHunk.after ctx) None else 0)
    | None => 0
    end.

(** [tokens = 50], then the hunks in order. *)
Definition estimateChangeTokens (change : CodeChange.t) : Z :=
  fold_left (fun tokens hunk => tokens + estimateHunkTokens hunk)
            (CodeChange.hunks change) 50.

Definition estimateFindingTokens (findings : list Finding.t) : Z :=
  len findings * 60.

Definition calculateTotalTokens
    (changes : list CodeChange.t) (findings : list Finding.t) : Z :=
  let changeTokens :=
    fold_left (fun sum change => sum + estimateChangeTokens change) changes 0 in
  let findingTokens := estimateFindingTokens findings in
  changeTokens + findingTokens.

(** *** Priorities *)

Definition getFindingPriority (finding : Finding.t) : Z :=
  match Finding.severity finding with
  | critical =>
      match Finding.type finding with
      | security => ContentPriority.CRITICAL_SECURITY
      | _ => ContentPriority.CRITICAL_BUG
      end
  | high =>
      match Finding.type finding with
      | security => ContentPriority.HIGH_SECURITY
      | _ => ContentPriority.HIGH_BUG
      end
  | medium => ContentPriority.MEDIUM_ISSUE
  | low => ContentPriority.LOW_ISSUE
  end.

Definition sensitivePatterns : list string :=
  [ "auth"; "security"; "token"; "password"; "secret"; "key";
    "credential"; "session"; "jwt"; "oauth" ].

Definition isSecuritySensitiveFile (file : string) : bool :=
  existsb (fun pattern => Js.test_i pattern file) sensitivePatterns.

Definition criticalPatterns : list string :=
  [ "config"; "database"; "api"; "route"; "middleware"; "handler" ].

Definition isCriticalFile (file : string) : bool :=
  existsb (fun pattern => Js.test_i pattern file) criticalPatterns.

Definition ChangeType_eqb (a b : ChangeType) : bool :=
  match a, b with
  | added, added | modified, modified | deleted, deleted => true
  | _, _ => false
  end.

Definition calculateChangePriority
    (change : CodeChange.t) (findings : list Finding.t) : Z :=
  let priority := ContentPriority.CONTEXT in
  let priority :=
    fold_left (fun priority finding =>
                 Z.max priority (getFindingPriority finding))
              findings priority in
  let priority :=
    if ChangeType_eqb (CodeChange.changeType change) added
       && isSecuritySensitiveFile (CodeChange.file change)
    then Z.max priority ContentPriority.HIGH_SECURITY else priority in
  let priority :=
    if isCriticalFile (CodeChange.file change)
    then Z.max priority ContentPriority.HIGH_BUG else priority in
  priority.

(** The [findingsByFile] map: each finding is pushed on the list of its
    file. *)
Definition findingsByFile (findings : list Finding.t) : Js.Map (list Finding.t) :=
  Js.groupBy Finding.file findings.

(** The callback of [changes.map] in [prioritizeContent]. *)
Definition prioritizeChange
    (byFile : Js.Map (list Finding.t)) (forceIncludeFiles : option (list string))
    (change : CodeChange.t) : Item.t :=
  let relatedFindings := Js.getOrNil byFile (CodeChange.file change) in
  let mustInclude :=
    match forceIncludeFiles with
    | Some files => existsb (String.eqb (CodeChange.file change)) files
    | None => false
    end in
  let priority := calculateChangePriority change relatedFindings in
  let priority :=
    if mustInclude
    then Z.max priority ContentPriority.CRITICAL_SECURITY
    else priority in
  {| Item.change := change;
     Item.priority := priority;
     Item.relatedFindings := relatedFindings;
     Item.mustInclude := mustInclude |}.

Definition prioritizeContent
    (changes : list CodeChange.t) (findings : list Finding.t)
    (forceIncludeFiles : option (list string)) : list Item.t :=
  let byFile := findingsByFile findings in
  Js.sort
    (fun a b => Item.priority b - Item.priority a)
    (map (prioritizeChange byFile forceIncludeFiles) changes).

(** *** Chunk construction *)

Definition itemTokens (item : Item.t) : Z :=
  let changeTokens := estimateChangeTokens (Item.change item) in
  let findingTokens := estimateFindingTokens (Item.relatedFindings item) in
  changeTokens + findingTokens.

(** The four statements that add [item] to a chunk. *)
Definition addItem (chunk : Chunk.t) (item : Item.t) : Chunk.t :=
  {| Chunk.id := Chunk.id chunk;
     Chunk.priority := Z.max (Chunk.priority chunk) (Item.priority item);
     Chunk.changes := Chunk.changes chunk ++ [Item.change item];
     Chunk.findings := Chunk.findings chunk ++ Item.relatedFindings item;
     Chunk.tokenEstimate := Chunk.tokenEstimate chunk + itemTokens item;
     Chunk.description := Chunk.description chunk |}.

Definition emptyChunk (id description : string) : Chunk.t :=
  {| Chunk.id := id;
     Chunk.priority := 0;
     Chunk.changes := [];
     Chunk.findings := [];
     Chunk.tokenEstimate := 0;
     Chunk.description := description |}.

Definition createSingleChunk
    (content : list Item.t) (availableTokens : Z)
    (id description : string) : Chunk.t :=
  let chunk := emptyChunk id description in
  let mustInclude := filter (fun c => Item.mustInclude c) content in
  let others := filter (fun c => negb (Item.mustInclude c)) content in
  fold_left
    (fun chunk item =>
       if (Chunk.tokenEstimate chunk + itemTokens item <=? availableTokens)
          || Item.mustInclude item
       then addItem chunk item
       else chunk)
    (mustInclude ++ others) chunk.

(** [if (chunk.changes.length > 0) chunks.push(chunk)] *)
Definition pushIfNonEmpty (chunk : Chunk.t) : list Chunk.t :=
  if 0 <? len (Chunk.changes chunk) then [chunk] else [].

Record PriorityGroup : Set := mkGroup { gmin : Z; gmax : Z; gname : string }.

Definition priorityGroups : list PriorityGroup :=
  [ mkGroup (ContentPriority.CRITICAL_SECURITY - 10)
            (ContentPriority.CRITICAL_SECURITY + 10) "Critical Security";
    mkGroup (ContentPriority.HIGH_SECURITY - 10)
            (ContentPriority.HIGH_SECURITY + 10) "High Security";
    mkGroup (ContentPriority.CRITICAL_BUG - 10)
            (ContentPriority.CRITICAL_BUG + 10) "Critical Bugs";
    mkGroup (ContentPriority.HIGH_BUG - 10)
            (ContentPriority.HIGH_BUG + 10) "High Priority";
    mkGroup 0 (ContentPriority.MEDIUM_ISSUE + 10) "Other Issues" ].

Definition inGroup (group : PriorityGroup) (c : Item.t) : bool :=
  (gmin group <=? Item.priority c) && (Item.priority c <=? gmax group).

Definition chunkBySeverity
    (content : list Item.t) (availableTokens : Z) : list Chunk.t :=
  flat_map
    (fun group =>
       let groupContent := filter (inGroup group) content in
       if len groupContent =? 0 then []
       else
         pushIfNonEmpty
           (createSingleChunk groupContent availableTokens
              ("severity-" ++
               Js.replaceSpaces "-" false (Js.toLowerCase (gname group)))%string
              (gname group)))
    priorityGroups.

Definition moduleOf (item : Item.t) : string :=
  Js.orElse (hd EmptyString (Js.split "/"%char (CodeChange.file (Item.change item))))
            "root".

(** [Math.max(...group.map(c => c.priority))] of a group, which is never
    empty. *)
Definition maxPriority (group : list Item.t) : Z :=
  match group with
  | [] => 0
  | c :: rest => fold_left (fun m c' => Z.max m (Item.priority c')) rest (Item.priority c)
  end.

Definition chunkByModule
    (content : list Item.t) (availableTokens : Z) : list Chunk.t :=
  let moduleGroups := Js.groupBy moduleOf content in
  let sortedModules :=
    Js.sort (fun a b => maxPriority (snd b) - maxPriority (snd a)) moduleGroups in
  flat_map
    (fun entry =>
       let '(module, moduleContent) := entry in
       pushIfNonEmpty
         (createSingleChunk moduleContent availableTokens
            ("module-" ++ module)%string ("Module: " ++ module)%string))
    sortedModules.

Definition extOf (item : Item.t) : string :=
  Js.orElse (last (Js.split "."%char (CodeChange.file (Item.change item))) EmptyString)
            "unknown".

Definition chunkByFileType
    (content : list Item.t) (availableTokens : Z) : list Chunk.t :=
  let typeGroups := Js.groupBy extOf content in
  flat_map
    (fun entry =>
       let '(type, typeContent) := entry in
       pushIfNonEmpty
         (createSingleChunk typeContent availableTokens
            ("type-" ++ type)%string ("File Type: " ++ type)%string))
    typeGroups.

Definition isCriticalItem (c : Item.t) : bool :=
  Item.mustInclude c || (ContentPriority.CRITICAL_BUG <=? Item.priority c).

Definition isRemainingItem (c : Item.t) : bool :=
  negb (Item.mustInclude c) && (Item.priority c <? ContentPriority.CRITICAL_BUG).

Definition smartChunk
    (content : list Item.t) (availableTokens : Z) : list Chunk.t :=
  let criticalContent := filter isCriticalItem content in
  let chunks :=
    if 0 <? len criticalContent
    then pushIfNonEmpty
           (createSingleChunk criticalContent availableTokens
              "critical" "Critical Issues")
    else [] in
  let remainingContent := filter isRemainingItem content in
  let moduleChunks := chunkByModule remainingContent availableTokens in
  chunks ++ moduleChunks.

(** State of the loop of [chunkBySize]. *)
Record SizeLoop : Set := mkSizeLoop {
  chunks : list Chunk.t;
  currentChunk : Chunk.t;
  chunkCount : nat
}.

Definition numberedChunk (n : nat) : Chunk.t :=
  emptyChunk ("chunk-" ++ Js.showNat n)%string ("Chunk " ++ Js.showNat n)%string.

Definition chunkBySizeStep
    (availableTokens : Z) (st : SizeLoop) (item : Item.t) : SizeLoop :=
  let totalTokens := itemTokens item in
  let st :=
    if (availableTokens <? Chunk.tokenEstimate (currentChunk st) + totalTokens)
       && (0 <? len (Chunk.changes (currentChunk st)))
    then {| chunks := chunks st ++ [currentChunk st];
            currentChunk := numberedChunk (S (chunkCount st));
            chunkCount := S (chunkCount st) |}
    else st in
  {| chunks := chunks st;
     currentChunk := addItem (currentChunk st) item;
     chunkCount := chunkCount st |}.

Definition chunkBySize
    (content : list Item.t) (availableTokens : Z) : list Chunk.t :=
  let st :=
    fold_left (chunkBySizeStep availableTokens) content
              {| chunks := []; currentChunk := numberedChunk 1; chunkCount := 1 |} in
  chunks st ++ pushIfNonEmpty (currentChunk st).

Definition availableTokens (this : Config.t) (systemPromptTokens : Z) : Z :=
  Config.contextWindowSize this - Config.reservedTokens this - systemPromptTokens.

Definition createChunks
    (this : Config.t) (prioritizedContent : list Item.t)
    (strategy : ChunkStrategy) (systemPromptTokens : Z) : list Chunk.t :=
  let availableTokens := availableTokens this systemPromptTokens in
  match strategy with
  | BY_SEVERITY => chunkBySeverity prioritizedContent availableTokens
  | BY_MODULE => chunkByModule prioritizedContent availableTokens
  | BY_FILE_TYPE => chunkByFileType prioritizedContent availableTokens
  | SMART => smartChunk prioritizedContent availableTokens
  | BY_SIZE => chunkBySize prioritizedContent availableTokens
  end.

Definition countSeverity (s : Severity) (findings : list Finding.t) : Z :=
  len (filter (fun f => Severity_eqb (Finding.severity f) s) findings).

Definition recommendChunkStrategy
    (changes : list CodeChange.t) (findings : list Finding.t) : ChunkStrategy :=
  let criticalFindings := countSeverity critical findings in
  let highFindings := countSeverity high findings in
  if (5 <? criticalFindings) || (10 <? criticalFindings + highFindings)
  then BY_SEVERITY
  else
    let modules :=
      nodup string_dec
        (map (fun c => hd EmptyString (Js.split "/"%char (CodeChange.file c)))
             changes) in
    if 5 <? len modules then BY_MODULE
    else if 20 <? len changes then SMART
    else BY_SIZE.

Definition analyzeAndChunk
    (this : Config.t) (changes : list CodeChange.t)
    (findings : list Finding.t) (options : Options.t) : Analysis.t :=
  let strategy :=
    match Options.strategy options with
    | Some s => s
    | None => recommendChunkStrategy changes findings
    end in
  let systemPromptTokens := numOr (Options.systemPromptTokens options) 500 in
  let prioritizedContent :=
    prioritizeContent changes findings (Options.forceIncludeFiles options) in
  let chunks := createChunks this prioritizedContent strategy systemPromptTokens in
  let summary :=
    {| Summary.totalChanges := len changes;
       Summary.totalFindings := len findings;
       Summary.criticalFindings := countSeverity critical findings;
       Summary.estimatedTotalTokens := calculateTotalTokens changes findings;
       Summary.recommendedStrategy := strategy |} in
  {| Analysis.chunks := chunks; Analysis.summary := summary |}.

End EnhancedContextManager.

(* ================================================================== *)
(** ** Reviews and review requests ([types.ts]) *)
(* ================================================================== *)

Inductive Verdict : Set := approve | request_changes | comment.

Module Impact.
Inductive t : Set := critical | high | medium | low.
End Impact.

Module ReviewComment.
Record t : Set := mk {
  file : string;
  line : float;
  endLine : option float;
  type : string;
  severity : string;
  category : string;
  message : string;
  codeSnippet : option string;
  suggestion : option string;
  confidence : float;
  relatedFindings : option (list string)
}.
End ReviewComment.

Module CodeSuggestion.
Record Effect : Set := mkEffect {
  performance : option string;
  security : option string;
  readability : option string
}.
Record t : Set := mk {
  id : string;
  file : string;
  startLine : float;
  endLine : float;
  type : string;
  description : string;
  originalCode : string;
  suggestedCode : string;
  explanation : string;
  impact : Effect;
  confidence : float;
  autoApplicable : bool
}.
End CodeSuggestion.

Module TokenUsage.
Record t : Set := mk {
  promptTokens : float;
  completionTokens : float;
  totalTokens : float;
  model : string;
  estimatedCost : float
}.
End TokenUsage.

(** A value read off an object, as far as the properties below need it. *)
Inductive JsValue : Set :=
| JsUndefined
| JsBoolean (b : bool)
| JsReference.

Module Review.
Record Summary : Set := mkSummary {
  verdict : Verdict;
  confidence : float;
  message : string;
  healthScore : option float
}.
Record Metrics : Set := mkMetrics {
  issuesFound : float;
  criticalIssues : float;
  improvements : float;
  estimatedImpact : Impact.t
}.
Record t : Set := mk {
  summary : Summary;
  comments : list ReviewComment.t;
  suggestions : list CodeSuggestion.t;
  metrics : Metrics;
  usage : TokenUsage.t
}.

(** The own properties of a [Review] object, whether it is the literal
    that [mergeChunkReviews] returns or the schema-validated object with
    [usage] added that [generateReviewWithRetry] returns. *)
Definition keys : list string :=
  [ "summary"; "comments"; "suggestions"; "metrics"; "usage" ].

(** [review[key]]: each own property holds an object or an array, every
    other key reads [undefined]. *)
Definition prop (review : t) (key : string) : JsValue :=
  if existsb (String.eqb key) keys then JsReference else JsUndefined.
End Review.

Module Request.
Record PullRequest : Set := mkPullRequest {
  number : Z;
  title : string;
  description : option string;
  author : string;
  repository : string
}.
Record ChunkInfo : Set := mkChunkInfo {
  current : Z;
  total : Z;
  chunkDescription : string;
  priority : Z
}.
Record Context : Set := mkContext {
  branch : option string;
  baseBranch : option string;
  commit : option string;
  previousReviews : option (list Review.t);
  criticalFiles : option (list string);
  chunkInfo : option ChunkInfo
}.
Record ReviewOptions : Set := mkOptions {
  focusAreas : option (list string);
  severity : option string;
  autoFix : option bool;
  maxSuggestions : option Z
}.
Record t : Set := mk {
  pullRequest : PullRequest;
  changes : list CodeChange.t;
  findings : list Finding.t;
  context : option Context;
  options : option ReviewOptions
}.
End Request.

(** A call either returns or throws an [Error] with a message. *)
Inductive Result (A : Type) : Type :=
| Ok (value : A)
| Throw (message : string).
Arguments Ok {A} value.
Arguments Throw {A} message.

(* ================================================================== *)
(** ** [class EnhancedAIService] *)
(* ================================================================== *)

Module EnhancedAIService.

(** The fields of the service that the chunked review reads: the
    configured [costLimit] and the configuration of its
    [enhancedContextManager]. *)
Record t : Set := mk {
  costLimit : option float;
  enhancedContextManager : Config.t
}.

Definition verdictEqb (a b : Verdict) : bool :=
  match a, b with
  | approve, approve | request_changes, request_changes | comment, comment => true
  | _, _ => false
  end.

Definition impactEqb (a b : Impact.t) : bool :=
  match a, b with
  | Impact.critical, Impact.critical | Impact.high, Impact.high
  | Impact.medium, Impact.medium | Impact.low, Impact.low => true
  | _, _ => false
  end.

Definition determineOverallImpact (impacts : list Impact.t) : Impact.t :=
  if existsb (impactEqb Impact.critical) impacts then Impact.critical
  else if existsb (impactEqb Impact.high) impacts then Impact.high
  else if existsb (impactEqb Impact.medium) impacts then Impact.medium
  else Impact.low.

(** The verdict of the merge, from the verdicts of the chunk reviews
    ([verdicts.includes('request-changes')], then
    [verdicts.includes('comment')]). *)
Definition overallVerdict (verdicts : list Verdict) : Verdict :=
  if existsb (verdictEqb request_changes) verdicts then request_changes
  else if existsb (verdictEqb comment) verdicts then comment
  else approve.

(** [reviews.reduce((sum, r) => sum + f(r), 0)] *)
Definition sumOf (f : Review.t -> float) (reviews : list Review.t) : float :=
  fold_left (fun sum r => PrimFloat.add sum (f r)) reviews 0%float.

Definition showZ (z : Z) : string := Js.showNat (Z.to_nat z).

Definition mergeChunkReviews
    (reviews : list Review.t) (analysis : Analysis.t) : Result Review.t :=
  match reviews with
  | [] => Throw "No reviews to merge"
  | [review] => Ok review
  | first :: _ =>
      let allComments := flat_map Review.comments reviews in
      let allSuggestions := flat_map Review.suggestions reviews in
      let verdicts := map (fun r => Review.verdict (Review.summary r)) reviews in
      let overallVerdict := overallVerdict verdicts in
      let avgConfidence :=
        PrimFloat.div
          (sumOf (fun r => Review.confidence (Review.summary r)) reviews)
          (Js.ofZ (len reviews)) in
      let mergedMetrics :=
        {| Review.issuesFound :=
             sumOf (fun r => Review.issuesFound (Review.metrics r)) reviews;
           Review.criticalIssues :=
             sumOf (fun r => Review.criticalIssues (Review.metrics r)) reviews;
           Review.improvements :=
             sumOf (fun r => Review.improvements (Review.metrics r)) reviews;
           Review.estimatedImpact :=
             determineOverallImpact
               (map (fun r => Review.estimatedImpact (Review.metrics r)) reviews) |} in
      let totalUsage :=
        {| TokenUsage.promptTokens :=
             sumOf (fun r => TokenUsage.promptTokens (Review.usage r)) reviews;
           TokenUsage.completionTokens :=
             sumOf (fun r => TokenUsage.completionTokens (Review.usage r)) reviews;
           TokenUsage.totalTokens :=
             sumOf (fun r => TokenUsage.totalTokens (Review.usage r)) reviews;
           TokenUsage.model := TokenUsage.model (Review.usage first);
           TokenUsage.estimatedCost :=
             sumOf (fun r => TokenUsage.estimatedCost (Review.usage r)) reviews |} in
      Ok {| Review.summary :=
              {| Review.verdict := overallVerdict;
                 Review.confidence := avgConfidence;
                 Review.message :=
                   ("Reviewed "
                    ++ showZ (Summary.totalChanges (Analysis.summary analysis))
                    ++ " changes across "
                    ++ showZ (len (Analysis.chunks analysis))
                    ++ " chunks using "
                    ++ strategyValue
                         (Summary.recommendedStrategy (Analysis.summary analysis))
                    ++ " strategy. Found "
                    ++ showZ (Summary.criticalFindings (Analysis.summary analysis))
                    ++ " critical issues.")%string;
                 Review.healthScore := None |};
            Review.comments := allComments;
            Review.suggestions := allSuggestions;
            Review.metrics := mergedMetrics;
            Review.usage := totalUsage |}
  end.

(** [this.config.costLimit && totalCost > this.config.costLimit], the test
    after each successful chunk of the loop. *)
Definition overCostLimit (costLimit : option float) (totalCost : float) : bool :=
  match costLimit with
  | Some limit => Js.truthyNum limit && PrimFloat.ltb limit totalCost
  | None => false
  end.

(** [this.config.costLimit && this.totalCost >= this.config.costLimit], the
    test at the head of [reviewCode] and of [generateCodeFix]. *)
Definition costLimitExceeded (costLimit : option float) (totalCost : float) : bool :=
  match costLimit with
  | Some limit => Js.truthyNum limit && PrimFloat.leb limit totalCost
  | None => false
  end.

(** The request of chunk number [i] (from 0) of [total]. *)
Definition chunkRequest
    (request : Request.t) (i total : nat) (chunk : Chunk.t) : Request.t :=
  let info :=
    {| Request.current := Z.of_nat i + 1;
       Request.total := Z.of_nat total;
       Request.chunkDescription := Chunk.description chunk;
       Request.priority := Chunk.priority chunk |} in
  {| Request.pullRequest := Request.pullRequest request;
     Request.changes := Chunk.changes chunk;
     Request.findings := Chunk.findings chunk;
     Request.context :=
       Some
         match Request.context request with
         | Some ctx =>
             {| Request.branch := Request.branch ctx;
                Request.baseBranch := Request.baseBranch ctx;
                Request.commit := Request.commit ctx;
                Request.previousReviews := Request.previousReviews ctx;
                Request.criticalFiles := Request.criticalFiles ctx;
                Request.chunkInfo := Some info |}
         | None =>
             {| Request.branch := None;
                Request.baseBranch := None;
                Request.commit := None;
                Request.previousReviews := None;
                Request.criticalFiles := None;
                Request.chunkInfo := Some info |}
         end;
     Request.options := Request.options request |}.

(** The request of the only chunk, when the plan has one. *)
Definition singleRequest (request : Request.t) (chunk : Chunk.t) : Request.t :=
  {| Request.pullRequest := Request.pullRequest request;
     Request.changes := Chunk.changes chunk;
     Request.findings := Chunk.findings chunk;
     Request.context := Request.context request;
     Request.options := Request.options request |}.

Section Collaborator.

(** [generateReviewWithRetry] calls the model over the network, through
    the retry manager: everything it depends on and changes besides its
    argument is the state of a world [World]. *)
Variable World : Type.
Variable generateReviewWithRetry : Request.t -> World -> Result Review.t * World.

(** The variables of the chunk loop, and the calls made so far, each
    with the cumulative cost it started from and with its outcome. *)
Record Loop : Type := mkLoop {
  reviews : list Review.t;
  totalCost : float;
  calls : list (float * Result Review.t);
  world : World
}.

(** The iterations from chunk [i] on; a [break] ends them. *)
Fixpoint chunkLoop
    (this : t) (request : Request.t) (total i : nat)
    (rest : list Chunk.t) (st : Loop) : Loop :=
  match rest with
  | [] => st
  | chunk :: rest' =>
      let '(outcome, w) :=
        generateReviewWithRetry (chunkRequest request i total chunk) (world st) in
      let called := calls st ++ [(totalCost st, outcome)] in
      match outcome with
      | Ok review =>
          let st' :=
            {| reviews := reviews st ++ [review];
               totalCost :=
                 PrimFloat.add (totalCost st)
                               (TokenUsage.estimatedCost (Review.usage review));
               calls := called;
               world := w |} in
          if overCostLimit (costLimit this) (totalCost st')
          then st'
          else chunkLoop this request total (S i) rest' st'
      | Throw _ =>
          chunkLoop this request total (S i) rest'
            {| reviews := reviews st;
               totalCost := totalCost st;
               calls := called;
               world := w |}
      end
  end.

Definition analyze (this : t) (request : Request.t) : Analysis.t :=
  EnhancedContextManager.analyzeAndChunk
    (enhancedContextManager this)
    (Request.changes request) (Request.findings request)
    {| Options.strategy := None;
       Options.systemPromptTokens := Some 500;
       Options.forceIncludeFiles :=
         match Request.context request with
         | Some ctx => Request.criticalFiles ctx
         | None => None
         end |}.

(** The loop of a run over more than one chunk (or none), from its
    initial state. *)
Definition runLoop (this : t) (request : Request.t) (w : World) : Loop :=
  let analysis := analyze this request in
  chunkLoop this request (List.length (Analysis.chunks analysis)) 0
            (Analysis.chunks analysis)
            {| reviews := []; totalCost := 0%float; calls := []; world := w |}.

Definition reviewWithEnhancedContext
    (this : t) (request : Request.t) (w : World) : Result Review.t * World :=
  let analysis := analyze this request in
  match Analysis.chunks analysis with
  | [chunk] => generateReviewWithRetry (singleRequest request chunk) w
  | _ =>
      let st := runLoop this request w in
      (mergeChunkReviews (reviews st) analysis, world st)
  end.

End Collaborator.

End EnhancedAIService.

(* ================================================================== *)
(** ** Reference definitions for the properties *)
(* ================================================================== *)

Module Plan.
Import EnhancedContextManager.

(** The order in which a group is offered to its chunk: the must-include
    items, then the others, each part in the order of the group. *)
Definition visitOrder (group : list Item.t) : list Item.t :=
  filter (fun c => Item.mustInclude c) group
  ++ filter (fun c => negb (Item.mustInclude c)) group.

(** The items a single chunk takes when it is offered [items] in order,
    starting from estimate [est]: an item is taken when it fits the
    budget or is must-include, and is passed over otherwise. *)
Fixpoint admitted (budget est : Z) (items : list Item.t) : list Item.t :=
  match items with
  | [] => []
  | item :: rest =>
      if (est + itemTokens item <=? budget) || Item.mustInclude item
      then item :: admitted budget (est + itemTokens item) rest
      else admitted budget est rest
  end.

Definition totalTokens (items : list Item.t) : Z :=
  fold_right (fun item sum => itemTokens item + sum) 0 items.

(** Number of chunks of a plan that hold a change of the file. *)
Definition chunksHolding (file : string) (chunks : list Chunk.t) : nat :=
  List.length
    (filter (fun chunk =>
               existsb (fun c => String.eqb (CodeChange.file c) file)
                       (Chunk.changes chunk))
            chunks).

(** No change of the input is force-included. *)
Definition noneForced
    (changes : list CodeChange.t) (forceIncludeFiles : option (list string)) : Prop :=
  match forceIncludeFiles with
  | Some files => forall change, In change changes -> ~ In (CodeChange.file change) files
  | None => True
  end.

(** The budget and the strategy that [analyzeAndChunk] works with. *)
Definition budget (this : Config.t) (options : Options.t) : Z :=
  availableTokens this (numOr (Options.systemPromptTokens options) 500).

Definition strategyOf
    (changes : list CodeChange.t) (findings : list Finding.t)
    (options : Options.t) : ChunkStrategy :=
  match Options.strategy options with
  | Some s => s
  | None => recommendChunkStrategy changes findings
  end.

(** A list in descending order of [key]. *)
Definition descending {A} (key : A -> Z) : list A -> Prop :=
  StronglySorted (fun a b => key b <= key a).

(** A chunk of a grouping strategy: the single chunk of one group, a
    group being a selection of the content in the order of the content. *)
Definition groupChunk (content : list Item.t) (budget : Z) (chunk : Chunk.t) : Prop :=
  exists (select : Item.t -> bool) (id description : string),
    chunk = createSingleChunk (filter select content) budget id description
    /\ Chunk.changes chunk <> [].

(** The changes and the findings that the loop of [chunkBySize] has placed
    so far, in its closed chunks and in the open one. *)
Definition sizeLoopChanges (st : SizeLoop) : list CodeChange.t :=
  flat_map Chunk.changes (chunks st) ++ Chunk.changes (currentChunk st).

Definition sizeLoopFindings (st : SizeLoop) : list Finding.t :=
  flat_map Chunk.findings (chunks st) ++ Chunk.findings (currentChunk st).

(** Invariant of that loop: closed chunks hold a change; the open chunk
    has findings only if it has changes. *)
Definition sizeLoopInv (st : SizeLoop) : Prop :=
  Forall (fun c => Chunk.changes c <> []) (chunks st)
  /\ (Chunk.changes (currentChunk st) = [] -> Chunk.findings (currentChunk st) = []).

(** A chunk is within the budget, or holds a single change. *)
Definition fitsOrAlone (budget : Z) (c : Chunk.t) : Prop :=
  Chunk.tokenEstimate c <= budget \/ List.length (Chunk.changes c) = 1%nat.

Definition sizeLoopFits (budget : Z) (st : SizeLoop) : Prop :=
  Forall (fitsOrAlone budget) (chunks st)
  /\ (Chunk.changes (currentChunk st) = [] \/ fitsOrAlone budget (currentChunk st)).

(** The changes a plan holds, chunk after chunk. *)
Definition placed (chunks : list Chunk.t) : list CodeChange.t :=
  flat_map Chunk.changes chunks.

(** [l] is, up to order, a part of [l']. *)
Definition subPermutation {A} (l l' : list A) : Prop :=
  exists rest, Permutation (l ++ rest) l'.
End Plan.

(* ================================================================== *)
(** ** Reference definitions for the chunked review *)
(* ================================================================== *)

Module Run.

(** The fixed order [request-changes > comment > approve]. *)
Definition rank (v : Verdict) : nat :=
  match v with
  | request_changes => 2
  | comment => 1
  | approve => 0
  end.

(** The dominant one of two verdicts. *)
Definition dominant (a b : Verdict) : Verdict :=
  if (rank a <? rank b)%nat then b else a.

(** The pairwise-dominant verdict of a list. *)
Definition dominantVerdict (verdicts : list Verdict) : Verdict :=
  fold_right dominant approve verdicts.

Definition verdictOf (review : Review.t) : Verdict :=
  Review.verdict (Review.summary review).

(** The reviews of the calls that returned, in the order of the calls. *)
Fixpoint returned (calls : list (float * Result Review.t)) : list Review.t :=
  match calls with
  | [] => []
  | (_, Ok review) :: rest => review :: returned rest
  | (_, Throw _) :: rest => returned rest
  end.

End Run.

(* ================================================================== *)
(** ** Sample inputs *)
(* ================================================================== *)

Module Sample.
Import EnhancedContextManager.

Fixpoint repeatChar (n : nat) (c : ascii) : string :=
  match n with
  | O => EmptyString
  | S k => String c (repeatChar k c)
  end.

Definition hunk (content : string) : DiffHunk.t :=
  {| DiffHunk.oldStart := 1; DiffHunk.oldLines := 1;
     DiffHunk.newStart := 1; DiffHunk.newLines := 1;
     DiffHunk.content := content; DiffHunk.context := None |}.

Definition change (file : string) (changeType : ChangeType)
    (hunks : list DiffHunk.t) : CodeChange.t :=
  {| CodeChange.file := file; CodeChange.language := None;
     CodeChange.changeType := changeType; CodeChange.hunks := hunks;
     CodeChange.content := None; CodeChange.previousContent := None |}.

Definition finding (id file : string) (type : FindingType)
    (severity : Severity) : Finding.t :=
  {| Finding.id := id; Finding.source := semgrep; Finding.type := type;
     Finding.severity := severity; Finding.rule := "rule";
     Finding.message := "message"; Finding.file := file;
     Finding.location := Finding.mkLocation 1 1 None None;
     Finding.codeSnippet := None; Finding.suggestion := None;
     Finding.autoFixable := false; Finding.confidence := 1%float |}.

Definition noConfig : Config.partial :=
  Config.mkPartial None None None None None None.

(** [new EnhancedContextManager()]: 128000 tokens, 4000 reserved. *)
Definition defaultManager : Config.t := constructor noConfig.

(** [new EnhancedContextManager({ model: 'gpt-4' })]: 8192 tokens, 4000
    reserved, so 3692 available next to a system prompt of 500. *)
Definition gpt4Manager : Config.t :=
  constructor (Config.mkPartial (Some "gpt-4") None None None None None).

(** A manager with the budget of [gpt4Manager] and other settings. *)
Definition otherManager : Config.t :=
  {| Config.model := "custom"; Config.contextWindowSize := 16385;
     Config.reservedTokens := 12193; Config.enableSmartChunking := false;
     Config.prioritizeSecurityIssues := false; Config.maxChunks := 3 |}.

(** One file of 10000 characters on a single line: 6550 tokens. *)
Definition bundle : CodeChange.t :=
  change "dist/bundle.js" modified [hunk (repeatChar (100 * 100) "a")].

(** Two files of one module, 2650 tokens each. *)
Definition parser : CodeChange.t :=
  change "src/parser.js" modified [hunk (repeatChar (40 * 100) "a")].
Definition printer : CodeChange.t :=
  change "src/printer.js" modified [hunk (repeatChar (40 * 100) "b")].

Definition byModule : Options.t :=
  {| Options.strategy := Some BY_MODULE; Options.systemPromptTokens := None;
     Options.forceIncludeFiles := None |}.

(** A force-included file under the severity strategy. *)
Definition login : CodeChange.t :=
  change "src/login.ts" modified [hunk "+ const ok = check(user);"].

Definition forcedBySeverity : Options.t :=
  {| Options.strategy := Some BY_SEVERITY; Options.systemPromptTokens := None;
     Options.forceIncludeFiles := Some ["src/login.ts"] |}.

Definition forcedBy (strategy : ChunkStrategy) : Options.t :=
  {| Options.strategy := Some strategy; Options.systemPromptTokens := None;
     Options.forceIncludeFiles := Some ["src/login.ts"] |}.

(** A strategy chosen by the caller, no file force-included. *)
Definition planBy (strategy : ChunkStrategy) : Options.t :=
  {| Options.strategy := Some strategy; Options.systemPromptTokens := None;
     Options.forceIncludeFiles := None |}.

(** The priority-override scenario: [auth.js] without findings and
    [utils.js] with one low-severity finding, both with the same hunks. *)
Definition sameHunks : list DiffHunk.t := [hunk "+ return value;"].
Definition authJs (changeType : ChangeType) : CodeChange.t :=
  change "auth.js" changeType sameHunks.
Definition utilsJs (changeType : ChangeType) : CodeChange.t :=
  change "utils.js" changeType sameHunks.
Definition lowFinding : Finding.t := finding "f1" "utils.js" style low.
End Sample.

(** Collaborators and requests to run the loop on. *)
Module Service.

Definition review (verdict : Verdict) (cost : float) : Review.t :=
  {| Review.summary :=
       {| Review.verdict := verdict; Review.confidence := 0.5%float;
          Review.message := "ok"; Review.healthScore := None |};
     Review.comments := [];
     Review.suggestions := [];
     Review.metrics :=
       {| Review.issuesFound := 0%float; Review.criticalIssues := 0%float;
          Review.improvements := 0%float; Review.estimatedImpact := Impact.low |};
     Review.usage :=
       {| TokenUsage.promptTokens := 100%float;
          TokenUsage.completionTokens := 50%float;
          TokenUsage.totalTokens := 150%float;
          TokenUsage.model := "gpt-4-turbo-preview";
          TokenUsage.estimatedCost := cost |} |}.

(** The world is the number of calls made so far.  This collaborator
    throws on the calls whose number is listed and otherwise returns a
    review of the given cost. *)
Definition failingOn (failing : list nat) (cost : float)
    (request : Request.t) (n : nat) : Result Review.t * nat :=
  if existsb (Nat.eqb n) failing
  then (Throw "Request timed out", S n)
  else (Ok (review comment cost), S n).

Definition costing (cost : float) : Request.t -> nat -> Result Review.t * nat :=
  failingOn [] cost.

Definition alwaysFailing (request : Request.t) (n : nat) : Result Review.t * nat :=
  (Throw "Request timed out", S n).

(** Six small files in six top-level directories: the module strategy
    is recommended and plans six chunks. *)
Definition sixModules : list CodeChange.t :=
  map (fun dir => Sample.change (dir ++ "/index.ts")%string modified
                                [Sample.hunk "+ export {};"])
      ["api"; "core"; "db"; "ui"; "jobs"; "docs"].

Definition request : Request.t :=
  {| Request.pullRequest :=
       {| Request.number := 7; Request.title := "Split modules";
          Request.description := None; Request.author := "dev";
          Request.repository := "org/repo" |};
     Request.changes := sixModules;
     Request.findings := [];
     Request.context := None;
     Request.options := None |}.

Definition withLimit (limit : float) : EnhancedAIService.t :=
  {| EnhancedAIService.costLimit := Some limit;
     EnhancedAIService.enhancedContextManager := Sample.defaultManager |}.

End Service.

(* ================================================================== *)
(** ** Reference definitions for the further properties *)
(* ================================================================== *)

Module Sign.
(** The sign bit of a binary64 value ([NaN] counts as unsigned). *)
Definition negative (x : spec_float) : bool :=
  match x with
  | S754_zero s | S754_infinity s | S754_finite s _ _ => s
  | S754_nan => false
  end.
End Sign.

Module Cover.
Import EnhancedContextManager Plan.

(** The priority levels that the planner assigns. *)
Definition levels : list Z := [20; 40; 50; 70; 80; 90; 100].

(** A chunk built, from an empty chunk, by adding a non-empty selection of
    the content item after item. *)
Definition builtFrom (content : list Item.t) (chunk : Chunk.t) : Prop :=
  exists (taken : list Item.t) (id description : string),
    chunk = fold_left addItem taken (emptyChunk id description)
    /\ taken <> []
    /\ incl taken content.

(** The state of the loop of [chunkBySize] is built from the content. *)
Definition sizeLoopBuilt (content : list Item.t) (st : SizeLoop) : Prop :=
  Forall (builtFrom content) (chunks st)
  /\ exists (taken : list Item.t),
       currentChunk st = fold_left addItem taken (numberedChunk (chunkCount st))
       /\ incl taken content.
End Cover.

Module MoreSamples.
Import EnhancedContextManager.

(** A manager whose window is no larger than its reserve: 500 tokens short
    before any change is counted. *)
Definition tinyManager : Config.t :=
  constructor (Config.mkPartial (Some "gpt-4") (Some 4000) (Some 4000) None None None).

Definition bySize : Options.t :=
  {| Options.strategy := Some BY_SIZE; Options.systemPromptTokens := None;
     Options.forceIncludeFiles := None |}.

(** The id and the description of the chunk numbered [k] of [chunkBySize]. *)
Definition sizeChunkId (k : nat) : string := ("chunk-" ++ Js.showNat k)%string.
Definition sizeChunkDescription (k : nat) : string := ("Chunk " ++ Js.showNat k)%string.

(** The loop of [chunkBySize] numbers its chunks from 1. *)
Definition sizeLoopNumbered (st : SizeLoop) : Prop :=
  chunkCount st = S (List.length (chunks st))
  /\ map Chunk.id (chunks st) = map sizeChunkId (seq 1 (List.length (chunks st)))
  /\ map Chunk.description (chunks st)
     = map sizeChunkDescription (seq 1 (List.length (chunks st)))
  /\ Chunk.id (currentChunk st) = sizeChunkId (chunkCount st)
  /\ Chunk.description (currentChunk st) = sizeChunkDescription (chunkCount st).

Definition emptyRequest : Request.t :=
  {| Request.pullRequest := Request.pullRequest Service.request;
     Request.changes := [];
     Request.findings := [Sample.lowFinding];
     Request.context := None;
     Request.options := None |}.
End MoreSamples.

Module Merge.

(** The order [critical > high > medium > low] of impacts. *)
Definition impactRank (impact : Impact.t) : nat :=
  match impact with
  | Impact.critical => 3
  | Impact.high => 2
  | Impact.medium => 1
  | Impact.low => 0
  end.

Definition worse (a b : Impact.t) : Impact.t :=
  if (impactRank a <? impactRank b)%nat then b else a.

(** The most severe impact of a list ([low] for none). *)
Definition worstImpact (impacts : list Impact.t) : Impact.t :=
  fold_right worse Impact.low impacts.

Definition impactOf (review : Review.t) : Impact.t :=
  Review.estimatedImpact (Review.metrics review).

Definition costOf (review : Review.t) : float :=
  TokenUsage.estimatedCost (Review.usage review).
End Merge.

(* ================================================================== *)
(** ** [class ContextManager] ([context-manager.ts]), the standard
       context manager behind [reviewWithStandardContext] *)
(* ================================================================== *)

Module JsMore.

(** [s.split(sep)[0]] for a non-empty separator: what stands before the
    first occurrence of [sep], and all of [s] when there is none. *)
Fixpoint beforeFirst (sep s : string) : string :=
  if String.prefix sep s then EmptyString
  else match s with
       | EmptyString => EmptyString
       | String c rest => String c (beforeFirst sep rest)
       end.

(** [l.join(sep)] *)
Fixpoint join (sep : string) (l : list string) : string :=
  match l with
  | [] => EmptyString
  | [x] => x
  | x :: rest => (x ++ sep ++ join sep rest)%string
  end.

(** [m.get(k) || 0] on a map of numbers. *)
Definition getOrZero (m : Js.Map Z) (k : string) : Z :=
  match Js.get m k with
  | Some v => v
  | None => 0
  end.

End JsMore.

(** A batch of [createBatches]. *)
Module Batch.
Record t : Set := mk {
  changes : list CodeChange.t;
  findings : list Finding.t;
  tokenEstimate : Z
}.
End Batch.

(** The result of [createBatches]. *)
Module Batches.
Record t : Set := mk {
  batches : list Batch.t;
  strategy : string
}.
End Batches.

(** The [tokenUsage] of the result of [prioritizeChanges]. *)
Module WindowUsage.
Record t : Set := mk {
  systemPrompt : Z;
  changes : Z;
  findings : Z;
  total : Z;
  available : Z
}.
End WindowUsage.

(** The result of [prioritizeChanges]. *)
Module Prioritized.
Record t : Set := mk {
  includedChanges : list CodeChange.t;
  excludedChanges : list CodeChange.t;
  tokenUsage : WindowUsage.t
}.
End Prioritized.

(** A group of [groupRelatedFiles]. *)
Module FileGroup.
Record t : Set := mk {
  changes : list CodeChange.t;
  commonPath : string
}.
End FileGroup.

Module ContextManager.

Definition CONTEXT_WINDOWS : Js.Map Z :=
  [ ("gpt-4-turbo-preview", 128000); ("gpt-4-1106-preview", 128000);
    ("gpt-4-vision-preview", 128000); ("gpt-4", 8192); ("gpt-4-32k", 32768);
    ("gpt-3.5-turbo", 16385); ("gpt-3.5-turbo-16k", 16385); ("default", 8192) ].

Inductive ContentType : Set := code | text | markdown | json.

(** [TOKEN_MULTIPLIERS[type]]; every entry is truthy. *)
Definition TOKEN_MULTIPLIERS (type : ContentType) : float :=
  match type with
  | code => 0.4%float
  | text => 0.25%float
  | markdown => 0.3%float
  | json => 0.35%float
  end.

Record t : Set := mk {
  contextWindowSize : Z;
  reservedTokens : Z
}.

(** The test of the prefix loop on one entry of the table. *)
Definition prefixMatches (model : string) (entry : string * Z) : bool :=
  let prefix := JsMore.beforeFirst "-preview" (fst entry) in
  Js.truthy prefix && Js.startsWith model prefix.

(** The exact match, then the first entry whose key, cut before
    [-preview], starts the name of the model, then the default.  (A model
    named like a property of [Object.prototype] is outside the model.) *)
Definition getContextWindowSize (model : string) : Z :=
  match Js.get CONTEXT_WINDOWS model with
  | Some exactMatch => exactMatch
  | None =>
      match find (prefixMatches model) CONTEXT_WINDOWS with
      | Some (_, size) => size
      | None => numOr (Js.get CONTEXT_WINDOWS "default") 8192
      end
  end.

(** [new ContextManager(model, reservedTokens)]; a parameter left
    [undefined] takes its default. *)
Definition constructor (model : option string) (reservedTokens : option Z) : t :=
  {| contextWindowSize :=
       getContextWindowSize
         match model with Some m => m | None => "gpt-4-turbo-preview" end;
     reservedTokens := match reservedTokens with Some r => r | None => 4000 end |}.

Definition estimateTokens (content : string) (type : option ContentType) : Z :=
  let type := match type with Some ty => ty | None => code end in
  let multiplier := TOKEN_MULTIPLIERS type in
  Js.ceil (PrimFloat.mul (Js.ofZ (Z.of_nat (String.length content))) multiplier).

Definition getAvailableTokens (this : t) : Z :=
  contextWindowSize this - reservedTokens this.

Definition getSeverityScore (severity : Severity) : Z :=
  match severity with
  | critical => 4
  | high => 3
  | medium => 2
  | low => 1
  end.

Definition estimateHunkTokens (hunk : DiffHunk.t) : Z :=
  estimateTokens (DiffHunk.content hunk) (Some code)
  + match DiffHunk.context hunk with
    | Some ctx =>
        (if Js.truthy (DiffHunk.before ctx)
         then estimateTokens (DiffHunk.before ctx) (Some code) else 0)
        + (if Js.truthy (DiffHunk.after ctx)
           then estimateTokens (DiffHunk.after ctx) (Some code) else 0)
    | None => 0
    end.

Definition estimateChangeTokens (change : CodeChange.t) : Z :=
  fold_left (fun tokens hunk => tokens + estimateHunkTokens hunk)
            (CodeChange.hunks change) 50.

Definition estimateFindingsTokens (findings : list Finding.t) : Z :=
  len findings * 50.

(** The [fileSeverityMap]: for each file the highest score of its
    findings. *)
Definition fileSeverityMap (findings : list Finding.t) : Js.Map Z :=
  fold_left
    (fun m finding =>
       let current := JsMore.getOrZero m (Finding.file finding) in
       let severity := getSeverityScore (Finding.severity finding) in
       Js.set m (Finding.file finding) (Z.max current severity))
    findings [].

Definition typeOrder (changeType : ChangeType) : Z :=
  match changeType with
  | modified => 0
  | added => 1
  | deleted => 2
  end.

Definition changeSize (change : CodeChange.t) : Z :=
  fold_left (fun sum h => sum + Z.of_nat (String.length (DiffHunk.content h)))
            (CodeChange.hunks change) 0.

(** The comparator of the sort in [prioritizeChangesByImportance]. *)
Definition compareImportance (severities : Js.Map Z) (a b : CodeChange.t) : Z :=
  let aSeverity := JsMore.getOrZero severities (CodeChange.file a) in
  let bSeverity := JsMore.getOrZero severities (CodeChange.file b) in
  if negb (aSeverity =? bSeverity) then bSeverity - aSeverity
  else
    let aType := typeOrder (CodeChange.changeType a) in
    let bType := typeOrder (CodeChange.changeType b) in
    if negb (aType =? bType) then aType - bType
    else changeSize a - changeSize b.

Definition prioritizeChangesByImportance
    (changes : list CodeChange.t) (findings : list Finding.t) : list CodeChange.t :=
  Js.sort (compareImportance (fileSeverityMap findings)) changes.

(** The hunk cut to the first half of its lines, with the marker. *)
Definition truncateHunk (hunk : DiffHunk.t) : DiffHunk.t :=
  let lines := Js.split Js.LF (DiffHunk.content hunk) in
  let truncatedLines := firstn (Nat.div (List.length lines) 2) lines in
  {| DiffHunk.oldStart := DiffHunk.oldStart hunk;
     DiffHunk.oldLines := DiffHunk.oldLines hunk;
     DiffHunk.newStart := DiffHunk.newStart hunk;
     DiffHunk.newLines := DiffHunk.newLines hunk;
     DiffHunk.content :=
       (JsMore.join (String Js.LF EmptyString) truncatedLines
        ++ String Js.LF "... (truncated)")%string;
     DiffHunk.context := DiffHunk.context hunk |}.

(** The loop of [truncateChange] over the hunks still to visit; the
    truncated hunk ends it ([break]). *)
Fixpoint truncateHunks
    (maxTokens : Z) (hunks : list DiffHunk.t)
    (kept : list DiffHunk.t) (currentTokens : Z) : list DiffHunk.t :=
  match hunks with
  | [] => kept
  | hunk :: rest =>
      let hunkTokens := estimateTokens (DiffHunk.content hunk) (Some code) in
      if currentTokens + hunkTokens <=? maxTokens
      then truncateHunks maxTokens rest (kept ++ [hunk]) (currentTokens + hunkTokens)
      else if currentTokens + 100 <=? maxTokens
      then kept ++ [truncateHunk hunk]
      else truncateHunks maxTokens rest kept currentTokens
  end.

Definition truncateChange (change : CodeChange.t) (maxTokens : Z)
  : option CodeChange.t :=
  if maxTokens <? 100 then None
  else
    let hunks := truncateHunks maxTokens (CodeChange.hunks change) [] 50 in
    if 0 <? len hunks
    then Some {| CodeChange.file := CodeChange.file change;
                 CodeChange.language := CodeChange.language change;
                 CodeChange.changeType := CodeChange.changeType change;
                 CodeChange.hunks := hunks;
                 CodeChange.content := CodeChange.content change;
                 CodeChange.previousContent := CodeChange.previousContent change |}
    else None.

(** The variables of the loop of [prioritizeChanges]. *)
Record Fill : Set := mkFill {
  includedChanges : list CodeChange.t;
  excludedChanges : list CodeChange.t;
  currentTokens : Z
}.

Definition fillStep (availableTokens : Z) (st : Fill) (change : CodeChange.t) : Fill :=
  let changeTokens := estimateChangeTokens change in
  if currentTokens st + changeTokens <=? availableTokens
  then {| includedChanges := includedChanges st ++ [change];
          excludedChanges := excludedChanges st;
          currentTokens := currentTokens st + changeTokens |}
  else
    match truncateChange change (availableTokens - currentTokens st) with
    | Some truncatedChange =>
        {| includedChanges := includedChanges st ++ [truncatedChange];
           excludedChanges := excludedChanges st;
           currentTokens := currentTokens st + estimateChangeTokens truncatedChange |}
    | None =>
        {| includedChanges := includedChanges st;
           excludedChanges := excludedChanges st ++ [change];
           currentTokens := currentTokens st |}
    end.

(** The findings that count against the window:
    [findings.filter(f => f.severity === 'critical' || f.severity === 'high')]. *)
Definition criticalFindings (findings : list Finding.t) : list Finding.t :=
  filter (fun f => Severity_eqb (Finding.severity f) critical
                   || Severity_eqb (Finding.severity f) high)
         findings.

Definition prioritizeChanges
    (this : t) (changes : list CodeChange.t) (findings : list Finding.t)
    (systemPromptTokens : option Z) : Prioritized.t :=
  let systemPromptTokens :=
    match systemPromptTokens with Some n => n | None => 500 end in
  let availableTokens := getAvailableTokens this - systemPromptTokens in
  let findingsTokens := estimateFindingsTokens (criticalFindings findings) in
  let prioritizedChanges := prioritizeChangesByImportance changes findings in
  let st :=
    fold_left (fillStep availableTokens) prioritizedChanges
              {| includedChanges := []; excludedChanges := []; currentTokens := findingsTokens |} in
  {| Prioritized.includedChanges := includedChanges st;
     Prioritized.excludedChanges := excludedChanges st;
     Prioritized.tokenUsage :=
       {| WindowUsage.systemPrompt := systemPromptTokens;
          WindowUsage.changes := currentTokens st - findingsTokens;
          WindowUsage.findings := findingsTokens;
          WindowUsage.total := systemPromptTokens + currentTokens st;
          WindowUsage.available := getAvailableTokens this |} |}.

(** The directory of a file of more than two path segments, ['root']
    otherwise. *)
Definition moduleOf (file : string) : string :=
  let parts := Js.split "/" file in
  if 2 <? len parts then JsMore.join "/" (removelast parts) else "root".

(** The groups in the order in which their modules first occur. *)
Definition groupRelatedFiles (changes : list CodeChange.t) : list FileGroup.t :=
  map (fun entry => {| FileGroup.changes := snd entry;
                       FileGroup.commonPath := fst entry |})
      (Js.groupBy (fun change => moduleOf (CodeChange.file change)) changes).

(** The variables of the loop of [createBatches]. *)
Record BatchLoop : Set := mkBatchLoop {
  batches : list Batch.t;
  currentBatch : Batch.t
}.

Definition batchStep (findings : list Finding.t) (availableTokens : Z)
    (st : BatchLoop) (group : FileGroup.t) : BatchLoop :=
  let groupTokens :=
    fold_left (fun sum change => sum + estimateChangeTokens change)
              (FileGroup.changes group) 0 in
  let groupFindings :=
    filter (fun f => existsb (fun c => String.eqb (CodeChange.file c) (Finding.file f))
                             (FileGroup.changes group))
           findings in
  let findingsTokens := estimateFindingsTokens groupFindings in
  if availableTokens
     <? Batch.tokenEstimate (currentBatch st) + groupTokens + findingsTokens
  then
    {| batches := if 0 <? len (Batch.changes (currentBatch st))
                  then batches st ++ [currentBatch st]
                  else batches st;
       currentBatch := {| Batch.changes := FileGroup.changes group;
                          Batch.findings := groupFindings;
                          Batch.tokenEstimate := groupTokens + findingsTokens |} |}
  else
    {| batches := batches st;
       currentBatch :=
         {| Batch.changes := Batch.changes (currentBatch st) ++ FileGroup.changes group;
            Batch.findings := Batch.findings (currentBatch st) ++ groupFindings;
            Batch.tokenEstimate :=
              Batch.tokenEstimate (currentBatch st) + groupTokens + findingsTokens |} |}.

(** The loop over the groups; it ends early ([break]) once
    [batches.length >= maxBatches - 1]. *)
Fixpoint batchLoop (findings : list Finding.t) (availableTokens maxBatches : Z)
    (groups : list FileGroup.t) (st : BatchLoop) : BatchLoop :=
  match groups with
  | [] => st
  | group :: rest =>
      let st' := batchStep findings availableTokens st group in
      if maxBatches - 1 <=? len (batches st') then st'
      else batchLoop findings availableTokens maxBatches rest st'
  end.

Definition createBatches (this : t) (changes : list CodeChange.t)
    (findings : list Finding.t) (maxBatches : option Z) : Batches.t :=
  let maxBatches := match maxBatches with Some n => n | None => 5 end in
  let fileGroups := groupRelatedFiles changes in
  let systemPromptTokens := 500 in
  let availableTokens := getAvailableTokens this - systemPromptTokens in
  let st :=
    batchLoop findings availableTokens maxBatches fileGroups
      {| batches := [];
         currentBatch := {| Batch.changes := []; Batch.findings := [];
                            Batch.tokenEstimate := 0 |} |} in
  let batches :=
    if 0 <? len (Batch.changes (currentBatch st))
    then batches st ++ [currentBatch st]
    else batches st in
  {| Batches.batches := batches;
     Batches.strategy :=
       if 1 <? len batches then "split-by-module" else "single-batch" |}.

End ContextManager.

(** What the standard manager is measured against. *)
Module Importance.

(** The highest severity score among the findings of [file]; 0 when it
    has none. *)
Definition fileSeverity (findings : list Finding.t) (file : string) : Z :=
  fold_left Z.max
    (map (fun f => ContextManager.getSeverityScore (Finding.severity f))
         (filter (fun f => String.eqb (Finding.file f) file) findings))
    0.

(** [a] may stand before [b]: a higher file severity first, then
    modified before added before deleted, then the smaller change. *)
Definition before (findings : list Finding.t) (a b : CodeChange.t) : Prop :=
  let sa := fileSeverity findings (CodeChange.file a) in
  let sb := fileSeverity findings (CodeChange.file b) in
  let ta := ContextManager.typeOrder (CodeChange.changeType a) in
  let tb := ContextManager.typeOrder (CodeChange.changeType b) in
  sb < sa \/
  (sa = sb /\
   (ta < tb \/
    (ta = tb /\ ContextManager.changeSize a <= ContextManager.changeSize b))).

(** The estimates of a list of changes, added up. *)
Definition sumTokens (changes : list CodeChange.t) : Z :=
  fold_right (fun c sum => ContextManager.estimateChangeTokens c + sum) 0 changes.

(** The estimates of the contents of a list of hunks, added up. *)
Definition sumContentTokens (hunks : list DiffHunk.t) : Z :=
  fold_right
    (fun h sum =>
       ContextManager.estimateTokens (DiffHunk.content h)
                                     (Some ContextManager.code) + sum)
    0 hunks.


(** Whether [change] is one of the input changes or a truncated version of
    one. *)
Definition fromInput (changes : list CodeChange.t) (change : CodeChange.t) : Prop :=
  In change changes \/
  exists original maxTokens,
    In original changes /\
    ContextManager.truncateChange original maxTokens = Some change.

End Importance.

Module StandardSamples.
Import ContextManager.

(** [new ContextManager('gpt-4')]: 8192 tokens, 4000 reserved. *)
Definition gpt4 : ContextManager.t := constructor (Some "gpt-4") None.


(** Two small changes: 90 and 58 tokens. *)
Definition small : list CodeChange.t :=
  [ Sample.change "src/a.ts" added [Sample.hunk (Sample.repeatChar 100 "a")];
    Sample.change "src/b.ts" modified [Sample.hunk (Sample.repeatChar 20 "b")] ].

End StandardSamples.

(* ================================================================== *)
(** ** Facts about the JavaScript library model *)
(* ================================================================== *)

Section SortFacts.
Context {A : Type} (cmp : A -> A -> Z).

Lemma insert_Permutation (x : A) (l : list A) :
  Permutation (Js.insert cmp x l) (x :: l).
Proof.
  induction l as [|y rest IH]; simpl.
  - apply Permutation_refl.
  - destruct (0 <? cmp x y).
    + eapply perm_trans; [apply perm_skip, IH | apply perm_swap].
    + apply Permutation_refl.
Qed.

Lemma sort_Permutation (l : list A) : Permutation (Js.sort cmp l) l.
Proof.
  induction l as [|x rest IH]; simpl.
  - constructor.
  - eapply perm_trans; [apply insert_Permutation | apply perm_skip, IH].
Qed.

Lemma sort_In (l : list A) (x : A) : In x (Js.sort cmp l) <-> In x l.
Proof.
  split; apply Permutation_in;
    [apply sort_Permutation | apply Permutation_sym, sort_Permutation].
Qed.
End SortFacts.

(** Sorting by [key b - key a] puts the keys in descending order. *)
Section SortDescending.
Context {A : Type} (key : A -> Z).

Lemma insert_descending (x : A) (l : list A) :
  Plan.descending key l ->
  Plan.descending key (Js.insert (fun a b => key b - key a) x l).
Proof.
  unfold Plan.descending.
  induction l as [|y rest IH]; simpl; intros Hs.
  - constructor; [constructor | constructor].
  - inversion Hs as [|? ? Hrest Hall]; subst.
    destruct (0 <? key y - key x) eqn:E.
    + apply Z.ltb_lt in E.
      constructor; [now apply IH|].
      apply Forall_forall; intros z Hz.
      apply (Permutation_in _ (insert_Permutation _ x rest)) in Hz.
      destruct Hz as [<- | Hz]; [lia|].
      rewrite Forall_forall in Hall; now apply Hall.
    + apply Z.ltb_ge in E.
      constructor; [assumption|].
      constructor; [lia|].
      rewrite Forall_forall in Hall |- *; intros z Hz.
      specialize (Hall z Hz); lia.
Qed.

Lemma sort_descending (l : list A) :
  Plan.descending key (Js.sort (fun a b => key b - key a) l).
Proof.
  induction l as [|x rest IH]; simpl.
  - constructor.
  - now apply insert_descending.
Qed.

Lemma filter_descending (f : A -> bool) (l : list A) :
  Plan.descending key l -> Plan.descending key (filter f l).
Proof.
  unfold Plan.descending.
  induction 1 as [|x rest Hs IH Hall]; simpl; [constructor|].
  destruct (f x); [|assumption].
  constructor; [assumption|].
  rewrite Forall_forall in Hall |- *; intros z Hz.
  apply filter_In in Hz; now apply Hall.
Qed.
End SortDescending.

Section MapFacts.
Context {V : Type}.

Lemma get_set (m : Js.Map V) (k j : string) (v : V) :
  Js.get (Js.set m k v) j = if String.eqb k j then Some v else Js.get m j.
Proof.
  induction m as [|[k' v'] rest IH]; simpl.
  - reflexivity.
  - destruct (String.eqb k' k) eqn:E; simpl.
    + apply String.eqb_eq in E; subst k'.
      now destruct (String.eqb k j).
    + rewrite IH.
      destruct (String.eqb k' j) eqn:E'; [|reflexivity].
      apply String.eqb_eq in E'; subst k'.
      rewrite String.eqb_sym in E. now rewrite E.
Qed.

Lemma set_keys (m : Js.Map V) (k : string) (v : V) :
  map fst (Js.set m k v)
  = if existsb (String.eqb k) (map fst m) then map fst m else map fst m ++ [k].
Proof.
  induction m as [|[k' v'] rest IH]; simpl.
  - reflexivity.
  - rewrite (String.eqb_sym k k').
    destruct (String.eqb k' k) eqn:E; simpl; [reflexivity|].
    rewrite IH. now destruct (existsb (String.eqb k) (map fst rest)).
Qed.

Lemma set_NoDup (m : Js.Map V) (k : string) (v : V) :
  NoDup (map fst m) -> NoDup (map fst (Js.set m k v)).
Proof.
  intros Hnd. rewrite set_keys.
  destruct (existsb (String.eqb k) (map fst m)) eqn:E; [assumption|].
  apply NoDup_app; [assumption | repeat constructor; intros [] | ].
  intros x Hx [Hk | []]; subst x.
  assert (existsb (String.eqb k) (map fst m) = true) as Hex.
  { apply existsb_exists. exists k. split; [assumption | apply String.eqb_refl]. }
  congruence.
Qed.

Lemma get_In (m : Js.Map V) (k : string) (v : V) :
  NoDup (map fst m) -> In (k, v) m -> Js.get m k = Some v.
Proof.
  induction m as [|[k' v'] rest IH]; simpl; intros Hnd Hin; [contradiction|].
  inversion Hnd as [|? ? Hk Hrest]; subst.
  destruct Hin as [Heq | Hin].
  - inversion Heq; subst. now rewrite String.eqb_refl.
  - destruct (String.eqb k' k) eqn:E.
    + apply String.eqb_eq in E; subst k'.
      exfalso; apply Hk. now apply (in_map fst) in Hin.
    + now apply IH.
Qed.
End MapFacts.

(** [groupBy] collects, under each key, the elements with that key, in
    their input order. *)
Section GroupByFacts.
Context {A : Type} (key : A -> string).

Lemma getOrNil_fold (l : list A) (m : Js.Map (list A)) (k : string) :
  Js.getOrNil (fold_left (Js.pushInto key) l m) k
  = Js.getOrNil m k ++ filter (fun x => String.eqb (key x) k) l.
Proof.
  revert m; induction l as [|x rest IH]; intros m; simpl.
  - now rewrite app_nil_r.
  - rewrite IH.
    replace (Js.getOrNil (Js.pushInto key m x) k)
      with (if String.eqb (key x) k
            then Js.getOrNil m (key x) ++ [x] else Js.getOrNil m k).
    + destruct (String.eqb (key x) k) eqn:E.
      * apply String.eqb_eq in E; subst k. now rewrite <- app_assoc.
      * reflexivity.
    + unfold Js.pushInto, Js.getOrNil. rewrite get_set.
      now destruct (String.eqb (key x) k).
Qed.

Lemma getOrNil_groupBy (l : list A) (k : string) :
  Js.getOrNil (Js.groupBy key l) k = filter (fun x => String.eqb (key x) k) l.
Proof. exact (getOrNil_fold l [] k). Qed.

Lemma fold_NoDup (l : list A) (m : Js.Map (list A)) :
  NoDup (map fst m) -> NoDup (map fst (fold_left (Js.pushInto key) l m)).
Proof.
  revert m; induction l as [|x rest IH]; intros m Hnd; simpl; [assumption|].
  apply IH. unfold Js.pushInto. now apply set_NoDup.
Qed.

Lemma groupBy_In (l : list A) (k : string) (g : list A) :
  In (k, g) (Js.groupBy key l) ->
  g = filter (fun x => String.eqb (key x) k) l.
Proof.
  intros Hin. rewrite <- getOrNil_groupBy.
  unfold Js.getOrNil.
  rewrite (get_In (Js.groupBy key l) k g); [reflexivity | | assumption].
  apply (fold_NoDup l []). constructor.
Qed.
End GroupByFacts.

(* ================================================================== *)
(** ** The planner: single chunks and the size-based strategy *)
(* ================================================================== *)

Section ChunkFacts.
Import EnhancedContextManager Plan.

Lemma addItems_changes (sel : list Item.t) (chunk : Chunk.t) :
  Chunk.changes (fold_left addItem sel chunk)
  = Chunk.changes chunk ++ map Item.change sel.
Proof.
  revert chunk; induction sel as [|item rest IH]; intros chunk; simpl.
  - now rewrite app_nil_r.
  - rewrite IH. simpl. now rewrite <- app_assoc.
Qed.

Lemma addItems_findings (sel : list Item.t) (chunk : Chunk.t) :
  Chunk.findings (fold_left addItem sel chunk)
  = Chunk.findings chunk ++ flat_map Item.relatedFindings sel.
Proof.
  revert chunk; induction sel as [|item rest IH]; intros chunk; simpl.
  - now rewrite app_nil_r.
  - rewrite IH. simpl. now rewrite <- app_assoc.
Qed.

Lemma addItems_tokenEstimate (sel : list Item.t) (chunk : Chunk.t) :
  Chunk.tokenEstimate (fold_left addItem sel chunk)
  = Chunk.tokenEstimate chunk + totalTokens sel.
Proof.
  revert chunk; induction sel as [|item rest IH]; intros chunk; simpl.
  - lia.
  - rewrite IH. simpl. lia.
Qed.

(** The loop of [createSingleChunk] adds exactly the admitted items. *)
Lemma createSingleChunk_loop (budget : Z) (items : list Item.t) (chunk : Chunk.t) :
  fold_left
    (fun chunk item =>
       if (Chunk.tokenEstimate chunk + itemTokens item <=? budget)
          || Item.mustInclude item
       then addItem chunk item else chunk)
    items chunk
  = fold_left addItem (admitted budget (Chunk.tokenEstimate chunk) items) chunk.
Proof.
  revert chunk; induction items as [|item rest IH]; intros chunk; simpl.
  - reflexivity.
  - destruct ((Chunk.tokenEstimate chunk + itemTokens item <=? budget)
              || Item.mustInclude item); simpl; now rewrite IH.
Qed.

Lemma createSingleChunk_admitted
    (content : list Item.t) (budget : Z) (id description : string) :
  createSingleChunk content budget id description
  = fold_left addItem (admitted budget 0 (visitOrder content))
              (emptyChunk id description).
Proof. unfold createSingleChunk. now rewrite createSingleChunk_loop. Qed.

Lemma admitted_within_budget (budget : Z) (items : list Item.t) :
  Forall (fun c => Item.mustInclude c = false) items ->
  forall est,
    admitted budget est items = []
    \/ est + totalTokens (admitted budget est items) <= budget.
Proof.
  induction 1 as [|item rest Hitem Hrest IH]; intros est; simpl.
  - now left.
  - rewrite Hitem, orb_false_r.
    destruct (est + itemTokens item <=? budget) eqn:E.
    + right. apply Z.leb_le in E. simpl.
      destruct (IH (est + itemTokens item)) as [-> | Hle]; simpl; lia.
    + apply IH.
Qed.

Lemma visitOrder_In (group : list Item.t) (item : Item.t) :
  In item (visitOrder group) <-> In item group.
Proof.
  unfold visitOrder. rewrite in_app_iff, !filter_In.
  destruct (Item.mustInclude item); simpl; intuition congruence.
Qed.

(** Without must-include items a chunk of [createSingleChunk] that holds
    anything is within the budget. *)
Lemma createSingleChunk_within_budget
    (content : list Item.t) (budget : Z) (id description : string) :
  Forall (fun c => Item.mustInclude c = false) content ->
  Chunk.changes (createSingleChunk content budget id description) <> [] ->
  Chunk.tokenEstimate (createSingleChunk content budget id description) <= budget.
Proof.
  intros Hnone Hne.
  rewrite createSingleChunk_admitted in *.
  rewrite addItems_changes in Hne. rewrite addItems_tokenEstimate. simpl in *.
  destruct (admitted_within_budget budget (visitOrder content)) with (est := 0)
    as [Hnil | Hle].
  - rewrite Forall_forall in Hnone |- *. intros c Hc.
    apply Hnone. now apply visitOrder_In.
  - rewrite Hnil in Hne. now contradiction Hne.
  - lia.
Qed.

Lemma pushIfNonEmpty_In (chunk c : Chunk.t) :
  In c (pushIfNonEmpty chunk) -> c = chunk /\ Chunk.changes c <> [].
Proof.
  unfold pushIfNonEmpty, len.
  destruct (Chunk.changes chunk) as [|x l] eqn:E; simpl.
  - intros [].
  - intros [<- | []]. split; [reflexivity | now rewrite E].
Qed.

Lemma pushIfNonEmpty_changes (chunk : Chunk.t) :
  flat_map Chunk.changes (pushIfNonEmpty chunk) = Chunk.changes chunk.
Proof.
  unfold pushIfNonEmpty, len.
  destruct (Chunk.changes chunk) as [|x l] eqn:E; simpl.
  - reflexivity.
  - now rewrite app_nil_r.
Qed.

Lemma pushIfNonEmpty_findings (chunk : Chunk.t) :
  Chunk.changes chunk = [] -> Chunk.findings chunk = [] ->
  flat_map Chunk.findings (pushIfNonEmpty chunk) = Chunk.findings chunk.
Proof.
  unfold pushIfNonEmpty, len. intros Hc Hf.
  destruct (Chunk.changes chunk) as [|x l] eqn:E; simpl.
  - now rewrite Hf.
  - discriminate.
Qed.

(** *** [chunkBySize] *)

Lemma chunkBySizeStep_changes (budget : Z) (st : SizeLoop) (item : Item.t) :
  sizeLoopChanges (chunkBySizeStep budget st item)
  = sizeLoopChanges st ++ [Item.change item].
Proof.
  unfold chunkBySizeStep, sizeLoopChanges.
  destruct ((budget <? Chunk.tokenEstimate (currentChunk st) + itemTokens item)
            && (0 <? len (Chunk.changes (currentChunk st)))); simpl.
  - rewrite flat_map_app. simpl. now rewrite app_nil_r.
  - now rewrite app_assoc.
Qed.

Lemma chunkBySizeStep_findings (budget : Z) (st : SizeLoop) (item : Item.t) :
  sizeLoopFindings (chunkBySizeStep budget st item)
  = sizeLoopFindings st ++ Item.relatedFindings item.
Proof.
  unfold chunkBySizeStep, sizeLoopFindings.
  destruct ((budget <? Chunk.tokenEstimate (currentChunk st) + itemTokens item)
            && (0 <? len (Chunk.changes (currentChunk st)))); simpl.
  - rewrite flat_map_app. simpl. now rewrite app_nil_r.
  - now rewrite app_assoc.
Qed.

Lemma chunkBySize_loop_changes (budget : Z) (content : list Item.t) (st : SizeLoop) :
  sizeLoopChanges (fold_left (chunkBySizeStep budget) content st)
  = sizeLoopChanges st ++ map Item.change content.
Proof.
  revert st; induction content as [|item rest IH]; intros st; simpl.
  - now rewrite app_nil_r.
  - rewrite IH, chunkBySizeStep_changes. now rewrite <- app_assoc.
Qed.

Lemma chunkBySize_loop_findings (budget : Z) (content : list Item.t) (st : SizeLoop) :
  sizeLoopFindings (fold_left (chunkBySizeStep budget) content st)
  = sizeLoopFindings st ++ flat_map Item.relatedFindings content.
Proof.
  revert st; induction content as [|item rest IH]; intros st; simpl.
  - now rewrite app_nil_r.
  - rewrite IH, chunkBySizeStep_findings. now rewrite <- app_assoc.
Qed.

Lemma chunkBySizeStep_inv (budget : Z) (st : SizeLoop) (item : Item.t) :
  sizeLoopInv st -> sizeLoopInv (chunkBySizeStep budget st item).
Proof.
  unfold sizeLoopInv, chunkBySizeStep. intros [Hclosed Hopen].
  destruct (budget <? Chunk.tokenEstimate (currentChunk st) + itemTokens item);
    simpl.
  - unfold len.
    destruct (Chunk.changes (currentChunk st)) as [|x l] eqn:E; simpl.
    + split; [assumption|]. rewrite E. discriminate.
    + split.
      * apply Forall_app. split; [assumption|].
        constructor; [now rewrite E | constructor].
      * discriminate.
  - split; [assumption|].
    intros Habs. now apply app_eq_nil in Habs as [_ Habs].
Qed.

Lemma chunkBySize_loop_inv (budget : Z) (content : list Item.t) (st : SizeLoop) :
  sizeLoopInv st -> sizeLoopInv (fold_left (chunkBySizeStep budget) content st).
Proof.
  revert st; induction content as [|item rest IH]; intros st Hinv; simpl.
  - assumption.
  - now apply IH, chunkBySizeStep_inv.
Qed.

Lemma chunkBySizeStep_fits (budget : Z) (st : SizeLoop) (item : Item.t) :
  sizeLoopFits budget st -> sizeLoopFits budget (chunkBySizeStep budget st item).
Proof.
  unfold sizeLoopFits, chunkBySizeStep. intros [Hclosed Hopen].
  destruct (budget <? Chunk.tokenEstimate (currentChunk st) + itemTokens item)
    eqn:Eover; simpl.
  - unfold len.
    destruct (Chunk.changes (currentChunk st)) as [|x l] eqn:E; simpl.
    + split; [assumption|]. right. right. simpl. now rewrite E.
    + split.
      * apply Forall_app. split; [assumption|].
        constructor; [|constructor].
        destruct Hopen as [Habs | Hfit]; [congruence | assumption].
      * right. right. reflexivity.
  - apply Z.ltb_ge in Eover.
    split; [assumption|]. right. left. simpl. lia.
Qed.

Lemma chunkBySize_loop_fits (budget : Z) (content : list Item.t) (st : SizeLoop) :
  sizeLoopFits budget st ->
  sizeLoopFits budget (fold_left (chunkBySizeStep budget) content st).
Proof.
  revert st; induction content as [|item rest IH]; intros st Hinv; simpl.
  - assumption.
  - now apply IH, chunkBySizeStep_fits.
Qed.

Lemma chunkBySize_fitsOrAlone (content : list Item.t) (budget : Z) :
  Forall (fitsOrAlone budget) (chunkBySize content budget).
Proof.
  unfold chunkBySize.
  destruct (chunkBySize_loop_fits budget content
              {| chunks := []; currentChunk := numberedChunk 1; chunkCount := 1 |})
    as [Hclosed Hopen].
  { split; [constructor | now left]. }
  apply Forall_app. split; [assumption|].
  apply Forall_forall. intros c Hc.
  apply pushIfNonEmpty_In in Hc as [-> Hne].
  destruct Hopen as [Habs | Hfit]; [contradiction | assumption].
Qed.

End ChunkFacts.

(* ================================================================== *)
(** ** The planner: prioritisation and the grouping strategies *)
(* ================================================================== *)

Section StrategyFacts.
Import EnhancedContextManager Plan.

Lemma prioritizeContent_In
    (changes : list CodeChange.t) (findings : list Finding.t)
    (force : option (list string)) (item : Item.t) :
  In item (prioritizeContent changes findings force) <->
  exists change,
    In change changes
    /\ item = prioritizeChange (findingsByFile findings) force change.
Proof.
  unfold prioritizeContent. rewrite sort_In, in_map_iff.
  split; intros [change [H1 H2]]; exists change; split; auto.
Qed.

Lemma prioritizeContent_changes
    (changes : list CodeChange.t) (findings : list Finding.t)
    (force : option (list string)) :
  Permutation (map Item.change (prioritizeContent changes findings force)) changes.
Proof.
  unfold prioritizeContent.
  eapply perm_trans; [apply Permutation_map, sort_Permutation|].
  rewrite map_map. simpl. rewrite map_id. apply Permutation_refl.
Qed.

Lemma prioritizeContent_descending
    (changes : list CodeChange.t) (findings : list Finding.t)
    (force : option (list string)) :
  descending Item.priority (prioritizeContent changes findings force).
Proof. apply sort_descending. Qed.

Lemma prioritizeContent_noneForced
    (changes : list CodeChange.t) (findings : list Finding.t)
    (force : option (list string)) :
  noneForced changes force ->
  Forall (fun c => Item.mustInclude c = false)
         (prioritizeContent changes findings force).
Proof.
  intros Hnone. apply Forall_forall. intros item Hin.
  apply prioritizeContent_In in Hin as [change [Hchange ->]].
  unfold prioritizeChange; simpl.
  destruct force as [files|]; [|reflexivity].
  destruct (existsb (String.eqb (CodeChange.file change)) files) eqn:E;
    [|reflexivity].
  apply existsb_exists in E as [file [Hfile Heq]].
  apply String.eqb_eq in Heq; subst file.
  exfalso. exact (Hnone change Hchange Hfile).
Qed.

Lemma filter_filter {A} (f g : A -> bool) (l : list A) :
  filter f (filter g l) = filter (fun x => g x && f x) l.
Proof.
  induction l as [|x rest IH]; simpl; [reflexivity|].
  destruct (g x); simpl; [destruct (f x)|]; now rewrite IH.
Qed.

Lemma chunkBySeverity_groups (content : list Item.t) (budget : Z) (chunk : Chunk.t) :
  In chunk (chunkBySeverity content budget) -> groupChunk content budget chunk.
Proof.
  unfold chunkBySeverity. intros Hin.
  apply in_flat_map in Hin as [group [_ Hin]].
  destruct (len (filter (inGroup group) content) =? 0); [contradiction|].
  apply pushIfNonEmpty_In in Hin as [Heq Hne].
  exists (inGroup group). eauto.
Qed.

Lemma chunkByModule_groups (content : list Item.t) (budget : Z) (chunk : Chunk.t) :
  In chunk (chunkByModule content budget) -> groupChunk content budget chunk.
Proof.
  unfold chunkByModule. intros Hin.
  apply in_flat_map in Hin as [[module moduleContent] [Hentry Hin]].
  apply sort_In in Hentry. apply groupBy_In in Hentry.
  apply pushIfNonEmpty_In in Hin as [Heq Hne].
  exists (fun x => String.eqb (moduleOf x) module).
  rewrite <- Hentry. eauto.
Qed.

Lemma chunkByFileType_groups (content : list Item.t) (budget : Z) (chunk : Chunk.t) :
  In chunk (chunkByFileType content budget) -> groupChunk content budget chunk.
Proof.
  unfold chunkByFileType. intros Hin.
  apply in_flat_map in Hin as [[type typeContent] [Hentry Hin]].
  apply groupBy_In in Hentry.
  apply pushIfNonEmpty_In in Hin as [Heq Hne].
  exists (fun x => String.eqb (extOf x) type).
  rewrite <- Hentry. eauto.
Qed.

Lemma smartChunk_groups (content : list Item.t) (budget : Z) (chunk : Chunk.t) :
  In chunk (smartChunk content budget) -> groupChunk content budget chunk.
Proof.
  unfold smartChunk. intros Hin.
  apply in_app_or in Hin as [Hin | Hin].
  - destruct (0 <? len (filter isCriticalItem content)); [|contradiction].
    apply pushIfNonEmpty_In in Hin as [Heq Hne].
    exists isCriticalItem. eauto.
  - apply chunkByModule_groups in Hin as [select [id [description [Heq Hne]]]].
    rewrite filter_filter in Heq.
    eexists. eauto.
Qed.

Lemma createChunks_groups
    (this : Config.t) (content : list Item.t) (strategy : ChunkStrategy)
    (systemPromptTokens : Z) (chunk : Chunk.t) :
  strategy <> BY_SIZE ->
  In chunk (createChunks this content strategy systemPromptTokens) ->
  groupChunk content (availableTokens this systemPromptTokens) chunk.
Proof.
  intros Hs. unfold createChunks. destruct strategy; try contradiction.
  - apply chunkByModule_groups.
  - apply chunkBySeverity_groups.
  - apply chunkByFileType_groups.
  - apply smartChunk_groups.
Qed.

Lemma groupChunk_within_budget (content : list Item.t) (budget : Z) (chunk : Chunk.t) :
  Forall (fun c => Item.mustInclude c = false) content ->
  groupChunk content budget chunk ->
  Chunk.tokenEstimate chunk <= budget.
Proof.
  intros Hnone [select [id [description [-> Hne]]]].
  apply createSingleChunk_within_budget; [|assumption].
  rewrite Forall_forall in Hnone |- *. intros c Hc.
  apply filter_In in Hc as [Hc _]. now apply Hnone.
Qed.

End StrategyFacts.

(* ================================================================== *)
(** ** Where a force-included change is placed *)
(* ================================================================== *)

Section ForcedPlacement.
Import EnhancedContextManager Plan.

Lemma subPermutation_of_Permutation {A} (l l' : list A) :
  Permutation l l' -> subPermutation l l'.
Proof. intros Hp. exists []. now rewrite app_nil_r. Qed.

Lemma subPermutation_trans {A} (l1 l2 l3 : list A) :
  subPermutation l1 l2 -> subPermutation l2 l3 -> subPermutation l1 l3.
Proof.
  intros [r1 H1] [r2 H2]. exists (r1 ++ r2).
  rewrite app_assoc. eapply perm_trans; [|exact H2].
  now apply Permutation_app_tail.
Qed.

Lemma subPermutation_app {A} (l1 l1' l2 l2' : list A) :
  subPermutation l1 l1' -> subPermutation l2 l2' ->
  subPermutation (l1 ++ l2) (l1' ++ l2').
Proof.
  intros [r1 H1] [r2 H2]. exists (r1 ++ r2).
  eapply perm_trans; [|apply Permutation_app; [exact H1 | exact H2]].
  rewrite <- !app_assoc. apply Permutation_app_head.
  rewrite !app_assoc. apply Permutation_app_tail, Permutation_app_comm.
Qed.

Lemma subPermutation_map {A B} (f : A -> B) (l l' : list A) :
  subPermutation l l' -> subPermutation (map f l) (map f l').
Proof.
  intros [r H]. exists (map f r). rewrite <- map_app. now apply Permutation_map.
Qed.

Lemma subPermutation_NoDup {A} (l l' : list A) :
  subPermutation l l' -> NoDup l' -> NoDup l.
Proof.
  intros [r H] Hnd. apply Permutation_sym in H.
  apply (Permutation_NoDup H) in Hnd. now apply NoDup_app_remove_r in Hnd.
Qed.

Lemma subPermutation_In {A} (l l' : list A) (x : A) :
  subPermutation l l' -> In x l -> In x l'.
Proof.
  intros [r H] Hin. apply (Permutation_in _ H). apply in_or_app. now left.
Qed.

Lemma admitted_subPermutation (budget est : Z) (items : list Item.t) :
  subPermutation (admitted budget est items) items.
Proof.
  revert est. induction items as [|item rest IH]; intros est; simpl.
  - exists []. constructor.
  - destruct ((est + itemTokens item <=? budget) || Item.mustInclude item).
    + destruct (IH (est + itemTokens item)) as [r Hr].
      exists r. simpl. now apply perm_skip.
    + destruct (IH est) as [r Hr].
      exists (item :: r). eapply perm_trans; [apply Permutation_sym, Permutation_middle|].
      now apply perm_skip.
Qed.

Lemma admitted_mustInclude (budget est : Z) (items : list Item.t) (item : Item.t) :
  In item items -> Item.mustInclude item = true ->
  In item (admitted budget est items).
Proof.
  revert est. induction items as [|x rest IH]; intros est Hin Hmust; simpl.
  - contradiction.
  - destruct Hin as [-> | Hin].
    + rewrite Hmust, orb_true_r. now left.
    + destruct ((est + itemTokens x <=? budget) || Item.mustInclude x);
        [right|]; now apply IH.
Qed.

Lemma visitOrder_Permutation (group : list Item.t) :
  Permutation (visitOrder group) group.
Proof.
  unfold visitOrder. induction group as [|x rest IH]; simpl.
  - constructor.
  - destruct (Item.mustInclude x); simpl.
    + now apply perm_skip.
    + eapply perm_trans; [apply Permutation_sym, Permutation_middle|].
      now apply perm_skip.
Qed.

Lemma createSingleChunk_subPermutation
    (group : list Item.t) (budget : Z) (id description : string) :
  subPermutation (Chunk.changes (createSingleChunk group budget id description))
                 (map Item.change group).
Proof.
  rewrite createSingleChunk_admitted, addItems_changes. simpl.
  apply subPermutation_map.
  eapply subPermutation_trans; [apply admitted_subPermutation|].
  apply subPermutation_of_Permutation, visitOrder_Permutation.
Qed.

Lemma createSingleChunk_forced
    (group : list Item.t) (budget : Z) (id description : string) (item : Item.t) :
  In item group -> Item.mustInclude item = true ->
  In (Item.change item) (Chunk.changes (createSingleChunk group budget id description)).
Proof.
  intros Hin Hmust.
  rewrite createSingleChunk_admitted, addItems_changes. simpl.
  apply in_map, admitted_mustInclude; [|assumption].
  now apply visitOrder_In.
Qed.

Lemma placed_app (chunks1 chunks2 : list Chunk.t) :
  placed (chunks1 ++ chunks2) = placed chunks1 ++ placed chunks2.
Proof. apply flat_map_app. Qed.

Lemma placed_pushIfNonEmpty (chunk : Chunk.t) :
  placed (pushIfNonEmpty chunk) = Chunk.changes chunk.
Proof. apply pushIfNonEmpty_changes. Qed.

(** The chunks of a list of groups hold, up to order, a part of the
    groups' changes. *)
Lemma placed_groups
    (chunksOf : string * list Item.t -> list Chunk.t)
    (groups : Js.Map (list Item.t)) :
  (forall entry, subPermutation (placed (chunksOf entry)) (map Item.change (snd entry))) ->
  subPermutation (placed (flat_map chunksOf groups))
                 (map Item.change (flat_map snd groups)).
Proof.
  intros Hone. induction groups as [|entry rest IH]; simpl.
  - exists []. constructor.
  - rewrite placed_app, map_app. now apply subPermutation_app.
Qed.

Lemma placed_groups_In
    (chunksOf : string * list Item.t -> list Chunk.t)
    (groups : Js.Map (list Item.t)) (entry : string * list Item.t)
    (change : CodeChange.t) :
  In entry groups -> In change (placed (chunksOf entry)) ->
  In change (placed (flat_map chunksOf groups)).
Proof.
  unfold placed. intros Hentry Hin.
  apply in_flat_map in Hin as [chunk [Hchunk Hin]].
  apply in_flat_map. exists chunk. split; [|assumption].
  apply in_flat_map. now exists entry.
Qed.

(** [groupBy] keeps every element, in one group. *)
Lemma set_push_Permutation {A} (m : Js.Map (list A)) (k : string) (x : A) :
  Permutation (flat_map snd (Js.set m k (Js.getOrNil m k ++ [x])))
              (x :: flat_map snd m).
Proof.
  induction m as [|[k' v'] rest IH]; unfold Js.getOrNil in *; simpl.
  - constructor. constructor.
  - destruct (String.eqb k' k); simpl.
    + rewrite <- app_assoc. apply Permutation_sym.
      exact (Permutation_middle v' (flat_map snd rest) x).
    + eapply perm_trans; [apply Permutation_app_head, IH|].
      apply Permutation_sym, Permutation_middle.
Qed.

Lemma groupBy_Permutation {A} (key : A -> string) (l : list A) :
  Permutation (flat_map snd (Js.groupBy key l)) l.
Proof.
  unfold Js.groupBy.
  assert (forall m : Js.Map (list A),
             Permutation
               (flat_map snd
                  (fold_left (Js.pushInto key) l m))
               (flat_map snd m ++ l)) as Hgen.
  { induction l as [|x rest IH]; intros m; simpl.
    - now rewrite app_nil_r.
    - eapply perm_trans; [apply IH|].
      eapply perm_trans;
        [apply Permutation_app_tail; unfold Js.pushInto; apply set_push_Permutation|].
      simpl. apply Permutation_middle. }
  exact (Hgen []).
Qed.

Lemma get_Some_In {V} (m : Js.Map V) (k : string) (v : V) :
  Js.get m k = Some v -> In (k, v) m.
Proof.
  induction m as [|[k' v'] rest IH]; simpl; [discriminate|].
  destruct (String.eqb k' k) eqn:E.
  - apply String.eqb_eq in E; subst k'. intros [= ->]. now left.
  - intros H. right. now apply IH.
Qed.

Lemma groupBy_entry {A} (key : A -> string) (l : list A) (x : A) :
  In x l -> exists group, In (key x, group) (Js.groupBy key l) /\ In x group.
Proof.
  intros Hin.
  pose proof (getOrNil_groupBy key l (key x)) as Hget.
  unfold Js.getOrNil in Hget.
  destruct (Js.get (Js.groupBy key l) (key x)) as [group|] eqn:E.
  - exists group. split; [now apply get_Some_In|].
    rewrite Hget. apply filter_In. split; [assumption | apply String.eqb_refl].
  - exfalso.
    assert (In x (filter (fun y => String.eqb (key y) (key x)) l)) as Habs.
    { apply filter_In. split; [assumption | apply String.eqb_refl]. }
    rewrite <- Hget in Habs. contradiction.
Qed.

Lemma isRemainingItem_negb (c : Item.t) :
  isRemainingItem c = negb (isCriticalItem c).
Proof.
  unfold isRemainingItem, isCriticalItem.
  rewrite negb_orb, Z.leb_antisym, negb_involutive. reflexivity.
Qed.

Lemma filter_split_Permutation {A} (f g : A -> bool) (l : list A) :
  (forall x, g x = negb (f x)) ->
  Permutation (filter f l ++ filter g l) l.
Proof.
  intros Hg. induction l as [|x rest IH]; simpl.
  - constructor.
  - rewrite Hg. destruct (f x); simpl.
    + now apply perm_skip.
    + eapply perm_trans; [apply Permutation_sym, Permutation_middle|].
      now apply perm_skip.
Qed.

Lemma chunkByModule_placed (content : list Item.t) (budget : Z) :
  subPermutation (placed (chunkByModule content budget)) (map Item.change content).
Proof.
  unfold chunkByModule.
  eapply subPermutation_trans.
  - apply placed_groups. intros [module moduleContent]. simpl.
    rewrite placed_pushIfNonEmpty. apply createSingleChunk_subPermutation.
  - apply subPermutation_of_Permutation, Permutation_map.
    eapply perm_trans; [apply Permutation_flat_map, sort_Permutation|].
    apply groupBy_Permutation.
Qed.

Lemma chunkByFileType_placed (content : list Item.t) (budget : Z) :
  subPermutation (placed (chunkByFileType content budget)) (map Item.change content).
Proof.
  unfold chunkByFileType.
  eapply subPermutation_trans.
  - apply placed_groups. intros [type typeContent]. simpl.
    rewrite placed_pushIfNonEmpty. apply createSingleChunk_subPermutation.
  - apply subPermutation_of_Permutation, Permutation_map, groupBy_Permutation.
Qed.

Lemma smartChunk_placed (content : list Item.t) (budget : Z) :
  subPermutation (placed (smartChunk content budget)) (map Item.change content).
Proof.
  unfold smartChunk. rewrite placed_app.
  eapply subPermutation_trans.
  - apply subPermutation_app; [|apply chunkByModule_placed].
    instantiate (1 := map Item.change (filter isCriticalItem content)).
    destruct (0 <? len (filter isCriticalItem content)).
    + rewrite placed_pushIfNonEmpty. apply createSingleChunk_subPermutation.
    + exists (map Item.change (filter isCriticalItem content)). apply Permutation_refl.
  - rewrite <- map_app.
    apply subPermutation_of_Permutation, Permutation_map, filter_split_Permutation.
    apply isRemainingItem_negb.
Qed.

Lemma chunkBySize_placed (content : list Item.t) (budget : Z) :
  placed (chunkBySize content budget) = map Item.change content.
Proof.
  unfold placed, chunkBySize.
  pose proof (chunkBySize_loop_changes budget content
                {| chunks := []; currentChunk := numberedChunk 1; chunkCount := 1 |})
    as Hc.
  unfold sizeLoopChanges in Hc. simpl in Hc.
  now rewrite flat_map_app, pushIfNonEmpty_changes.
Qed.

Lemma chunkByModule_forced (content : list Item.t) (budget : Z) (item : Item.t) :
  In item content -> Item.mustInclude item = true ->
  In (Item.change item) (placed (chunkByModule content budget)).
Proof.
  intros Hin Hmust. unfold chunkByModule.
  destruct (groupBy_entry moduleOf content item Hin) as [group [Hentry Hgroup]].
  eapply placed_groups_In.
  - apply sort_In. exact Hentry.
  - simpl. rewrite placed_pushIfNonEmpty. now apply createSingleChunk_forced.
Qed.

Lemma chunkByFileType_forced (content : list Item.t) (budget : Z) (item : Item.t) :
  In item content -> Item.mustInclude item = true ->
  In (Item.change item) (placed (chunkByFileType content budget)).
Proof.
  intros Hin Hmust. unfold chunkByFileType.
  destruct (groupBy_entry extOf content item Hin) as [group [Hentry Hgroup]].
  eapply placed_groups_In.
  - exact Hentry.
  - simpl. rewrite placed_pushIfNonEmpty. now apply createSingleChunk_forced.
Qed.

Lemma smartChunk_forced (content : list Item.t) (budget : Z) (item : Item.t) :
  In item content -> Item.mustInclude item = true ->
  In (Item.change item) (placed (smartChunk content budget)).
Proof.
  intros Hin Hmust. unfold smartChunk. rewrite placed_app.
  apply in_or_app. left.
  assert (In item (filter isCriticalItem content)) as Hcrit.
  { apply filter_In. split; [assumption|]. unfold isCriticalItem. now rewrite Hmust. }
  unfold len.
  destruct (filter isCriticalItem content) as [|c rest] eqn:E; [contradiction|].
  replace (0 <? Z.of_nat (List.length (c :: rest))) with true
    by (symmetry; apply Z.ltb_lt; simpl List.length; lia).
  rewrite placed_pushIfNonEmpty.
  now apply createSingleChunk_forced.
Qed.

(** A file that occurs once among the placed changes is held by one
    chunk. *)
Lemma chunksHolding_absent (file : string) (chunks : list Chunk.t) :
  ~ In file (map CodeChange.file (placed chunks)) -> chunksHolding file chunks = 0%nat.
Proof.
  unfold chunksHolding, placed. induction chunks as [|chunk rest IH]; simpl.
  - reflexivity.
  - rewrite map_app, in_app_iff. intros Hnot.
    destruct (existsb (fun c => String.eqb (CodeChange.file c) file)
                      (Chunk.changes chunk)) eqn:E.
    + exfalso. apply Hnot. left.
      apply existsb_exists in E as [c [Hc Heq]].
      apply String.eqb_eq in Heq. subst file. now apply in_map.
    + apply IH. tauto.
Qed.

Lemma chunksHolding_once (file : string) (chunks : list Chunk.t) :
  NoDup (map CodeChange.file (placed chunks)) ->
  In file (map CodeChange.file (placed chunks)) ->
  chunksHolding file chunks = 1%nat.
Proof.
  induction chunks as [|chunk rest IH]; simpl; [contradiction|].
  unfold placed in *. simpl. rewrite map_app, in_app_iff. intros Hnd Hin.
  change (chunksHolding file (chunk :: rest))
    with (List.length
            (if existsb (fun c => String.eqb (CodeChange.file c) file)
                        (Chunk.changes chunk)
             then chunk :: filter (fun chunk =>
                                     existsb (fun c => String.eqb (CodeChange.file c) file)
                                             (Chunk.changes chunk)) rest
             else filter (fun chunk =>
                            existsb (fun c => String.eqb (CodeChange.file c) file)
                                    (Chunk.changes chunk)) rest)).
  destruct (existsb (fun c => String.eqb (CodeChange.file c) file)
                    (Chunk.changes chunk)) eqn:E.
  - simpl. f_equal. apply (chunksHolding_absent file rest).
    apply existsb_exists in E as [c [Hc Heq]].
    apply String.eqb_eq in Heq. subst file.
    intros Hrest.
    apply in_map with (f := CodeChange.file) in Hc.
    clear IH Hin. induction (map CodeChange.file (Chunk.changes chunk)) as [|y ys IHy].
    + contradiction.
    + simpl in Hnd. inversion Hnd as [|? ? Hy Hys]; subst.
      destruct Hc as [-> | Hc].
      * apply Hy. apply in_or_app. now right.
      * now apply IHy.
  - apply IH.
    + now apply NoDup_app_remove_l in Hnd.
    + destruct Hin as [Hin | Hin]; [|assumption].
      exfalso. apply in_map_iff in Hin as [c [Heq Hc]].
      assert (existsb (fun c => String.eqb (CodeChange.file c) file)
                      (Chunk.changes chunk) = true) as Habs.
      { apply existsb_exists. exists c. split; [assumption|].
        now apply String.eqb_eq. }
      congruence.
Qed.

(** X1.  The part of C2 that the code meets: under the module, file-type,
    size and smart strategies a force-included file that has one change
    in the input is held by exactly one chunk of the plan, whatever the
    budget. *)
Theorem forced_change_in_one_chunk
    (this : Config.t) (changes : list CodeChange.t) (findings : list Finding.t)
    (options : Options.t) (files : list string) (file : string) :
  strategyOf changes findings options <> BY_SEVERITY ->
  NoDup (map CodeChange.file changes) ->
  Options.forceIncludeFiles options = Some files ->
  In file files ->
  In file (map CodeChange.file changes) ->
  chunksHolding file (Analysis.chunks (analyzeAndChunk this changes findings options))
  = 1%nat.
Proof.
  intros Hs Hnd Hforce Hfile Hin.
  unfold analyzeAndChunk; simpl. fold (strategyOf changes findings options).
  set (content := prioritizeContent changes findings (Options.forceIncludeFiles options)).
  set (budget := availableTokens this (numOr (Options.systemPromptTokens options) 500)).
  apply in_map_iff in Hin as [change [Hchange Hin]].
  assert (exists item,
             In item content /\ Item.mustInclude item = true
             /\ Item.change item = change) as [item [Hitem [Hmust Hitemchange]]].
  { exists (prioritizeChange (findingsByFile findings)
                             (Options.forceIncludeFiles options) change).
    split; [apply prioritizeContent_In; now exists change|].
    split; [|reflexivity].
    unfold prioritizeChange; simpl. rewrite Hforce.
    apply existsb_exists. exists file. split; [assumption|].
    rewrite Hchange. apply String.eqb_refl. }
  assert (NoDup (map CodeChange.file (map Item.change content))) as Hcontent.
  { eapply Permutation_NoDup; [|exact Hnd].
    apply Permutation_sym, Permutation_map, prioritizeContent_changes. }
  assert (subPermutation
            (placed (createChunks this content (strategyOf changes findings options)
                                  (numOr (Options.systemPromptTokens options) 500)))
            (map Item.change content)
          /\ In change
                (placed (createChunks this content (strategyOf changes findings options)
                                      (numOr (Options.systemPromptTokens options) 500))))
    as [Hsub Hplaced].
  { unfold createChunks. fold budget. rewrite <- Hitemchange.
    destruct (strategyOf changes findings options); try contradiction.
    - split; [apply chunkByModule_placed | now apply chunkByModule_forced].
    - split; [apply chunkByFileType_placed | now apply chunkByFileType_forced].
    - rewrite chunkBySize_placed.
      split; [apply subPermutation_of_Permutation, Permutation_refl | now apply in_map].
    - split; [apply smartChunk_placed | now apply smartChunk_forced]. }
  apply chunksHolding_once.
  - eapply subPermutation_NoDup; [|exact Hcontent].
    now apply subPermutation_map.
  - rewrite <- Hchange. now apply in_map.
Qed.

End ForcedPlacement.

(* ================================================================== *)
(** ** Properties of the planner *)
(* ================================================================== *)

Section PlannerProperties.
Import EnhancedContextManager Plan.

(** C1, as stated, fails: with the default strategy and no force-included
    file, a single file of 10000 characters on one line is planned as one
    chunk of 6550 estimated tokens against a budget of 3692. *)
Lemma budget_exceeded_by_oversized_item :
  noneForced [Sample.bundle] (Options.forceIncludeFiles Options.none)
  /\ budget Sample.gpt4Manager Options.none = 3692
  /\ map Chunk.tokenEstimate
       (Analysis.chunks
          (analyzeAndChunk Sample.gpt4Manager [Sample.bundle] [] Options.none))
     = [6550].
Proof. split; [exact I | split; vm_compute; reflexivity]. Qed.

(** C1, amended: with no force-included file, every chunk of the plan has
    [tokenEstimate <= budget] under the severity, module, file-type and
    smart strategies; under the size strategy every chunk has
    [tokenEstimate <= budget] or holds exactly one change. *)
Theorem chunks_within_budget_or_alone
    (this : Config.t) (changes : list CodeChange.t) (findings : list Finding.t)
    (options : Options.t) (chunk : Chunk.t) :
  noneForced changes (Options.forceIncludeFiles options) ->
  In chunk (Analysis.chunks (analyzeAndChunk this changes findings options)) ->
  Chunk.tokenEstimate chunk <= budget this options
  \/ (strategyOf changes findings options = BY_SIZE
      /\ List.length (Chunk.changes chunk) = 1%nat).
Proof.
  intros Hnone Hin. unfold analyzeAndChunk in Hin; simpl in Hin.
  fold (strategyOf changes findings options) in Hin.
  pose proof (prioritizeContent_noneForced changes findings _ Hnone) as Hfalse.
  destruct (strategyOf changes findings options) eqn:Es.
  1-3, 5: left; eapply groupChunk_within_budget; [exact Hfalse|];
    eapply createChunks_groups; [|exact Hin]; discriminate.
  unfold createChunks in Hin.
  pose proof (chunkBySize_fitsOrAlone
                (prioritizeContent changes findings (Options.forceIncludeFiles options))
                (budget this options)) as Hall.
  rewrite Forall_forall in Hall.
  destruct (Hall chunk Hin) as [Hle | Hone]; [left | right]; auto.
Qed.

Lemma chunks_within_budget_or_alone_witness :
  let plan :=
    analyzeAndChunk Sample.gpt4Manager [Sample.login; Sample.authJs added] []
                    Sample.byModule in
  let chunk := hd (emptyChunk "" "") (Analysis.chunks plan) in
  Chunk.tokenEstimate chunk <= 3692
  \/ (strategyOf [Sample.login; Sample.authJs added] [] Sample.byModule = BY_SIZE
      /\ List.length (Chunk.changes chunk) = 1%nat).
Proof.
  intros plan chunk.
  apply (chunks_within_budget_or_alone
           Sample.gpt4Manager [Sample.login; Sample.authJs added] []
           Sample.byModule chunk).
  - exact I.
  - vm_compute. left. reflexivity.
Defined.

(** C2 fails in the code under the severity strategy: a force-included
    file gets priority 100, which lies in the range of the group
    "Critical Security" (90 to 110) and in that of "High Security" (80 to
    100), so its change is in two chunks of the plan.  Under each of the
    four other strategies the same input gives one chunk holding it. *)
Theorem forced_change_in_two_severity_chunks :
  chunksHolding "src/login.ts"
    (Analysis.chunks
       (analyzeAndChunk Sample.defaultManager [Sample.login] []
                        (Sample.forcedBy BY_SEVERITY))) = 2%nat
  /\ map Chunk.id
       (Analysis.chunks
          (analyzeAndChunk Sample.defaultManager [Sample.login] []
                           (Sample.forcedBy BY_SEVERITY)))
     = ["severity-critical-security"; "severity-high-security"]
  /\ map (fun strategy =>
            chunksHolding "src/login.ts"
              (Analysis.chunks
                 (analyzeAndChunk Sample.defaultManager [Sample.login] []
                                  (Sample.forcedBy strategy))))
         [BY_MODULE; BY_FILE_TYPE; BY_SIZE; SMART]
     = [1%nat; 1%nat; 1%nat; 1%nat].
Proof. repeat split; vm_compute; reflexivity. Qed.

(** C6: the code departs from the claim.  Two files of one module, 2650
    tokens each, against a budget of 3692, no file force-included: under
    each grouping strategy (severity, module, file type, smart) the plan
    is one chunk that holds the first file, and the second file is in no
    chunk; no chunk is closed and none is started for it.  The size
    strategy, on the same input, closes the chunk and starts a second one
    for the second file. *)
Lemma overflowing_item_is_dropped :
  noneForced [Sample.parser; Sample.printer]
             (Options.forceIncludeFiles (Sample.planBy BY_MODULE))
  /\ budget Sample.gpt4Manager (Sample.planBy BY_MODULE) = 3692
  /\ map itemTokens (prioritizeContent [Sample.parser; Sample.printer] [] None)
     = [2650; 2650]
  /\ map (fun strategy =>
            map (fun chunk => map CodeChange.file (Chunk.changes chunk))
                (Analysis.chunks
                   (analyzeAndChunk Sample.gpt4Manager
                      [Sample.parser; Sample.printer] [] (Sample.planBy strategy))))
         [BY_SEVERITY; BY_MODULE; BY_FILE_TYPE; SMART]
     = [ [["src/parser.js"]]; [["src/parser.js"]];
         [["src/parser.js"]]; [["src/parser.js"]] ]
  /\ map (fun strategy =>
            chunksHolding "src/printer.js"
              (Analysis.chunks
                 (analyzeAndChunk Sample.gpt4Manager
                    [Sample.parser; Sample.printer] [] (Sample.planBy strategy))))
         [BY_SEVERITY; BY_MODULE; BY_FILE_TYPE; SMART]
     = [0%nat; 0%nat; 0%nat; 0%nat]
  /\ map (fun chunk => map CodeChange.file (Chunk.changes chunk))
         (Analysis.chunks
            (analyzeAndChunk Sample.gpt4Manager
               [Sample.parser; Sample.printer] [] (Sample.planBy BY_SIZE)))
     = [["src/parser.js"]; ["src/printer.js"]].
Proof. split; [exact I | repeat split; vm_compute; reflexivity]. Qed.

(** How a grouping strategy fills its chunks.  Under every grouping
    strategy (severity, module, file type, smart) each chunk is the single
    chunk of one group of the prioritised content; the group is offered with its must-include
    items first, then its other items in descending priority, and an
    item is taken when [chunk.tokenEstimate + itemTokens <= budget] or
    when it is must-include, and is passed over otherwise, the chunk
    staying open for the items that follow. *)
Theorem grouping_strategy_fills_one_chunk_per_group
    (this : Config.t) (changes : list CodeChange.t) (findings : list Finding.t)
    (options : Options.t) (chunk : Chunk.t) :
  strategyOf changes findings options <> BY_SIZE ->
  In chunk (Analysis.chunks (analyzeAndChunk this changes findings options)) ->
  exists (select : Item.t -> bool),
    let group :=
      filter select
        (prioritizeContent changes findings (Options.forceIncludeFiles options)) in
    let taken := admitted (budget this options) 0 (visitOrder group) in
    descending Item.priority (filter (fun c => negb (Item.mustInclude c)) group)
    /\ Chunk.changes chunk = map Item.change taken
    /\ Chunk.findings chunk = flat_map Item.relatedFindings taken
    /\ Chunk.tokenEstimate chunk = totalTokens taken.
Proof.
  intros Hs Hin. unfold analyzeAndChunk in Hin; simpl in Hin.
  fold (strategyOf changes findings options) in Hin.
  apply createChunks_groups in Hin; [|assumption].
  destruct Hin as [select [id [description [-> _]]]].
  exists select. cbv zeta.
  rewrite createSingleChunk_admitted.
  rewrite addItems_changes, addItems_findings, addItems_tokenEstimate.
  repeat split.
  apply filter_descending, filter_descending, prioritizeContent_descending.
Qed.

Lemma grouping_strategy_fills_one_chunk_per_group_witness :
  exists (select : Item.t -> bool),
    let group :=
      filter select
        (prioritizeContent [Sample.login; Sample.authJs added] []
                           (Options.forceIncludeFiles Sample.byModule)) in
    let taken := admitted (budget Sample.gpt4Manager Sample.byModule) 0
                          (visitOrder group) in
    descending Item.priority (filter (fun c => negb (Item.mustInclude c)) group)
    /\ Chunk.changes
         (hd (emptyChunk "" "")
             (Analysis.chunks
                (analyzeAndChunk Sample.gpt4Manager
                   [Sample.login; Sample.authJs added] [] Sample.byModule)))
       = map Item.change taken
    /\ Chunk.findings
         (hd (emptyChunk "" "")
             (Analysis.chunks
                (analyzeAndChunk Sample.gpt4Manager
                   [Sample.login; Sample.authJs added] [] Sample.byModule)))
       = flat_map Item.relatedFindings taken
    /\ Chunk.tokenEstimate
         (hd (emptyChunk "" "")
             (Analysis.chunks
                (analyzeAndChunk Sample.gpt4Manager
                   [Sample.login; Sample.authJs added] [] Sample.byModule)))
       = totalTokens taken.
Proof.
  apply (grouping_strategy_fills_one_chunk_per_group
           Sample.gpt4Manager [Sample.login; Sample.authJs added] []
           Sample.byModule).
  - discriminate.
  - vm_compute. left. reflexivity.
Defined.

(** C7: the plan is a function of the changes, the findings, the budget
    and the options alone: two managers with the same budget, whatever
    their other settings, return the same plan for the same input (the
    same chunks in the same order, with the same items in the same
    order, and the same summary). *)
Theorem analyzeAndChunk_deterministic
    (this1 this2 : Config.t) (changes : list CodeChange.t)
    (findings : list Finding.t) (options : Options.t) :
  budget this1 options = budget this2 options ->
  analyzeAndChunk this1 changes findings options
  = analyzeAndChunk this2 changes findings options.
Proof.
  unfold budget, analyzeAndChunk, createChunks. intros Hb.
  now rewrite Hb.
Qed.

Lemma analyzeAndChunk_deterministic_witness :
  analyzeAndChunk Sample.gpt4Manager [Sample.login; Sample.authJs added]
                  [Sample.lowFinding] Options.none
  = analyzeAndChunk Sample.otherManager [Sample.login; Sample.authJs added]
                    [Sample.lowFinding] Options.none.
Proof.
  apply (analyzeAndChunk_deterministic Sample.gpt4Manager Sample.otherManager).
  vm_compute. reflexivity.
Defined.

(** C10: [chunkBySize] partitions its input exactly, for every budget:
    the changes of its chunks, read chunk after chunk, are the changes
    of the prioritised input in the order of the input (so each is in
    one chunk, once, also when it alone exceeds the budget), the
    findings follow their changes, and no chunk is empty. *)
Theorem chunkBySize_partitions_input (content : list Item.t) (budget : Z) :
  flat_map Chunk.changes (chunkBySize content budget) = map Item.change content
  /\ flat_map Chunk.findings (chunkBySize content budget)
     = flat_map Item.relatedFindings content
  /\ Forall (fun chunk => Chunk.changes chunk <> []) (chunkBySize content budget).
Proof.
  unfold chunkBySize.
  set (st0 := {| chunks := []; currentChunk := numberedChunk 1; chunkCount := 1 |}).
  pose proof (chunkBySize_loop_changes budget content st0) as Hc.
  pose proof (chunkBySize_loop_findings budget content st0) as Hf.
  destruct (chunkBySize_loop_inv budget content st0) as [Hclosed Hopen].
  { split; [constructor | reflexivity]. }
  set (st := fold_left (chunkBySizeStep budget) content st0) in *.
  unfold sizeLoopChanges, sizeLoopFindings in *. simpl in Hc, Hf.
  repeat split.
  - now rewrite flat_map_app, pushIfNonEmpty_changes.
  - rewrite flat_map_app, <- Hf. f_equal.
    unfold pushIfNonEmpty, len.
    destruct (Chunk.changes (currentChunk st)) as [|x l] eqn:E; simpl.
    + symmetry. now apply Hopen.
    + now rewrite app_nil_r.
  - apply Forall_app. split; [assumption|].
    apply Forall_forall. intros c Hin.
    now apply pushIfNonEmpty_In in Hin as [_ Hne].
Qed.

End PlannerProperties.

(* ================================================================== *)
(** ** The priority-override scenario *)
(* ================================================================== *)

Section PriorityOverride.
Import EnhancedContextManager Plan.

Lemma findings_low_priority (findings : list Finding.t) (priority : Z) :
  Forall (fun f => Finding.severity f = low) findings ->
  fold_left (fun priority finding => Z.max priority (getFindingPriority finding))
            findings priority
  = match findings with
    | [] => priority
    | _ :: _ => Z.max priority ContentPriority.LOW_ISSUE
    end.
Proof.
  intros Hall. revert priority.
  induction Hall as [|f rest Hf Hrest IH]; intros priority; simpl.
  - reflexivity.
  - rewrite IH. unfold getFindingPriority. rewrite Hf.
    destruct rest; [reflexivity | lia].
Qed.

Lemma relatedFindings_filter (findings : list Finding.t) (file : string) :
  Js.getOrNil (findingsByFile findings) file
  = filter (fun f => String.eqb (Finding.file f) file) findings.
Proof. apply getOrNil_groupBy. Qed.

Lemma filter_all {A} (f : A -> bool) (l : list A) :
  Forall (fun x => f x = true) l -> filter f l = l.
Proof.
  induction 1 as [|x rest Hx _ IH]; simpl; [reflexivity|].
  now rewrite Hx, IH.
Qed.

Lemma filter_none {A} (f : A -> bool) (l : list A) :
  Forall (fun x => f x = false) l -> filter f l = [].
Proof.
  induction 1 as [|x rest Hx _ IH]; simpl; [reflexivity|].
  now rewrite Hx, IH.
Qed.

(** C8, as stated, fails: when [auth.js] is modified (or deleted) rather
    than added, its priority without findings is 20, below the 40 of
    [utils.js] with a low-severity finding, and it is ordered after it. *)
Lemma modified_auth_file_ranks_below_low_findings :
  calculateChangePriority (Sample.authJs modified) [] = 20
  /\ calculateChangePriority (Sample.utilsJs modified) [Sample.lowFinding] = 40
  /\ map Item.change
       (prioritizeContent [Sample.authJs modified; Sample.utilsJs modified]
                          [Sample.lowFinding] None)
     = [Sample.utilsJs modified; Sample.authJs modified]
  /\ map Item.change
       (prioritizeContent [Sample.authJs deleted; Sample.utilsJs modified]
                          [Sample.lowFinding] None)
     = [Sample.utilsJs modified; Sample.authJs deleted].
Proof. repeat split; vm_compute; reflexivity. Qed.

(** C8, amended: when the change to [auth.js] has changeType [added] and
    no findings, it receives priority 90, above the 40 of a change to
    [utils.js] (of any changeType and of any size, equal or not) that has
    only low-severity findings, and it is ordered ahead of it whichever
    comes first in the input. *)
Theorem added_auth_file_outranks_low_findings
    (auth utils : CodeChange.t) (findings : list Finding.t) :
  CodeChange.file auth = "auth.js" ->
  CodeChange.changeType auth = added ->
  CodeChange.file utils = "utils.js" ->
  findings <> [] ->
  Forall (fun f => Finding.file f = "utils.js" /\ Finding.severity f = low)
         findings ->
  let prioritized := prioritizeContent [utils; auth] findings None in
  let prioritized' := prioritizeContent [auth; utils] findings None in
  map Item.priority prioritized = [90; 40]
  /\ map Item.change prioritized = [auth; utils]
  /\ map Item.relatedFindings prioritized = [[]; findings]
  /\ prioritized' = prioritized.
Proof.
  intros Hauth Hadded Hutils Hne Hall.
  assert (Hlow : Forall (fun f => Finding.severity f = low) findings).
  { eapply Forall_impl; [|exact Hall]. now intros f [_ H]. }
  assert (Hrel_utils :
            Js.getOrNil (findingsByFile findings) "utils.js" = findings).
  { rewrite relatedFindings_filter. apply filter_all.
    eapply Forall_impl; [|exact Hall]. intros f [-> _]. reflexivity. }
  assert (Hrel_auth : Js.getOrNil (findingsByFile findings) "auth.js" = []).
  { rewrite relatedFindings_filter. apply filter_none.
    eapply Forall_impl; [|exact Hall]. intros f [-> _]. reflexivity. }
  assert (Hp_auth :
            prioritizeChange (findingsByFile findings) None auth
            = {| Item.change := auth; Item.priority := 90;
                 Item.relatedFindings := []; Item.mustInclude := false |}).
  { unfold prioritizeChange, calculateChangePriority.
    rewrite Hauth, Hadded, Hrel_auth. reflexivity. }
  assert (Hp_utils :
            prioritizeChange (findingsByFile findings) None utils
            = {| Item.change := utils; Item.priority := 40;
                 Item.relatedFindings := findings; Item.mustInclude := false |}).
  { unfold prioritizeChange, calculateChangePriority.
    rewrite Hutils, Hrel_utils, (findings_low_priority findings _ Hlow).
    destruct findings as [|f rest]; [contradiction|].
    replace (isSecuritySensitiveFile "utils.js") with false by reflexivity.
    replace (isCriticalFile "utils.js") with false by reflexivity.
    rewrite andb_false_r. reflexivity. }
  unfold prioritizeContent. cbn [map].
  rewrite Hp_auth, Hp_utils. cbn. repeat split.
Qed.

Lemma added_auth_file_outranks_low_findings_witness :
  let prioritized :=
    prioritizeContent [Sample.utilsJs modified; Sample.authJs added]
                      [Sample.lowFinding] None in
  let prioritized' :=
    prioritizeContent [Sample.authJs added; Sample.utilsJs modified]
                      [Sample.lowFinding] None in
  map Item.priority prioritized = [90; 40]
  /\ map Item.change prioritized = [Sample.authJs added; Sample.utilsJs modified]
  /\ map Item.relatedFindings prioritized = [[]; [Sample.lowFinding]]
  /\ prioritized' = prioritized.
Proof.
  apply (added_auth_file_outranks_low_findings
           (Sample.authJs added) (Sample.utilsJs modified) [Sample.lowFinding]).
  - reflexivity.
  - reflexivity.
  - reflexivity.
  - discriminate.
  - repeat constructor.
Defined.

End PriorityOverride.

(* ================================================================== *)
(** ** The merger *)
(* ================================================================== *)

Section MergerProperties.
Import EnhancedAIService Run.

Lemma overallVerdict_dominant (verdicts : list Verdict) :
  overallVerdict verdicts = dominantVerdict verdicts.
Proof.
  induction verdicts as [|v rest IH]; [reflexivity|].
  simpl dominantVerdict. rewrite <- IH. unfold overallVerdict. simpl.
  destruct v; simpl;
    destruct (existsb (verdictEqb request_changes) rest);
    destruct (existsb (verdictEqb comment) rest); reflexivity.
Qed.

Lemma existsb_Permutation {A} (f : A -> bool) (l l' : list A) :
  Permutation l l' -> existsb f l = existsb f l'.
Proof.
  induction 1 as [| x l l' _ IH | x y l | l l' l'' _ IH1 _ IH2]; simpl.
  - reflexivity.
  - now rewrite IH.
  - now destruct (f x), (f y).
  - congruence.
Qed.

Lemma overallVerdict_Permutation (verdicts verdicts' : list Verdict) :
  Permutation verdicts verdicts' ->
  overallVerdict verdicts = overallVerdict verdicts'.
Proof.
  intros Hp. unfold overallVerdict.
  now rewrite !(existsb_Permutation _ _ _ Hp).
Qed.

Lemma mergeChunkReviews_verdict (reviews : list Review.t) (analysis : Analysis.t) :
  (2 <= List.length reviews)%nat ->
  exists merged,
    mergeChunkReviews reviews analysis = Ok merged
    /\ verdictOf merged = overallVerdict (map verdictOf reviews).
Proof.
  destruct reviews as [|a [|b rest]]; simpl; try lia.
  intros _. eexists. split; reflexivity.
Qed.

Lemma mergeChunkReviews_returns (reviews : list Review.t) (analysis : Analysis.t) :
  reviews <> [] -> exists merged, mergeChunkReviews reviews analysis = Ok merged.
Proof.
  destruct reviews as [|a [|b rest]]; [contradiction | |]; intros _; eexists;
    reflexivity.
Qed.

(** C5: for two or more chunk reviews, [mergeChunkReviews] returns a
    review whose verdict is the pairwise-dominant verdict of the list
    under [request-changes > comment > approve]; the verdict is the same
    for every permutation of the list, and it is [request-changes] when
    the verdicts are [comment], [approve] and [request-changes] in any
    order. *)
Theorem mergeChunkReviews_verdict_dominant
    (reviews : list Review.t) (analysis : Analysis.t) :
  (2 <= List.length reviews)%nat ->
  exists merged,
    mergeChunkReviews reviews analysis = Ok merged
    /\ verdictOf merged = dominantVerdict (map verdictOf reviews)
    /\ (forall reviews',
           Permutation reviews reviews' ->
           exists merged',
             mergeChunkReviews reviews' analysis = Ok merged'
             /\ verdictOf merged' = verdictOf merged)
    /\ (Permutation (map verdictOf reviews) [comment; approve; request_changes] ->
        verdictOf merged = request_changes).
Proof.
  intros Hlen.
  destruct (mergeChunkReviews_verdict reviews analysis Hlen) as [merged [Hm Hv]].
  exists merged. split; [assumption|]. split; [|split].
  - now rewrite Hv, overallVerdict_dominant.
  - intros reviews' Hp.
    destruct (mergeChunkReviews_verdict reviews' analysis) as [merged' [Hm' Hv']].
    { now rewrite <- (Permutation_length Hp). }
    exists merged'. split; [assumption|].
    rewrite Hv, Hv'. symmetry.
    apply overallVerdict_Permutation, Permutation_map, Hp.
  - intros Hp. rewrite Hv, (overallVerdict_Permutation _ _ Hp). reflexivity.
Qed.

Lemma mergeChunkReviews_verdict_dominant_witness :
  exists merged,
    mergeChunkReviews
      [Service.review comment 0.01%float; Service.review approve 0.01%float;
       Service.review request_changes 0.01%float]
      (analyze (Service.withLimit 1%float) Service.request) = Ok merged
    /\ verdictOf merged = request_changes.
Proof.
  destruct (mergeChunkReviews_verdict_dominant
              [Service.review comment 0.01%float; Service.review approve 0.01%float;
               Service.review request_changes 0.01%float]
              (analyze (Service.withLimit 1%float) Service.request))
    as [merged [Hm [_ [_ Hv]]]].
  - simpl. lia.
  - exists merged. split; [exact Hm|]. apply Hv. apply Permutation_refl.
Defined.

End MergerProperties.

(* ================================================================== *)
(** ** The chunk loop *)
(* ================================================================== *)

Section LoopProperties.
Import EnhancedAIService Run.

Context (World : Type).
Context (generateReviewWithRetry : Request.t -> World -> Result Review.t * World).

Lemma returned_app (calls1 calls2 : list (float * Result Review.t)) :
  returned (calls1 ++ calls2) = returned calls1 ++ returned calls2.
Proof.
  induction calls1 as [|[cost [review|message]] rest IH]; simpl; congruence.
Qed.

(** The reviews the loop collects are those of the calls that
    returned. *)
Lemma chunkLoop_reviews
    (this : EnhancedAIService.t) (request : Request.t) (total : nat)
    (rest : list Chunk.t) (i : nat) (st : EnhancedAIService.Loop World) :
  reviews World st = returned (calls World st) ->
  reviews World (chunkLoop World generateReviewWithRetry this request total i rest st)
  = returned (calls World (chunkLoop World generateReviewWithRetry this request total i rest st)).
Proof.
  revert i st. induction rest as [|chunk rest IH]; intros i st Hst; simpl.
  - assumption.
  - destruct (generateReviewWithRetry (chunkRequest request i total chunk)
                                      (world World st))
      as [[review|message] w] eqn:Ecall.
    + match goal with
      | |- context [if ?c then _ else _] => destruct c
      end.
      * simpl. rewrite returned_app, Hst. reflexivity.
      * apply IH. simpl. rewrite returned_app, Hst. reflexivity.
    + apply IH. simpl. rewrite returned_app, Hst. simpl.
      now rewrite app_nil_r.
Qed.

(** The loop calls the collaborator once per remaining chunk, unless it
    stops early; it stops early only over the cost limit, right after a
    call that returned. *)
Lemma chunkLoop_calls
    (this : EnhancedAIService.t) (request : Request.t) (total : nat)
    (rest : list Chunk.t) (i : nat) (st : EnhancedAIService.Loop World) :
  let st' := chunkLoop World generateReviewWithRetry this request total i rest st in
  List.length (calls World st')
  = (List.length (calls World st) + List.length rest)%nat
  \/ ((List.length (calls World st) < List.length (calls World st')
       < List.length (calls World st) + List.length rest)%nat
      /\ overCostLimit (costLimit this) (totalCost World st') = true
      /\ reviews World st' <> []).
Proof.
  revert i st. induction rest as [|chunk rest IH]; intros i st; simpl.
  - left. lia.
  - destruct (generateReviewWithRetry (chunkRequest request i total chunk)
                                      (world World st))
      as [[review|message] w] eqn:Ecall.
    + match goal with
      | |- context [if ?c then _ else _] => destruct c eqn:Eover
      end.
      * simpl. rewrite length_app. simpl.
        destruct rest as [|chunk' rest'].
        -- left. simpl. lia.
        -- right. split; [simpl; lia|]. split; [assumption|].
           intros Habs. now apply app_eq_nil in Habs as [_ Habs].
      * match goal with
        | |- context [chunkLoop World generateReviewWithRetry this request total (S i) rest ?s] =>
            specialize (IH (S i) s)
        end.
        simpl in IH. rewrite length_app in IH. simpl in IH.
        destruct IH as [IH | [IH1 IH2]]; [left; lia | right; split; [lia | exact IH2]].
    + match goal with
      | |- context [chunkLoop World generateReviewWithRetry this request total (S i) rest ?s] =>
          specialize (IH (S i) s)
      end.
      simpl in IH. rewrite length_app in IH. simpl in IH.
      destruct IH as [IH | [IH1 IH2]]; [left; lia | right; split; [lia | exact IH2]].
Qed.

(** What the loop does enforce: no call starts from a cumulative cost that
    is strictly over the limit. *)
Lemma chunkLoop_calls_not_over_limit
    (this : EnhancedAIService.t) (request : Request.t) (total : nat)
    (rest : list Chunk.t) (i : nat) (st : EnhancedAIService.Loop World) :
  Forall (fun call => overCostLimit (costLimit this) (fst call) = false)
         (calls World st) ->
  overCostLimit (costLimit this) (totalCost World st) = false ->
  Forall (fun call => overCostLimit (costLimit this) (fst call) = false)
         (calls World (chunkLoop World generateReviewWithRetry this request total i rest st)).
Proof.
  revert i st. induction rest as [|chunk rest IH]; intros i st Hcalls Hcost; simpl.
  - assumption.
  - assert (Forall (fun call => overCostLimit (costLimit this) (fst call) = false)
                   (calls World st ++ [(totalCost World st, 
                      fst (generateReviewWithRetry
                             (chunkRequest request i total chunk) (world World st)))]))
      as Hcalled.
    { apply Forall_app. split; [assumption|]. constructor; [assumption | constructor]. }
    destruct (generateReviewWithRetry (chunkRequest request i total chunk)
                                      (world World st))
      as [[review|message] w] eqn:Ecall; simpl in Hcalled.
    + match goal with
      | |- context [if ?c then _ else _] => destruct c eqn:Eover
      end.
      * exact Hcalled.
      * apply IH; [exact Hcalled | exact Eover].
    + apply IH; [exact Hcalled | exact Hcost].
Qed.

Lemma runLoop_calls_not_over_limit
    (this : EnhancedAIService.t) (request : Request.t) (w : World) :
  overCostLimit (costLimit this) 0%float = false ->
  Forall (fun call => overCostLimit (costLimit this) (fst call) = false)
         (calls World (runLoop World generateReviewWithRetry this request w)).
Proof.
  intros Hzero. unfold runLoop.
  apply chunkLoop_calls_not_over_limit; [constructor | exact Hzero].
Qed.


Lemma runLoop_reviews (this : EnhancedAIService.t) (request : Request.t) (w : World) :
  reviews World (runLoop World generateReviewWithRetry this request w)
  = returned (calls World (runLoop World generateReviewWithRetry this request w)).
Proof. unfold runLoop. now apply chunkLoop_reviews. Qed.

Lemma runLoop_calls (this : EnhancedAIService.t) (request : Request.t) (w : World) :
  let st := runLoop World generateReviewWithRetry this request w in
  List.length (calls World st)
  = List.length (Analysis.chunks (analyze this request))
  \/ ((0 < List.length (calls World st)
        < List.length (Analysis.chunks (analyze this request)))%nat
      /\ overCostLimit (costLimit this) (totalCost World st) = true
      /\ reviews World st <> []).
Proof.
  exact (chunkLoop_calls this request
           (List.length (Analysis.chunks (analyze this request)))
           (Analysis.chunks (analyze this request)) 0
           {| reviews := []; totalCost := 0%float; calls := []; world := w |}).
Qed.

Lemma reviewWithEnhancedContext_multi
    (this : EnhancedAIService.t) (request : Request.t) (w : World) :
  List.length (Analysis.chunks (analyze this request)) <> 1%nat ->
  reviewWithEnhancedContext World generateReviewWithRetry this request w
  = (mergeChunkReviews
       (returned (calls World (runLoop World generateReviewWithRetry this request w)))
       (analyze this request),
     world World (runLoop World generateReviewWithRetry this request w)).
Proof.
  intros Hlen. unfold reviewWithEnhancedContext.
  rewrite <- runLoop_reviews.
  destruct (Analysis.chunks (analyze this request)) as [|c [|c' rest]] eqn:E;
    try reflexivity.
  now contradiction Hlen.
Qed.


(** C4, amended: whenever the loop stops before it has called the
    analysis for every planned chunk, the cumulative cost is over the
    cost limit and the run does not throw: it returns the merge of the
    reviews obtained so far, of which there is at least one.  The review
    it returns has no [truncated] property. *)
Theorem cost_limit_stop_returns_merged_review
    (this : EnhancedAIService.t) (request : Request.t) (w : World) :
  let st := runLoop World generateReviewWithRetry this request w in
  (List.length (calls World st)
   < List.length (Analysis.chunks (analyze this request)))%nat ->
  overCostLimit (costLimit this) (totalCost World st) = true
  /\ returned (calls World st) <> []
  /\ exists merged,
       reviewWithEnhancedContext World generateReviewWithRetry this request w
       = (Ok merged, world World st)
       /\ mergeChunkReviews (returned (calls World st)) (analyze this request)
          = Ok merged
       /\ Review.prop merged "truncated" = JsUndefined.
Proof.
  intros st Hstop.
  pose proof (runLoop_calls this request w) as Hcalls.
  cbv zeta in Hcalls. fold st in Hcalls.
  destruct Hcalls as [Hall | [Hlt [Hover Hne]]]; [lia|].
  unfold st in Hne. rewrite runLoop_reviews in Hne. fold st in Hne.
  split; [assumption|]. split; [assumption|].
  destruct (mergeChunkReviews_returns _ (analyze this request) Hne) as [merged Hm].
  exists merged. split; [|split; [assumption | reflexivity]].
  rewrite reviewWithEnhancedContext_multi; [fold st; now rewrite Hm|].
  lia.
Qed.

End LoopProperties.

Section LoopScenarios.
Import EnhancedAIService Run.


(** C4, as stated, fails: with a limit of 0.05 and chunks costing 0.03
    each, the loop stops after two of the six planned chunks and the run
    returns a review; reading [truncated] off that review gives
    [undefined], not [true]. *)
Lemma truncated_run_carries_no_flag :
  List.length (Analysis.chunks (analyze (Service.withLimit 0.05%float) Service.request))
  = 6%nat
  /\ List.length
       (calls nat (runLoop nat (Service.costing 0.03%float)
                           (Service.withLimit 0.05%float) Service.request 0%nat))
     = 2%nat
  /\ exists merged,
       fst (reviewWithEnhancedContext nat (Service.costing 0.03%float)
              (Service.withLimit 0.05%float) Service.request 0%nat) = Ok merged
       /\ Review.prop merged "truncated" <> JsBoolean true.
Proof.
  split; [vm_compute; reflexivity|]. split; [vm_compute; reflexivity|].
  eexists. split; [vm_compute; reflexivity | discriminate].
Qed.

Lemma cost_limit_stop_returns_merged_review_witness :
  exists merged,
    reviewWithEnhancedContext nat (Service.costing 0.03%float)
      (Service.withLimit 0.05%float) Service.request 0%nat
    = (Ok merged, 2%nat)
    /\ Review.prop merged "truncated" = JsUndefined.
Proof.
  destruct (cost_limit_stop_returns_merged_review
              nat (Service.costing 0.03%float)
              (Service.withLimit 0.05%float) Service.request 0%nat)
    as [_ [_ [merged [Hrun [_ Hprop]]]]].
  - vm_compute. lia.
  - exists merged. split; [exact Hrun | exact Hprop].
Defined.

(** C3 fails in the code when the cumulative cost equals the limit: with
    a limit of 0.06 and chunks costing 0.03 each, the third chunk is
    dispatched although the cost recorded before it, 0.06, has reached
    the limit.  The loop tests [totalCost > costLimit] where the gates of
    [reviewCode] and [generateCodeFix] test [totalCost >= costLimit]. *)
Theorem chunk_dispatched_at_cost_equal_to_limit :
  map fst
      (calls nat (runLoop nat (Service.costing 0.03%float)
                          (Service.withLimit 0.06%float) Service.request 0%nat))
  = [0%float; 0.03%float; 0.06%float]
  /\ PrimFloat.leb 0.06%float 0.06%float = true
  /\ overCostLimit (Some 0.06%float) 0.06%float = false
  /\ costLimitExceeded (Some 0.06%float) 0.06%float = true.
Proof. repeat split; vm_compute; reflexivity. Qed.

End LoopScenarios.

(* ================================================================== *)
(** ** Further properties of the planner, the merger and the loop *)
(* ================================================================== *)

Section FloatSigns.

Lemma binary_round_aux_unsigned (m e : Z) (l : location) :
  Sign.negative (binary_round_aux prec emax false m e l) = false.
Proof.
  unfold binary_round_aux.
  destruct (shr_fexp prec emax m e l) as [mrs' e'].
  destruct (shr_fexp prec emax _ e' loc_Exact) as [mrs'' e''].
  destruct (shr_m mrs'') as [|p|p]; try reflexivity.
  destruct (e'' <=? emax - prec); reflexivity.
Qed.

Lemma mul_unsigned (x y : float) :
  Sign.negative (Prim2SF x) = false -> Sign.negative (Prim2SF y) = false ->
  Sign.negative (Prim2SF (PrimFloat.mul x y)) = false.
Proof.
  rewrite FloatAxioms.mul_spec. unfold FloatAxioms.SF64mul, SFmul.
  destruct (Prim2SF x) as [sx|sx| |sx mx ex], (Prim2SF y) as [sy|sy| |sy my ey];
    simpl; intros Hx Hy; subst; try reflexivity.
  apply binary_round_aux_unsigned.
Qed.

Lemma ofZ_unsigned (z : Z) : Sign.negative (Prim2SF (Js.ofZ z)) = false.
Proof.
  unfold Js.ofZ. rewrite FloatAxioms.of_uint63_spec. unfold binary_normalize.
  pose proof (Uint63.to_Z_bounded (Uint63.of_Z z)) as [Hlo _].
  destruct (Uint63.to_Z (Uint63.of_Z z)) as [|p|p]; try reflexivity.
  - unfold binary_round.
    destruct (shl_align _ _ _) as [mz ez]. apply binary_round_aux_unsigned.
  - lia.
Qed.

Lemma ceil_unsigned (x : float) :
  Sign.negative (Prim2SF x) = false -> 0 <= Js.ceil x.
Proof.
  unfold Js.ceil. destruct (Prim2SF x) as [s|s| |s m e]; cbn [Sign.negative]; try lia.
  intros Hs; subst s. cbv zeta. destruct (0 <=? e) eqn:E.
  - apply Z.leb_le in E.
    assert (0 <= 2 ^ e) by now apply Z.pow_nonneg.
    nia.
  - apply Z.leb_gt in E.
    assert (0 < 2 ^ (- e)) by (apply Z.pow_pos_nonneg; lia).
    assert (- Z.pos m / 2 ^ (- e) < 0); [|lia].
    apply Z.div_lt_upper_bound; lia.
Qed.

(** A limit above 0 is truthy and not below 0. *)
Lemma positive_limit (limit : float) :
  PrimFloat.ltb 0 limit = true ->
  Js.truthyNum limit = true /\ PrimFloat.ltb limit 0 = false.
Proof.
  unfold Js.truthyNum. intros H. rewrite H. split; [reflexivity|].
  rewrite FloatAxioms.ltb_spec in H |- *.
  change (Prim2SF 0) with (S754_zero false) in *.
  unfold SFltb, SFcompare in *.
  destruct (Prim2SF limit) as [s|s| |s m e]; try destruct s;
    try discriminate; reflexivity.
Qed.

End FloatSigns.

Section TokenEstimates.
Import EnhancedContextManager.

Lemma density_values (content : string) :
  In (calculateContentDensity content)
     [1%float; 1.1%float; 1.2100000000000002%float; 1.3%float].
Proof.
  unfold calculateContentDensity.
  destruct (len (Js.split Js.LF content) =? 0); [now left|].
  cbv zeta.
  destruct (PrimFloat.ltb 80 _), (PrimFloat.ltb 120 _), (PrimFloat.ltb 0.9 _);
    vm_compute; tauto.
Qed.

Lemma density_unsigned (content : string) :
  Sign.negative (Prim2SF (calculateContentDensity content)) = false.
Proof.
  destruct (density_values content) as [<- | [<- | [<- | [<- | []]]]];
    vm_compute; reflexivity.
Qed.

Lemma multiplier_unsigned (type : string) :
  Sign.negative
    (Prim2SF match Js.get TOKEN_MULTIPLIERS type with
             | Some m => m
             | None => 0.4%float
             end) = false.
Proof.
  unfold TOKEN_MULTIPLIERS, Js.get.
  repeat match goal with
         | |- context [String.eqb ?a ?b] => destruct (String.eqb a b)
         end; vm_compute; reflexivity.
Qed.

Lemma estimateTokens_nonneg (content : string) :
  0 <= estimateTokens content None.
Proof.
  unfold estimateTokens.
  apply ceil_unsigned, mul_unsigned; [apply ofZ_unsigned|].
  apply mul_unsigned; [apply multiplier_unsigned | apply density_unsigned].
Qed.

Lemma estimateHunkTokens_nonneg (hunk : DiffHunk.t) : 0 <= estimateHunkTokens hunk.
Proof.
  unfold estimateHunkTokens.
  pose proof (estimateTokens_nonneg (DiffHunk.content hunk)).
  destruct (DiffHunk.context hunk) as [ctx|]; [|lia].
  pose proof (estimateTokens_nonneg (DiffHunk.before ctx)).
  pose proof (estimateTokens_nonneg (DiffHunk.after ctx)).
  destruct (Js.truthy (DiffHunk.before ctx)), (Js.truthy (DiffHunk.after ctx)); lia.
Qed.

Lemma estimateChangeTokens_base (change : CodeChange.t) :
  50 <= estimateChangeTokens change.
Proof.
  unfold estimateChangeTokens.
  assert (forall hunks tokens,
             tokens <= fold_left (fun tokens hunk => tokens + estimateHunkTokens hunk)
                                 hunks tokens) as Hgen.
  { induction hunks as [|hunk rest IH]; intros tokens; simpl; [lia|].
    pose proof (estimateHunkTokens_nonneg hunk).
    specialize (IH (tokens + estimateHunkTokens hunk)). lia. }
  apply Hgen.
Qed.

Lemma itemTokens_base (item : Item.t) : 50 <= itemTokens item.
Proof.
  unfold itemTokens, estimateFindingTokens, len.
  pose proof (estimateChangeTokens_base (Item.change item)). lia.
Qed.

End TokenEstimates.

(* ================================================================== *)
(** ** Further properties of the planner *)
(* ================================================================== *)

Section PlanShape.
Import EnhancedContextManager Plan Cover.

Lemma ChunkStrategy_eq_BY_SIZE (strategy : ChunkStrategy) :
  strategy = BY_SIZE \/ strategy <> BY_SIZE.
Proof. destruct strategy; (now left) || (right; discriminate). Qed.

Lemma createSingleChunk_builtFrom
    (content group : list Item.t) (budget : Z) (id description : string) :
  incl group content ->
  Chunk.changes (createSingleChunk group budget id description) <> [] ->
  builtFrom content (createSingleChunk group budget id description).
Proof.
  intros Hincl Hne. rewrite createSingleChunk_admitted in *.
  exists (admitted budget 0 (visitOrder group)), id, description.
  split; [reflexivity|]. split.
  - intros Hnil. rewrite Hnil in Hne. now apply Hne.
  - intros item Hin. apply Hincl, visitOrder_In.
    eapply subPermutation_In; [apply admitted_subPermutation | exact Hin].
Qed.

Lemma groupChunk_builtFrom (content : list Item.t) (budget : Z) (chunk : Chunk.t) :
  groupChunk content budget chunk -> builtFrom content chunk.
Proof.
  intros [select [id [description [-> Hne]]]].
  apply createSingleChunk_builtFrom; [|assumption].
  intros item Hin. now apply filter_In in Hin as [Hin _].
Qed.

Lemma builtFrom_incl (content content' : list Item.t) (chunk : Chunk.t) :
  incl content content' -> builtFrom content chunk -> builtFrom content' chunk.
Proof.
  intros Hincl [taken [id [description [Heq [Hne Htaken]]]]].
  exists taken, id, description. repeat split; try assumption.
  intros item Hin. now apply Hincl, Htaken.
Qed.

Lemma chunkBySizeStep_built
    (content : list Item.t) (budget : Z) (st : SizeLoop) (item : Item.t) :
  In item content ->
  sizeLoopBuilt content st -> sizeLoopBuilt content (chunkBySizeStep budget st item).
Proof.
  intros Hitem [Hclosed [taken [Hcur Htaken]]]. unfold chunkBySizeStep.
  destruct ((budget <? Chunk.tokenEstimate (currentChunk st) + itemTokens item)
            && (0 <? len (Chunk.changes (currentChunk st)))) eqn:E;
    unfold sizeLoopBuilt; cbn [chunks currentChunk chunkCount].
  - split.
    + apply Forall_app. split; [assumption|]. constructor; [|constructor].
      exists taken, ("chunk-" ++ Js.showNat (chunkCount st))%string,
             ("Chunk " ++ Js.showNat (chunkCount st))%string.
      split; [exact Hcur|]. split; [|assumption].
      intros Hnil. apply andb_prop in E as [_ E].
      rewrite Hcur, Hnil in E. discriminate.
    + exists [item]. split; [reflexivity|].
      intros x [<- | []]. assumption.
  - split; [assumption|].
    exists (taken ++ [item]). split.
    + rewrite fold_left_app, <- Hcur. reflexivity.
    + intros x Hin. apply in_app_or in Hin as [Hin | [<- | []]]; auto.
Qed.

Lemma chunkBySize_loop_built
    (content : list Item.t) (budget : Z) (items : list Item.t) (st : SizeLoop) :
  incl items content ->
  sizeLoopBuilt content st ->
  sizeLoopBuilt content (fold_left (chunkBySizeStep budget) items st).
Proof.
  revert st. induction items as [|item rest IH]; intros st Hincl Hst; simpl.
  - assumption.
  - apply IH.
    + intros x Hx. apply Hincl. now right.
    + apply chunkBySizeStep_built; [|assumption]. apply Hincl. now left.
Qed.

Lemma chunkBySize_builtFrom (content : list Item.t) (budget : Z) :
  Forall (builtFrom content) (chunkBySize content budget).
Proof.
  unfold chunkBySize.
  destruct (chunkBySize_loop_built content budget content
              {| chunks := []; currentChunk := numberedChunk 1; chunkCount := 1 |})
    as [Hclosed [taken [Hcur Htaken]]].
  { intros x Hx. exact Hx. }
  { split; [constructor|]. exists []. split; [reflexivity | intros x []]. }
  apply Forall_app. split; [assumption|].
  apply Forall_forall. intros chunk Hin.
  apply pushIfNonEmpty_In in Hin as [-> Hne].
  eexists taken, _, _. split; [exact Hcur|]. split; [|assumption].
  intros Hnil. rewrite Hcur, Hnil in Hne. now apply Hne.
Qed.

(** Every chunk of every plan is built from items of the prioritised
    content. *)
Lemma createChunks_builtFrom
    (this : Config.t) (content : list Item.t) (strategy : ChunkStrategy)
    (systemPromptTokens : Z) :
  Forall (builtFrom content) (createChunks this content strategy systemPromptTokens).
Proof.
  destruct (ChunkStrategy_eq_BY_SIZE strategy) as [-> | Hs].
  - apply chunkBySize_builtFrom.
  - apply Forall_forall. intros chunk Hin.
    apply (groupChunk_builtFrom content (availableTokens this systemPromptTokens)).
    eapply createChunks_groups; eassumption.
Qed.

End PlanShape.

Section PlanInvariants.
Import EnhancedContextManager Plan Cover.

Lemma levels_max (p q : Z) : In p levels -> In q levels -> In (Z.max p q) levels.
Proof.
  intros Hp Hq. destruct (Z.max_spec p q) as [[_ ->] | [_ ->]]; assumption.
Qed.

Lemma getFindingPriority_level (finding : Finding.t) :
  In (getFindingPriority finding) levels.
Proof.
  unfold getFindingPriority, levels.
  destruct (Finding.severity finding), (Finding.type finding); simpl; tauto.
Qed.

Lemma calculateChangePriority_level (change : CodeChange.t) (findings : list Finding.t) :
  In (calculateChangePriority change findings) levels.
Proof.
  unfold calculateChangePriority.
  assert (forall p,
             In p levels ->
             In (fold_left (fun priority finding =>
                              Z.max priority (getFindingPriority finding))
                           findings p) levels) as Hfold.
  { induction findings as [|f rest IH]; intros p Hp; simpl; [assumption|].
    apply IH, levels_max; [assumption | apply getFindingPriority_level]. }
  specialize (Hfold ContentPriority.CONTEXT).
  assert (In ContentPriority.HIGH_SECURITY levels) as H90 by (simpl; tauto).
  assert (In ContentPriority.HIGH_BUG levels) as H70 by (simpl; tauto).
  assert (In ContentPriority.CONTEXT levels) as H20 by (simpl; tauto).
  destruct (ChangeType_eqb _ _ && isSecuritySensitiveFile _),
           (isCriticalFile _); auto using levels_max.
Qed.

Lemma prioritizeChange_level
    (byFile : Js.Map (list Finding.t)) (force : option (list string))
    (change : CodeChange.t) :
  In (Item.priority (prioritizeChange byFile force change)) levels
  /\ (Item.mustInclude (prioritizeChange byFile force change) = true ->
      Item.priority (prioritizeChange byFile force change) = 100).
Proof.
  unfold prioritizeChange. cbn [Item.priority Item.mustInclude].
  pose proof (calculateChangePriority_level change
                (Js.getOrNil byFile (CodeChange.file change))) as Hlevel.
  destruct (match force with
            | Some files => existsb (String.eqb (CodeChange.file change)) files
            | None => false
            end).
  - split.
    + apply levels_max; [assumption | simpl; tauto].
    + intros _. unfold levels, ContentPriority.CRITICAL_SECURITY in *.
      simpl in Hlevel. lia.
  - split; [assumption | discriminate].
Qed.

Lemma prioritizeContent_levels
    (changes : list CodeChange.t) (findings : list Finding.t)
    (force : option (list string)) :
  Forall (fun item =>
            In (Item.priority item) levels
            /\ (Item.mustInclude item = true -> Item.priority item = 100))
         (prioritizeContent changes findings force).
Proof.
  apply Forall_forall. intros item Hin.
  apply prioritizeContent_In in Hin as [change [_ ->]].
  apply prioritizeChange_level.
Qed.

Lemma addItems_priority (taken : list Item.t) (chunk : Chunk.t) :
  Chunk.priority (fold_left addItem taken chunk)
  = fold_left (fun p item => Z.max p (Item.priority item)) taken (Chunk.priority chunk).
Proof.
  revert chunk. induction taken as [|item rest IH]; intros chunk; simpl.
  - reflexivity.
  - now rewrite IH.
Qed.

Lemma max_from_level (taken : list Item.t) (p : Z) :
  Forall (fun item => In (Item.priority item) levels) taken ->
  In p levels ->
  In (fold_left (fun p item => Z.max p (Item.priority item)) taken p) levels.
Proof.
  intros Hall. revert p.
  induction Hall as [|item rest Hitem _ IH]; intros p Hp; simpl.
  - assumption.
  - apply IH, levels_max; assumption.
Qed.

Lemma max_from_zero_level (taken : list Item.t) :
  taken <> [] ->
  Forall (fun item => In (Item.priority item) levels) taken ->
  In (fold_left (fun p item => Z.max p (Item.priority item)) taken 0) levels.
Proof.
  intros Hne Hall.
  destruct taken as [|item rest]; [contradiction|]. simpl.
  inversion Hall as [|? ? Hitem Hrest]; subst.
  assert (Z.max 0 (Item.priority item) = Item.priority item) as ->.
  { unfold levels in Hitem. simpl in Hitem. lia. }
  now apply max_from_level.
Qed.

Lemma totalTokens_recomputed (taken : list Item.t) (acc : Z) :
  fold_left (fun sum change => sum + estimateChangeTokens change)
            (map Item.change taken) acc
  + estimateFindingTokens (flat_map Item.relatedFindings taken)
  = acc + totalTokens taken.
Proof.
  revert acc. induction taken as [|item rest IH]; intros acc.
  - unfold estimateFindingTokens, len. simpl. lia.
  - cbn [map flat_map fold_left].
    change (totalTokens (item :: rest)) with (itemTokens item + totalTokens rest).
    specialize (IH (acc + estimateChangeTokens (Item.change item))).
    unfold itemTokens, estimateFindingTokens, len in *.
    rewrite length_app, Nat2Z.inj_add. lia.
Qed.

Lemma totalTokens_base (taken : list Item.t) :
  50 * len taken <= totalTokens taken.
Proof.
  unfold len. induction taken as [|item rest IH]; [simpl; lia|].
  change (totalTokens (item :: rest)) with (itemTokens item + totalTokens rest).
  pose proof (itemTokens_base item). cbn [List.length]. lia.
Qed.

(** X2.  [prioritizeContent] keeps every change, once, and orders the items
    by descending priority. *)
Theorem prioritizeContent_sorted_permutation
    (changes : list CodeChange.t) (findings : list Finding.t)
    (forceIncludeFiles : option (list string)) :
  Permutation (map Item.change (prioritizeContent changes findings forceIncludeFiles))
              changes
  /\ descending Item.priority (prioritizeContent changes findings forceIncludeFiles).
Proof.
  split; [apply prioritizeContent_changes | apply prioritizeContent_descending].
Qed.

(** X3.  The findings related to a change are exactly the findings of the
    input whose [file] is the file of the change, in the order of the
    input; a finding of any other file is related to no change. *)
Theorem relatedFindings_are_the_findings_of_the_file
    (changes : list CodeChange.t) (findings : list Finding.t)
    (forceIncludeFiles : option (list string)) :
  Forall (fun item =>
            Item.relatedFindings item
            = filter (fun finding =>
                        String.eqb (Finding.file finding)
                                   (CodeChange.file (Item.change item)))
                     findings)
         (prioritizeContent changes findings forceIncludeFiles).
Proof.
  apply Forall_forall. intros item Hin.
  apply prioritizeContent_In in Hin as [change [_ ->]].
  unfold prioritizeChange. cbn [Item.relatedFindings Item.change].
  apply relatedFindings_filter.
Qed.

(** X4.  The priority of a change is always one of 20, 40, 50, 70, 80, 90
    and 100 (the levels METADATA, STYLE and PERFORMANCE are never
    assigned), and a force-included change has priority 100. *)
Theorem priorities_are_levels
    (changes : list CodeChange.t) (findings : list Finding.t)
    (forceIncludeFiles : option (list string)) :
  Forall (fun item =>
            In (Item.priority item) [20; 40; 50; 70; 80; 90; 100]
            /\ (Item.mustInclude item = true -> Item.priority item = 100))
         (prioritizeContent changes findings forceIncludeFiles).
Proof. apply prioritizeContent_levels. Qed.

(** X5.  In every plan, under every strategy, the [tokenEstimate] of a chunk
    is the estimate recomputed from the chunk's own changes and findings,
    and it is at least 50 for each change the chunk holds. *)
Theorem chunk_estimate_matches_content
    (this : Config.t) (changes : list CodeChange.t) (findings : list Finding.t)
    (options : Options.t) :
  Forall (fun chunk =>
            Chunk.tokenEstimate chunk
            = calculateTotalTokens (Chunk.changes chunk) (Chunk.findings chunk)
            /\ 50 * len (Chunk.changes chunk) <= Chunk.tokenEstimate chunk)
         (Analysis.chunks (analyzeAndChunk this changes findings options)).
Proof.
  unfold analyzeAndChunk. cbn [Analysis.chunks].
  eapply Forall_impl; [|apply createChunks_builtFrom].
  intros chunk [taken [id [description [-> [_ _]]]]].
  rewrite addItems_tokenEstimate, addItems_changes, addItems_findings.
  cbn [emptyChunk Chunk.tokenEstimate Chunk.changes Chunk.findings app].
  unfold calculateTotalTokens. rewrite totalTokens_recomputed.
  split; [lia|].
  pose proof (totalTokens_base taken). unfold len in *. rewrite length_map. lia.
Qed.

(** X6.  In every plan, under every strategy, the priority of a chunk is
    one of the levels 20, 40, 50, 70, 80, 90 and 100. *)
Theorem chunk_priority_is_a_level
    (this : Config.t) (changes : list CodeChange.t) (findings : list Finding.t)
    (options : Options.t) :
  Forall (fun chunk => In (Chunk.priority chunk) [20; 40; 50; 70; 80; 90; 100])
         (Analysis.chunks (analyzeAndChunk this changes findings options)).
Proof.
  unfold analyzeAndChunk. cbn [Analysis.chunks].
  eapply Forall_impl; [|apply createChunks_builtFrom].
  intros chunk [taken [id [description [-> [Hne Hincl]]]]].
  rewrite addItems_priority. cbn [emptyChunk Chunk.priority].
  apply max_from_zero_level; [assumption|].
  apply Forall_forall. intros item Hin.
  pose proof (prioritizeContent_levels changes findings
                (Options.forceIncludeFiles options)) as Hall.
  rewrite Forall_forall in Hall. now apply Hall, Hincl.
Qed.

End PlanInvariants.

Section ForcedEverywhere.
Import EnhancedContextManager Plan Cover.

Lemma placed_flat_map_In {A} (chunksOf : A -> list Chunk.t) (l : list A) (a : A)
    (change : CodeChange.t) :
  In a l -> In change (placed (chunksOf a)) ->
  In change (placed (flat_map chunksOf l)).
Proof.
  unfold placed. intros Ha Hin.
  apply in_flat_map in Hin as [chunk [Hchunk Hin]].
  apply in_flat_map. exists chunk. split; [|assumption].
  apply in_flat_map. now exists a.
Qed.

(** The chunks of one severity group. *)
Lemma severityGroup_placed
    (content : list Item.t) (budget : Z) (group : PriorityGroup) (id : string) :
  placed (if len (filter (inGroup group) content) =? 0 then []
          else pushIfNonEmpty
                 (createSingleChunk (filter (inGroup group) content) budget
                                    id (gname group)))
  = Chunk.changes (createSingleChunk (filter (inGroup group) content) budget
                                     id (gname group)).
Proof.
  unfold len. destruct (filter (inGroup group) content) as [|x l] eqn:E.
  - reflexivity.
  - replace (Z.of_nat (List.length (x :: l)) =? 0) with false
      by (symmetry; apply Z.eqb_neq; simpl List.length; lia).
    apply placed_pushIfNonEmpty.
Qed.

Lemma chunkBySeverity_placed_group
    (content : list Item.t) (budget : Z) (group : PriorityGroup) (change : CodeChange.t) :
  In group priorityGroups ->
  In change
     (Chunk.changes
        (createSingleChunk (filter (inGroup group) content) budget
           ("severity-" ++ Js.replaceSpaces "-" false (Js.toLowerCase (gname group)))%string
           (gname group))) ->
  In change (placed (chunkBySeverity content budget)).
Proof.
  intros Hgroup Hin. unfold chunkBySeverity.
  eapply placed_flat_map_In; [exact Hgroup|].
  cbv beta zeta. now rewrite severityGroup_placed.
Qed.

Lemma chunkBySeverity_forced (content : list Item.t) (budget : Z) (item : Item.t) :
  In item content -> Item.mustInclude item = true -> Item.priority item = 100 ->
  In (Item.change item) (placed (chunkBySeverity content budget)).
Proof.
  intros Hin Hmust Hprio.
  eapply chunkBySeverity_placed_group; [left; reflexivity|].
  apply createSingleChunk_forced; [|assumption].
  apply filter_In. split; [assumption|].
  unfold inGroup. rewrite Hprio. reflexivity.
Qed.

(** X7.  Whatever the strategy and the budget, the change of a
    force-included file is in the plan (it is never left out). *)
Theorem forced_change_is_always_planned
    (this : Config.t) (changes : list CodeChange.t) (findings : list Finding.t)
    (options : Options.t) (files : list string) (change : CodeChange.t) :
  Options.forceIncludeFiles options = Some files ->
  In (CodeChange.file change) files ->
  In change changes ->
  In change (placed (Analysis.chunks (analyzeAndChunk this changes findings options))).
Proof.
  intros Hforce Hfile Hchange.
  unfold analyzeAndChunk. cbn [Analysis.chunks].
  fold (strategyOf changes findings options).
  set (content := prioritizeContent changes findings (Options.forceIncludeFiles options)).
  set (item := prioritizeChange (findingsByFile findings)
                                (Options.forceIncludeFiles options) change).
  assert (In item content) as Hitem by (apply prioritizeContent_In; now exists change).
  assert (Item.mustInclude item = true) as Hmust.
  { unfold item, prioritizeChange. cbn [Item.mustInclude]. rewrite Hforce.
    apply existsb_exists. exists (CodeChange.file change).
    split; [assumption | apply String.eqb_refl]. }
  assert (Item.priority item = 100) as Hprio.
  { now apply (prioritizeChange_level (findingsByFile findings)
                 (Options.forceIncludeFiles options) change). }
  change change with (Item.change item).
  unfold createChunks. destruct (strategyOf changes findings options).
  - now apply chunkByModule_forced.
  - now apply chunkBySeverity_forced.
  - now apply chunkByFileType_forced.
  - rewrite chunkBySize_placed. now apply in_map.
  - now apply smartChunk_forced.
Qed.

Lemma forced_change_is_always_planned_witness :
  In Sample.login
     (placed (Analysis.chunks
                (analyzeAndChunk Sample.gpt4Manager [Sample.parser; Sample.login] []
                                 (Sample.forcedBy SMART)))).
Proof.
  apply (forced_change_is_always_planned
           Sample.gpt4Manager [Sample.parser; Sample.login] []
           (Sample.forcedBy SMART) ["src/login.ts"] Sample.login).
  - reflexivity.
  - simpl. left. reflexivity.
  - simpl. right. left. reflexivity.
Defined.

Lemma forced_change_in_one_chunk_witness :
  chunksHolding "src/login.ts"
    (Analysis.chunks
       (analyzeAndChunk Sample.gpt4Manager [Sample.authJs added; Sample.login] []
                        (Sample.forcedBy BY_MODULE))) = 1%nat.
Proof.
  apply (forced_change_in_one_chunk
           Sample.gpt4Manager [Sample.authJs added; Sample.login] []
           (Sample.forcedBy BY_MODULE) ["src/login.ts"] "src/login.ts").
  - discriminate.
  - simpl. repeat constructor; simpl; intuition discriminate.
  - reflexivity.
  - simpl. left. reflexivity.
  - simpl. right. left. reflexivity.
Defined.

(** X8.  Under the module, file-type, size and smart strategies the plan
    places no change twice and invents none: its changes, together with
    the changes it leaves out, are the changes of the input. *)
Theorem plan_places_each_change_at_most_once
    (this : Config.t) (changes : list CodeChange.t) (findings : list Finding.t)
    (options : Options.t) :
  strategyOf changes findings options <> BY_SEVERITY ->
  exists leftOut,
    Permutation
      (placed (Analysis.chunks (analyzeAndChunk this changes findings options))
       ++ leftOut)
      changes.
Proof.
  intros Hs. unfold analyzeAndChunk. cbn [Analysis.chunks].
  fold (strategyOf changes findings options).
  set (content := prioritizeContent changes findings (Options.forceIncludeFiles options)).
  assert (subPermutation
            (placed (createChunks this content (strategyOf changes findings options)
                                  (numOr (Options.systemPromptTokens options) 500)))
            (map Item.change content)) as [leftOut Hperm].
  { unfold createChunks. destruct (strategyOf changes findings options);
      try contradiction.
    - apply chunkByModule_placed.
    - apply chunkByFileType_placed.
    - rewrite chunkBySize_placed. apply subPermutation_of_Permutation, Permutation_refl.
    - apply smartChunk_placed. }
  exists leftOut. eapply perm_trans; [exact Hperm|].
  apply prioritizeContent_changes.
Qed.

Lemma plan_places_each_change_at_most_once_witness :
  exists leftOut,
    Permutation
      (placed (Analysis.chunks
                 (analyzeAndChunk Sample.gpt4Manager [Sample.authJs added; Sample.login]
                                  [] Sample.byModule))
       ++ leftOut)
      [Sample.authJs added; Sample.login].
Proof.
  apply (plan_places_each_change_at_most_once
           Sample.gpt4Manager [Sample.authJs added; Sample.login] [] Sample.byModule).
  discriminate.
Defined.

End ForcedEverywhere.

Section SeverityOverlap.
Import EnhancedContextManager Plan Cover.

Lemma chunksHolding_app (file : string) (chunks1 chunks2 : list Chunk.t) :
  chunksHolding file (chunks1 ++ chunks2)
  = (chunksHolding file chunks1 + chunksHolding file chunks2)%nat.
Proof. unfold chunksHolding. now rewrite filter_app, length_app. Qed.

Lemma NoDup_map_eq {A B} (f : A -> B) (l : list A) (x y : A) :
  NoDup (map f l) -> In x l -> In y l -> f x = f y -> x = y.
Proof.
  induction l as [|a rest IH]; simpl; [contradiction|].
  intros Hnd Hx Hy Heq. inversion Hnd as [|? ? Ha Hrest]; subst.
  destruct Hx as [-> | Hx], Hy as [-> | Hy]; auto.
  - exfalso. apply Ha. rewrite Heq. now apply in_map.
  - exfalso. apply Ha. rewrite <- Heq. now apply in_map.
Qed.

(** The chunks of one severity group hold the forced file once if the
    group's range takes its priority, and not at all otherwise. *)
Lemma severityGroup_holding
    (content : list Item.t) (budget : Z) (group : PriorityGroup) (id : string)
    (item : Item.t) :
  NoDup (map CodeChange.file (map Item.change content)) ->
  In item content -> Item.mustInclude item = true ->
  chunksHolding (CodeChange.file (Item.change item))
    (if len (filter (inGroup group) content) =? 0 then []
     else pushIfNonEmpty
            (createSingleChunk (filter (inGroup group) content) budget
                               id (gname group)))
  = if inGroup group item then 1%nat else 0%nat.
Proof.
  intros Hnd Hin Hmust.
  assert (subPermutation
            (Chunk.changes (createSingleChunk (filter (inGroup group) content) budget
                                              id (gname group)))
            (map Item.change (filter (inGroup group) content))) as Hsub
      by apply createSingleChunk_subPermutation.
  destruct (inGroup group item) eqn:E.
  - apply chunksHolding_once; rewrite severityGroup_placed.
    + eapply subPermutation_NoDup; [apply subPermutation_map, Hsub|].
      eapply subPermutation_NoDup; [|exact Hnd].
      apply subPermutation_map, subPermutation_map.
      exists (filter (fun c => negb (inGroup group c)) content).
      apply filter_split_Permutation. reflexivity.
    + apply in_map, createSingleChunk_forced; [|assumption].
      apply filter_In. now split.
  - apply chunksHolding_absent. rewrite severityGroup_placed.
    intros Habs. apply in_map_iff in Habs as [change [Hfile Hchange]].
    apply (subPermutation_In _ _ _ Hsub) in Hchange.
    apply in_map_iff in Hchange as [item' [<- Hitem']].
    apply filter_In in Hitem' as [Hitem' Hgroup].
    assert (item' = item) as ->.
    { apply (NoDup_map_eq (fun i => CodeChange.file (Item.change i)) content);
        try assumption.
      now rewrite <- map_map. }
    congruence.
Qed.

(** X9.  Under the severity strategy the change of a force-included file
    (one change for the file) is held by exactly two chunks of the plan,
    "Critical Security" and "High Security", whatever the budget. *)
Theorem forced_change_in_two_chunks_by_severity
    (this : Config.t) (changes : list CodeChange.t) (findings : list Finding.t)
    (options : Options.t) (files : list string) (file : string) :
  strategyOf changes findings options = BY_SEVERITY ->
  NoDup (map CodeChange.file changes) ->
  Options.forceIncludeFiles options = Some files ->
  In file files ->
  In file (map CodeChange.file changes) ->
  chunksHolding file (Analysis.chunks (analyzeAndChunk this changes findings options))
  = 2%nat.
Proof.
  intros Hs Hnd Hforce Hfile Hin.
  unfold analyzeAndChunk. cbn [Analysis.chunks].
  fold (strategyOf changes findings options). rewrite Hs.
  set (content := prioritizeContent changes findings (Options.forceIncludeFiles options)).
  apply in_map_iff in Hin as [change [Hchange Hin]].
  set (item := prioritizeChange (findingsByFile findings)
                                (Options.forceIncludeFiles options) change).
  assert (In item content) as Hitem by (apply prioritizeContent_In; now exists change).
  assert (Item.mustInclude item = true) as Hmust.
  { unfold item, prioritizeChange. cbn [Item.mustInclude]. rewrite Hforce.
    apply existsb_exists. exists file. split; [assumption|].
    rewrite Hchange. apply String.eqb_refl. }
  assert (Item.priority item = 100) as Hprio.
  { now apply (prioritizeChange_level (findingsByFile findings)
                 (Options.forceIncludeFiles options) change). }
  assert (NoDup (map CodeChange.file (map Item.change content))) as Hcontent.
  { eapply Permutation_NoDup; [|exact Hnd].
    apply Permutation_sym, Permutation_map, prioritizeContent_changes. }
  replace file with (CodeChange.file (Item.change item)) by exact Hchange.
  unfold createChunks, chunkBySeverity, priorityGroups.
  cbn [flat_map]. rewrite !chunksHolding_app.
  rewrite !(severityGroup_holding content _ _ _ item Hcontent Hitem Hmust).
  unfold inGroup. cbn [gmin gmax]. rewrite Hprio. reflexivity.
Qed.

Lemma forced_change_in_two_chunks_by_severity_witness :
  chunksHolding "src/login.ts"
    (Analysis.chunks
       (analyzeAndChunk Sample.gpt4Manager [Sample.authJs added; Sample.login] []
                        (Sample.forcedBy BY_SEVERITY))) = 2%nat.
Proof.
  apply (forced_change_in_two_chunks_by_severity
           Sample.gpt4Manager [Sample.authJs added; Sample.login] []
           (Sample.forcedBy BY_SEVERITY) ["src/login.ts"] "src/login.ts").
  - reflexivity.
  - simpl. repeat constructor; simpl; intuition discriminate.
  - reflexivity.
  - simpl. left. reflexivity.
  - simpl. right. left. reflexivity.
Defined.

End SeverityOverlap.

Section Budgets.
Import EnhancedContextManager Plan Cover.

Lemma totalTokens_app (l1 l2 : list Item.t) :
  totalTokens (l1 ++ l2) = totalTokens l1 + totalTokens l2.
Proof.
  unfold totalTokens. induction l1 as [|x rest IH]; simpl; [reflexivity|].
  rewrite IH. lia.
Qed.

Lemma totalTokens_Permutation (l l' : list Item.t) :
  Permutation l l' -> totalTokens l = totalTokens l'.
Proof.
  unfold totalTokens.
  induction 1 as [| x l l' _ IH | x y l | l l' l'' _ IH1 _ IH2]; simpl; lia.
Qed.

Lemma totalTokens_nonneg (l : list Item.t) : 0 <= totalTokens l.
Proof. pose proof (totalTokens_base l). unfold len in *. lia. Qed.

Lemma totalTokens_filter (f : Item.t -> bool) (l : list Item.t) :
  totalTokens (filter f l) <= totalTokens l.
Proof.
  induction l as [|x rest IH]; simpl; [apply Z.le_refl|].
  pose proof (itemTokens_base x).
  destruct (f x);
    change (totalTokens (x :: ?r)) with (itemTokens x + totalTokens r);
    [|change (totalTokens (x :: rest)) with (itemTokens x + totalTokens rest)];
    lia.
Qed.

Lemma admitted_all (budget est : Z) (items : list Item.t) :
  est + totalTokens items <= budget -> admitted budget est items = items.
Proof.
  revert est. induction items as [|item rest IH]; intros est Hle; simpl.
  - reflexivity.
  - change (totalTokens (item :: rest)) with (itemTokens item + totalTokens rest) in Hle.
    pose proof (totalTokens_nonneg rest).
    assert ((est + itemTokens item <=? budget) = true) as -> by (apply Z.leb_le; lia).
    simpl. f_equal. apply IH. lia.
Qed.

Lemma createSingleChunk_all
    (group : list Item.t) (budget : Z) (id description : string) :
  totalTokens group <= budget ->
  Permutation (Chunk.changes (createSingleChunk group budget id description))
              (map Item.change group).
Proof.
  intros Hle. rewrite createSingleChunk_admitted, addItems_changes.
  cbn [emptyChunk Chunk.changes app].
  rewrite admitted_all.
  - apply Permutation_map, visitOrder_Permutation.
  - rewrite (totalTokens_Permutation _ _ (visitOrder_Permutation group)). lia.
Qed.

Lemma placed_groups_all
    (chunksOf : string * list Item.t -> list Chunk.t)
    (groups : Js.Map (list Item.t)) :
  Forall (fun entry =>
            Permutation (placed (chunksOf entry)) (map Item.change (snd entry)))
         groups ->
  Permutation (placed (flat_map chunksOf groups))
              (map Item.change (flat_map snd groups)).
Proof.
  induction 1 as [|entry rest Hentry _ IH]; simpl.
  - constructor.
  - rewrite placed_app, map_app. now apply Permutation_app.
Qed.

Lemma chunkByModule_all (content : list Item.t) (budget : Z) :
  totalTokens content <= budget ->
  Permutation (placed (chunkByModule content budget)) (map Item.change content).
Proof.
  intros Hle. unfold chunkByModule.
  eapply perm_trans.
  - apply placed_groups_all. apply Forall_forall.
    intros [module moduleContent] Hentry. cbn [snd].
    rewrite placed_pushIfNonEmpty. apply createSingleChunk_all.
    apply sort_In, groupBy_In in Hentry. rewrite Hentry.
    pose proof (totalTokens_filter (fun x => String.eqb (moduleOf x) module) content).
    lia.
  - apply Permutation_map.
    eapply perm_trans; [apply Permutation_flat_map, sort_Permutation|].
    apply groupBy_Permutation.
Qed.

Lemma chunkByFileType_all (content : list Item.t) (budget : Z) :
  totalTokens content <= budget ->
  Permutation (placed (chunkByFileType content budget)) (map Item.change content).
Proof.
  intros Hle. unfold chunkByFileType.
  eapply perm_trans.
  - apply placed_groups_all. apply Forall_forall.
    intros [type typeContent] Hentry. cbn [snd].
    rewrite placed_pushIfNonEmpty. apply createSingleChunk_all.
    apply groupBy_In in Hentry. rewrite Hentry.
    pose proof (totalTokens_filter (fun x => String.eqb (extOf x) type) content).
    lia.
  - apply Permutation_map, groupBy_Permutation.
Qed.

Lemma smartChunk_all (content : list Item.t) (budget : Z) :
  totalTokens content <= budget ->
  Permutation (placed (smartChunk content budget)) (map Item.change content).
Proof.
  intros Hle. unfold smartChunk. rewrite placed_app.
  pose proof (totalTokens_filter isCriticalItem content) as Hcrit.
  pose proof (totalTokens_filter isRemainingItem content) as Hrem.
  eapply perm_trans.
  - apply Permutation_app; [|apply chunkByModule_all; lia].
    instantiate (1 := map Item.change (filter isCriticalItem content)).
    unfold len. destruct (filter isCriticalItem content) as [|c rest] eqn:E.
    + constructor.
    + replace (0 <? Z.of_nat (List.length (c :: rest))) with true
        by (symmetry; apply Z.ltb_lt; simpl List.length; lia).
      rewrite placed_pushIfNonEmpty. apply createSingleChunk_all. lia.
  - rewrite <- map_app.
    apply Permutation_map, filter_split_Permutation, isRemainingItem_negb.
Qed.

(** Every chunk of a plan holds a change and is estimated at 50 tokens or
    more. *)
Lemma chunk_estimate_bound
    (this : Config.t) (changes : list CodeChange.t) (findings : list Finding.t)
    (options : Options.t) :
  Forall (fun chunk => 50 <= Chunk.tokenEstimate chunk /\ Chunk.changes chunk <> [])
         (Analysis.chunks (analyzeAndChunk this changes findings options)).
Proof.
  unfold analyzeAndChunk. cbn [Analysis.chunks].
  eapply Forall_impl; [|apply createChunks_builtFrom].
  intros chunk [taken [id [description [-> [Hne _]]]]].
  rewrite addItems_tokenEstimate, addItems_changes.
  cbn [emptyChunk Chunk.tokenEstimate Chunk.changes app].
  destruct taken as [|item rest]; [contradiction|].
  split; [|discriminate].
  change (totalTokens (item :: rest)) with (itemTokens item + totalTokens rest).
  pose proof (itemTokens_base item). pose proof (totalTokens_nonneg rest). lia.
Qed.

(** Without force-included files, a chunk is within the budget unless the
    size strategy planned it. *)
Lemma chunks_within_budget_or_alone_general
    (this : Config.t) (changes : list CodeChange.t) (findings : list Finding.t)
    (options : Options.t) (chunk : Chunk.t) :
  noneForced changes (Options.forceIncludeFiles options) ->
  In chunk (Analysis.chunks (analyzeAndChunk this changes findings options)) ->
  Chunk.tokenEstimate chunk <= budget this options
  \/ (strategyOf changes findings options = BY_SIZE /\ True).
Proof.
  intros Hnone Hin. unfold analyzeAndChunk in Hin; cbn [Analysis.chunks] in Hin.
  fold (strategyOf changes findings options) in Hin.
  pose proof (prioritizeContent_noneForced changes findings _ Hnone) as Hfalse.
  destruct (ChunkStrategy_eq_BY_SIZE (strategyOf changes findings options))
    as [Hs | Hs]; [right; now split|].
  left. eapply groupChunk_within_budget; [exact Hfalse|].
  eapply createChunks_groups; [exact Hs | exact Hin].
Qed.

(** X10.  When the estimates of all changes, each with its related
    findings, add up to no more than the budget, the plan under the
    module, file-type, size and smart strategies leaves nothing out: its
    changes are the changes of the input, each once. *)
Theorem nothing_left_out_when_all_fits
    (this : Config.t) (changes : list CodeChange.t) (findings : list Finding.t)
    (options : Options.t) :
  strategyOf changes findings options <> BY_SEVERITY ->
  totalTokens (prioritizeContent changes findings (Options.forceIncludeFiles options))
  <= budget this options ->
  Permutation
    (placed (Analysis.chunks (analyzeAndChunk this changes findings options)))
    changes.
Proof.
  intros Hs Hle. unfold analyzeAndChunk. cbn [Analysis.chunks].
  fold (strategyOf changes findings options).
  eapply perm_trans; [|apply prioritizeContent_changes].
  unfold createChunks. fold (budget this options).
  destruct (strategyOf changes findings options); try contradiction.
  - now apply chunkByModule_all.
  - now apply chunkByFileType_all.
  - rewrite chunkBySize_placed. apply Permutation_refl.
  - now apply smartChunk_all.
Qed.

Lemma nothing_left_out_when_all_fits_witness :
  Permutation
    (placed (Analysis.chunks
               (analyzeAndChunk Sample.gpt4Manager [Sample.authJs added; Sample.login]
                                [] Sample.byModule)))
    [Sample.authJs added; Sample.login].
Proof.
  apply (nothing_left_out_when_all_fits
           Sample.gpt4Manager [Sample.authJs added; Sample.login] [] Sample.byModule).
  - discriminate.
  - vm_compute. discriminate.
Defined.

(** Below the 50-token base of a single change nothing fits. *)
Lemma budget_below_base_cases
    (this : Config.t) (changes : list CodeChange.t) (findings : list Finding.t)
    (options : Options.t) :
  budget this options < 50 ->
  (strategyOf changes findings options <> BY_SIZE ->
   noneForced changes (Options.forceIncludeFiles options) ->
   Analysis.chunks (analyzeAndChunk this changes findings options) = [])
  /\ (strategyOf changes findings options = BY_SIZE ->
      Forall (fun chunk => List.length (Chunk.changes chunk) = 1%nat)
             (Analysis.chunks (analyzeAndChunk this changes findings options))).
Proof.
  intros Hsmall.
  pose proof (chunk_estimate_bound this changes findings options) as Hbound.
  split.
  - intros Hs Hnone.
    remember (Analysis.chunks (analyzeAndChunk this changes findings options))
      as planned eqn:E.
    destruct planned as [|chunk rest]; [reflexivity|].
    exfalso.
    assert (In chunk (Analysis.chunks (analyzeAndChunk this changes findings options)))
      as Hin by (rewrite <- E; now left).
    destruct (chunks_within_budget_or_alone_general
                this changes findings options chunk Hnone Hin) as [Hle | [Habs _]];
      [|contradiction].
    inversion Hbound as [|? ? [Hlow _] _]; subst.
    lia.
  - intros Hs. rewrite Forall_forall in Hbound |- *. intros chunk Hin.
    destruct (Hbound chunk Hin) as [Hlow Hne].
    unfold analyzeAndChunk in Hin. cbn [Analysis.chunks] in Hin.
    fold (strategyOf changes findings options) in Hin. rewrite Hs in Hin.
    unfold createChunks in Hin. fold (budget this options) in Hin.
    pose proof (chunkBySize_fitsOrAlone
                  (prioritizeContent changes findings (Options.forceIncludeFiles options))
                  (budget this options)) as Hfits.
    rewrite Forall_forall in Hfits.
    destruct (Hfits chunk Hin) as [Hle | Hone]; [lia | assumption].
Qed.

(** X11.  With a budget below the 50-token base of a single change (a
    window no larger than the reserved tokens, say), the severity, module,
    file-type and smart strategies plan nothing at all when no file is
    force-included. *)
Theorem nothing_is_planned_below_the_base
    (this : Config.t) (changes : list CodeChange.t) (findings : list Finding.t)
    (options : Options.t)
    (Hsmall : budget this options < 50)
    (Hstrategy : strategyOf changes findings options <> BY_SIZE)
    (Hnone : noneForced changes (Options.forceIncludeFiles options)) :
  Analysis.chunks (analyzeAndChunk this changes findings options) = [].
Proof.
  now apply (budget_below_base_cases this changes findings options Hsmall).
Qed.

Lemma nothing_is_planned_below_the_base_witness :
  budget MoreSamples.tinyManager Sample.byModule < 50
  /\ Analysis.chunks
       (analyzeAndChunk MoreSamples.tinyManager [Sample.parser; Sample.printer] []
                        Sample.byModule) = [].
Proof.
  split; [vm_compute; reflexivity|].
  apply (nothing_is_planned_below_the_base
           MoreSamples.tinyManager [Sample.parser; Sample.printer] [] Sample.byModule).
  - vm_compute; reflexivity.
  - discriminate.
  - exact I.
Defined.

(** X12.  With a budget below the 50-token base of a single change, the
    size strategy gives every change a chunk of its own. *)
Theorem size_strategy_isolates_every_change_below_the_base
    (this : Config.t) (changes : list CodeChange.t) (findings : list Finding.t)
    (options : Options.t)
    (Hsmall : budget this options < 50)
    (Hstrategy : strategyOf changes findings options = BY_SIZE) :
  Forall (fun chunk => List.length (Chunk.changes chunk) = 1%nat)
         (Analysis.chunks (analyzeAndChunk this changes findings options)).
Proof.
  now apply (budget_below_base_cases this changes findings options Hsmall).
Qed.

Lemma size_strategy_isolates_every_change_below_the_base_witness :
  budget MoreSamples.tinyManager MoreSamples.bySize < 50
  /\ Forall (fun chunk => List.length (Chunk.changes chunk) = 1%nat)
            (Analysis.chunks
               (analyzeAndChunk MoreSamples.tinyManager [Sample.parser; Sample.printer]
                                [] MoreSamples.bySize)).
Proof.
  split; [vm_compute; reflexivity|].
  apply (size_strategy_isolates_every_change_below_the_base
           MoreSamples.tinyManager [Sample.parser; Sample.printer] [] MoreSamples.bySize).
  - vm_compute; reflexivity.
  - reflexivity.
Defined.

End Budgets.

Section SizeNumbering.
Import EnhancedContextManager Plan Cover MoreSamples.

Lemma chunkBySizeStep_numbered (budget : Z) (st : SizeLoop) (item : Item.t) :
  sizeLoopNumbered st -> sizeLoopNumbered (chunkBySizeStep budget st item).
Proof.
  intros [Hcount [Hids [Hdescs [Hid Hdesc]]]].
  unfold chunkBySizeStep, sizeLoopNumbered.
  destruct ((budget <? Chunk.tokenEstimate (currentChunk st) + itemTokens item)
            && (0 <? len (Chunk.changes (currentChunk st))));
    cbn [chunks currentChunk chunkCount].
  - rewrite length_app. cbn [List.length]. rewrite Nat.add_1_r, seq_S, !map_app.
    cbn [map]. rewrite Hids, Hdescs, Hid, Hdesc, Hcount.
    repeat split; reflexivity.
  - repeat split; assumption.
Qed.

Lemma chunkBySize_loop_numbered (budget : Z) (content : list Item.t) (st : SizeLoop) :
  sizeLoopNumbered st ->
  sizeLoopNumbered (fold_left (chunkBySizeStep budget) content st).
Proof.
  revert st. induction content as [|item rest IH]; intros st Hst; simpl.
  - assumption.
  - now apply IH, chunkBySizeStep_numbered.
Qed.

(** X13.  The chunks of [chunkBySize] are numbered from 1 in the order of
    the plan: the k-th has id "chunk-k" and description "Chunk k". *)
Theorem chunkBySize_numbers_its_chunks (content : list Item.t) (budget : Z) :
  map Chunk.id (chunkBySize content budget)
  = map sizeChunkId (seq 1 (List.length (chunkBySize content budget)))
  /\ map Chunk.description (chunkBySize content budget)
     = map sizeChunkDescription (seq 1 (List.length (chunkBySize content budget))).
Proof.
  unfold chunkBySize.
  destruct (chunkBySize_loop_numbered budget content
              {| chunks := []; currentChunk := numberedChunk 1; chunkCount := 1 |})
    as [Hcount [Hids [Hdescs [Hid Hdesc]]]].
  { repeat split; reflexivity. }
  set (st := fold_left (chunkBySizeStep budget) content _) in *.
  unfold pushIfNonEmpty.
  destruct (0 <? len (Chunk.changes (currentChunk st))).
  - rewrite length_app. cbn [List.length]. rewrite Nat.add_1_r, seq_S, !map_app.
    cbn [map]. rewrite Hids, Hdescs, Hid, Hdesc, Hcount. split; reflexivity.
  - rewrite !app_nil_r. split; assumption.
Qed.

End SizeNumbering.

Section EdgeCases.
Import EnhancedContextManager Plan Cover MoreSamples.

Lemma analyzeAndChunk_nothing
    (this : Config.t) (findings : list Finding.t) (options : Options.t) :
  Analysis.chunks (analyzeAndChunk this [] findings options) = [].
Proof.
  unfold analyzeAndChunk. cbn [Analysis.chunks].
  unfold prioritizeContent. cbn [map Js.sort fold_right].
  destruct (match Options.strategy options with
            | Some s => s
            | None => recommendChunkStrategy [] findings
            end); reflexivity.
Qed.

(** X14.  A request without changes is planned as no chunk at all,
    whatever its findings, and [reviewWithEnhancedContext] then throws
    "No reviews to merge" without calling the model. *)
Theorem request_without_changes_throws
    (World : Type)
    (generateReviewWithRetry : Request.t -> World -> Result Review.t * World)
    (this : EnhancedAIService.t) (request : Request.t) (w : World) :
  Request.changes request = [] ->
  Analysis.chunks (EnhancedAIService.analyze this request) = []
  /\ EnhancedAIService.reviewWithEnhancedContext
       World generateReviewWithRetry this request w
     = (Throw "No reviews to merge", w).
Proof.
  intros Hnone.
  assert (Analysis.chunks (EnhancedAIService.analyze this request) = []) as Hplan.
  { unfold EnhancedAIService.analyze. rewrite Hnone. apply analyzeAndChunk_nothing. }
  split; [assumption|].
  unfold EnhancedAIService.reviewWithEnhancedContext, EnhancedAIService.runLoop.
  rewrite Hplan. reflexivity.
Qed.

Lemma request_without_changes_throws_witness :
  Analysis.chunks
    (EnhancedAIService.analyze (Service.withLimit 1%float) emptyRequest) = []
  /\ EnhancedAIService.reviewWithEnhancedContext
       nat (Service.costing 0.03%float) (Service.withLimit 1%float) emptyRequest 0%nat
     = (Throw "No reviews to merge", 0%nat).
Proof.
  apply (request_without_changes_throws
           nat (Service.costing 0.03%float) (Service.withLimit 1%float) emptyRequest 0%nat).
  reflexivity.
Defined.

(** X15.  The strategy that [recommendChunkStrategy] picks is by severity,
    by module, smart or by size, never by file type; so a review through
    [reviewWithEnhancedContext], which passes no strategy, is never planned
    by file type. *)
Theorem file_type_strategy_is_never_recommended
    (this : EnhancedAIService.t) (request : Request.t)
    (changes : list CodeChange.t) (findings : list Finding.t) :
  In (recommendChunkStrategy changes findings) [BY_SEVERITY; BY_MODULE; SMART; BY_SIZE]
  /\ In (Summary.recommendedStrategy
           (Analysis.summary (EnhancedAIService.analyze this request)))
        [BY_SEVERITY; BY_MODULE; SMART; BY_SIZE].
Proof.
  assert (forall c f,
             In (recommendChunkStrategy c f) [BY_SEVERITY; BY_MODULE; SMART; BY_SIZE])
    as Hrec.
  { intros c f. unfold recommendChunkStrategy.
    destruct ((5 <? countSeverity critical f)
              || (10 <? countSeverity critical f + countSeverity high f));
      [simpl; tauto|].
    cbv zeta.
    destruct (5 <? len _); [simpl; tauto|].
    destruct (20 <? len c); simpl; tauto. }
  split; [apply Hrec|].
  unfold EnhancedAIService.analyze, analyzeAndChunk.
  cbn [Analysis.summary Summary.recommendedStrategy Options.strategy]. apply Hrec.
Qed.

(** X16.  The constructor leaves no setting empty or zero: a model that is
    [undefined] or [''] becomes the default model, and a window size, a
    reserve or a chunk limit that is [undefined] or [0] becomes its
    default (so a reserve of 0 tokens cannot be configured). *)
Theorem constructor_fills_falsy_settings (config : Config.partial) :
  Js.truthy (Config.model (constructor config)) = true
  /\ Config.contextWindowSize (constructor config) <> 0
  /\ Config.reservedTokens (constructor config) <> 0
  /\ Config.maxChunks (constructor config) <> 0
  /\ (Config.p_reservedTokens config = Some 0 ->
      Config.reservedTokens (constructor config) = 4000).
Proof.
  assert (forall x d, d <> 0 -> numOr x d <> 0) as HnumOr.
  { intros [v|] d Hd; simpl; [|assumption].
    destruct (v =? 0) eqn:E; [assumption | now apply Z.eqb_neq]. }
  unfold constructor.
  cbn [Config.model Config.contextWindowSize Config.reservedTokens Config.maxChunks].
  repeat split.
  - unfold strOr, Js.orElse.
    destruct (Config.p_model config) as [m|]; [|reflexivity].
    destruct (Js.truthy m) eqn:E; [assumption | reflexivity].
  - apply HnumOr. unfold getModelContextWindow. apply HnumOr. discriminate.
  - apply HnumOr. discriminate.
  - apply HnumOr. discriminate.
  - intros ->. reflexivity.
Qed.

End EdgeCases.

(* ================================================================== *)
(** ** Further properties of the merger and of the chunk loop *)
(* ================================================================== *)

Section MergerMore.
Import EnhancedAIService Run Merge.

Lemma determineOverallImpact_worst (impacts : list Impact.t) :
  determineOverallImpact impacts = worstImpact impacts.
Proof.
  induction impacts as [|i rest IH]; [reflexivity|].
  simpl worstImpact. rewrite <- IH. unfold determineOverallImpact. simpl.
  destruct i; simpl;
    destruct (existsb (impactEqb Impact.critical) rest);
    destruct (existsb (impactEqb Impact.high) rest);
    destruct (existsb (impactEqb Impact.medium) rest); reflexivity.
Qed.

Lemma determineOverallImpact_Permutation (impacts impacts' : list Impact.t) :
  Permutation impacts impacts' ->
  determineOverallImpact impacts = determineOverallImpact impacts'.
Proof.
  intros Hp. unfold determineOverallImpact.
  now rewrite !(existsb_Permutation _ _ _ Hp).
Qed.

Lemma mergeChunkReviews_impact (reviews : list Review.t) (analysis : Analysis.t) :
  (2 <= List.length reviews)%nat ->
  exists merged,
    mergeChunkReviews reviews analysis = Ok merged
    /\ impactOf merged = determineOverallImpact (map impactOf reviews)
    /\ costOf merged = sumOf costOf reviews
    /\ Review.comments merged = flat_map Review.comments reviews
    /\ Review.suggestions merged = flat_map Review.suggestions reviews.
Proof.
  destruct reviews as [|a [|b rest]]; simpl; try lia.
  intros _. eexists. repeat split; reflexivity.
Qed.

(** X17.  For two or more chunk reviews, the [estimatedImpact] of the merge
    is the most severe impact among them under critical > high > medium >
    low, the same for every order of the reviews; the comments and the
    suggestions of the merge are those of the reviews, in the order of the
    reviews. *)
Theorem mergeChunkReviews_takes_the_worst_impact
    (reviews : list Review.t) (analysis : Analysis.t) :
  (2 <= List.length reviews)%nat ->
  exists merged,
    mergeChunkReviews reviews analysis = Ok merged
    /\ impactOf merged = worstImpact (map impactOf reviews)
    /\ Review.comments merged = flat_map Review.comments reviews
    /\ Review.suggestions merged = flat_map Review.suggestions reviews
    /\ (forall reviews',
           Permutation reviews reviews' ->
           exists merged',
             mergeChunkReviews reviews' analysis = Ok merged'
             /\ impactOf merged' = impactOf merged).
Proof.
  intros Hlen.
  destruct (mergeChunkReviews_impact reviews analysis Hlen)
    as [merged [Hm [Hi [_ [Hc Hs]]]]].
  exists merged. repeat split; try assumption.
  - now rewrite Hi, determineOverallImpact_worst.
  - intros reviews' Hp.
    destruct (mergeChunkReviews_impact reviews' analysis)
      as [merged' [Hm' [Hi' _]]].
    { now rewrite <- (Permutation_length Hp). }
    exists merged'. split; [assumption|].
    rewrite Hi, Hi'. symmetry.
    apply determineOverallImpact_Permutation, Permutation_map, Hp.
Qed.

Lemma mergeChunkReviews_takes_the_worst_impact_witness :
  exists merged,
    mergeChunkReviews
      [Service.review comment 0.01%float; Service.review approve 0.02%float]
      (analyze (Service.withLimit 1%float) Service.request) = Ok merged
    /\ impactOf merged = Impact.low.
Proof.
  destruct (mergeChunkReviews_takes_the_worst_impact
              [Service.review comment 0.01%float; Service.review approve 0.02%float]
              (analyze (Service.withLimit 1%float) Service.request))
    as [merged [Hm [Hi _]]].
  - simpl. lia.
  - exists merged. split; [exact Hm | exact Hi].
Defined.

End MergerMore.

Section LoopMore.
Import EnhancedAIService Run Merge.

Context (World : Type).
Context (generateReviewWithRetry : Request.t -> World -> Result Review.t * World).

Lemma sumOf_app (f : Review.t -> float) (reviews : list Review.t) (review : Review.t) :
  sumOf f (reviews ++ [review]) = PrimFloat.add (sumOf f reviews) (f review).
Proof. unfold sumOf. now rewrite fold_left_app. Qed.

Lemma chunkLoop_totalCost
    (this : EnhancedAIService.t) (request : Request.t) (total : nat)
    (rest : list Chunk.t) (i : nat) (st : EnhancedAIService.Loop World) :
  totalCost World st = sumOf costOf (reviews World st) ->
  totalCost World (chunkLoop World generateReviewWithRetry this request total i rest st)
  = sumOf costOf
      (reviews World (chunkLoop World generateReviewWithRetry this request total i rest st)).
Proof.
  revert i st. induction rest as [|chunk rest IH]; intros i st Hst; simpl.
  - assumption.
  - destruct (generateReviewWithRetry (chunkRequest request i total chunk)
                                      (world World st))
      as [[review|message] w] eqn:Ecall.
    + match goal with
      | |- context [if ?c then _ else _] => destruct c
      end.
      * cbn [totalCost reviews]. now rewrite sumOf_app, Hst.
      * apply IH. cbn [totalCost reviews]. now rewrite sumOf_app, Hst.
    + apply IH. exact Hst.
Qed.

Lemma runLoop_totalCost
    (this : EnhancedAIService.t) (request : Request.t) (w : World) :
  totalCost World (runLoop World generateReviewWithRetry this request w)
  = sumOf costOf
      (returned (calls World (runLoop World generateReviewWithRetry this request w))).
Proof.
  rewrite <- runLoop_reviews.
  unfold runLoop. now apply chunkLoop_totalCost.
Qed.

(** X18.  The cumulative cost that the loop compares with the cost limit is
    the sum that the merger computes over the collected reviews, with the
    same additions in the same order; so when two or more chunk reviews
    were collected, [usage.estimatedCost] of the merged review is exactly
    that cumulative cost. *)
Theorem merged_cost_is_the_cumulative_cost
    (this : EnhancedAIService.t) (request : Request.t) (w : World)
    (Hmany : (2 <= List.length
                     (returned
                        (calls World
                               (runLoop World generateReviewWithRetry this request w))))%nat) :
  let st := runLoop World generateReviewWithRetry this request w in
  totalCost World st = sumOf costOf (returned (calls World st))
  /\ exists merged,
       reviewWithEnhancedContext World generateReviewWithRetry this request w
       = (Ok merged, world World st)
       /\ costOf merged = totalCost World st.
Proof.
  intros st.
  pose proof (runLoop_totalCost this request w) as Hcost. fold st in Hcost.
  fold st in Hmany.
  split; [assumption|].
  destruct (mergeChunkReviews_impact _ (analyze this request) Hmany)
    as [merged [Hm [_ [Hc _]]]].
  exists merged. split; [|now rewrite Hc, Hcost].
  rewrite reviewWithEnhancedContext_multi; [fold st; now rewrite Hm|].
  intros Hone.
  pose proof (runLoop_calls World generateReviewWithRetry this request w) as Hcalls.
  cbv zeta in Hcalls. fold st in Hcalls.
  assert (List.length (returned (calls World st)) <= List.length (calls World st))%nat
    as Hle.
  { clear. induction (calls World st) as [|[c [r|m]] l IHl]; simpl; lia. }
  destruct Hcalls as [Hall | [Hlt _]]; lia.
Qed.

(** X19.  When the cost limit is a positive number, no call of the chunk
    analysis starts from a cumulative cost that is strictly greater than
    the limit: at every dispatch [costLimit < totalCost] is false. *)
Theorem no_chunk_is_dispatched_over_the_limit
    (this : EnhancedAIService.t) (request : Request.t) (w : World) (limit : float)
    (Hlimit : costLimit this = Some limit)
    (Hpositive : PrimFloat.ltb 0 limit = true) :
  Forall (fun call => PrimFloat.ltb limit (fst call) = false)
         (calls World (runLoop World generateReviewWithRetry this request w)).
Proof.
  destruct (positive_limit limit Hpositive) as [Htruthy Hzero].
  assert (Forall (fun call => overCostLimit (costLimit this) (fst call) = false)
                 (calls World (runLoop World generateReviewWithRetry this request w)))
    as Hcalls.
  { unfold runLoop.
    apply chunkLoop_calls_not_over_limit; [constructor|].
    cbn [totalCost]. rewrite Hlimit. unfold overCostLimit.
    now rewrite Htruthy, Hzero. }
  eapply Forall_impl; [|exact Hcalls].
  intros call Hcall. cbv beta in Hcall.
  rewrite Hlimit in Hcall. unfold overCostLimit in Hcall.
  now rewrite Htruthy in Hcall.
Qed.

(** X20.  Without a cost limit, and with a limit of 0, which counts as
    none, the loop calls the chunk analysis once for every planned chunk,
    whatever the calls cost and whether they return or throw. *)
Theorem every_chunk_is_dispatched_without_limit
    (this : EnhancedAIService.t) (request : Request.t) (w : World) :
  costLimit this = None \/ costLimit this = Some 0%float ->
  List.length (calls World (runLoop World generateReviewWithRetry this request w))
  = List.length (Analysis.chunks (analyze this request)).
Proof.
  intros Hlimit.
  pose proof (runLoop_calls World generateReviewWithRetry this request w) as Hcalls.
  cbv zeta in Hcalls.
  destruct Hcalls as [Hall | [_ [Hover _]]]; [assumption|].
  exfalso. destruct Hlimit as [Hl | Hl]; rewrite Hl in Hover; discriminate.
Qed.

End LoopMore.

Section LoopMoreScenarios.
Import EnhancedAIService Run Merge.

Lemma merged_cost_is_the_cumulative_cost_witness :
  let st := runLoop nat (Service.costing 0.03%float) (Service.withLimit 0.05%float)
                    Service.request 0%nat in
  (2 <= List.length (returned (calls nat st)))%nat
  /\ totalCost nat st = sumOf costOf (returned (calls nat st))
  /\ exists merged,
       reviewWithEnhancedContext nat (Service.costing 0.03%float)
                                 (Service.withLimit 0.05%float) Service.request 0%nat
       = (Ok merged, world nat st)
       /\ costOf merged = totalCost nat st.
Proof.
  cbv zeta.
  split; [vm_compute; lia|].
  apply (merged_cost_is_the_cumulative_cost
           nat (Service.costing 0.03%float) (Service.withLimit 0.05%float)
           Service.request 0%nat).
  vm_compute; lia.
Defined.

Lemma no_chunk_is_dispatched_over_the_limit_witness :
  PrimFloat.ltb 0 0.05 = true
  /\ Forall (fun call => PrimFloat.ltb 0.05 (fst call) = false)
            (calls nat (runLoop nat (Service.costing 0.03%float)
                                (Service.withLimit 0.05%float) Service.request 0%nat)).
Proof.
  split; [vm_compute; reflexivity|].
  apply (no_chunk_is_dispatched_over_the_limit
           nat (Service.costing 0.03%float) (Service.withLimit 0.05%float)
           Service.request 0%nat 0.05%float).
  - reflexivity.
  - vm_compute; reflexivity.
Defined.

Lemma every_chunk_is_dispatched_without_limit_witness :
  List.length (calls nat (runLoop nat (Service.failingOn [1]%nat 0.03%float)
                                  (Service.withLimit 0%float) Service.request 0%nat))
  = 6%nat.
Proof.
  apply (every_chunk_is_dispatched_without_limit
           nat (Service.failingOn [1]%nat 0.03%float) (Service.withLimit 0%float)
           Service.request 0%nat).
  right. reflexivity.
Defined.

End LoopMoreScenarios.

Section EstimateFloors.
Import EnhancedContextManager.

(** X21.  The density factor of a content is 1, 1.1, 1.21 (as computed:
    1.2100000000000002) or the cap 1.3, and the estimates that the planner
    makes are never negative: the estimate of a text whose type is
    detected (no type passed, as in every call of the planner) is at
    least 0, that of a change at least its base of 50, and that of an item
    at least 50 as well. *)
Theorem estimates_are_bounded_below
    (content : string) (change : CodeChange.t) (item : Item.t) :
  In (calculateContentDensity content)
     [1%float; 1.1%float; 1.2100000000000002%float; 1.3%float]
  /\ 0 <= estimateTokens content None
  /\ 50 <= estimateChangeTokens change
  /\ 50 <= itemTokens item.
Proof.
  split; [apply density_values|].
  split; [apply estimateTokens_nonneg|].
  split; [apply estimateChangeTokens_base | apply itemTokens_base].
Qed.
End EstimateFloors.

(* ================================================================== *)
(** ** The standard context manager *)
(* ================================================================== *)

Section ContextWindows.
Import ContextManager.

Lemma prefix_app (a b m : string) :
  String.prefix (a ++ b) m = true -> String.prefix a m = true.
Proof.
  revert m; induction a as [|c a IH]; intros m; destruct m as [|d m]; simpl;
    try reflexivity; try discriminate.
  destruct (ascii_dec c d); [apply IH | discriminate].
Qed.

Lemma prefix_split (p m : string) :
  String.prefix p m = true -> exists r, m = (p ++ r)%string.
Proof.
  revert m; induction p as [|c p IH]; intros m; destruct m as [|d m]; simpl;
    try discriminate.
  - now exists EmptyString.
  - now exists (String d m).
  - destruct (ascii_dec c d) as [<- |]; [|discriminate].
    intros H. destruct (IH m H) as [r ->]. now exists r.
Qed.

Lemma prefix_refl (s : string) : String.prefix s s = true.
Proof.
  induction s as [|c s IH]; simpl; [reflexivity|].
  destruct (ascii_dec c c); [assumption | congruence].
Qed.

(** The window of a model, read off its name. *)
Lemma getContextWindowSize_cases (model : string) :
  getContextWindowSize model =
    if Js.startsWith model "gpt-4-turbo" || Js.startsWith model "gpt-4-1106"
       || Js.startsWith model "gpt-4-vision"
    then 128000
    else if String.eqb model "gpt-4-32k" then 32768
    else if Js.startsWith model "gpt-3.5-turbo" then 16385
    else 8192.
Proof.
  unfold getContextWindowSize.
  change (numOr (Js.get CONTEXT_WINDOWS "default") 8192) with 8192.
  unfold CONTEXT_WINDOWS; cbn [Js.get].
  repeat match goal with
  | |- context [String.eqb ?k model] =>
      destruct (String.eqb_spec k model) as [<- | ?]; [reflexivity|]
  end.
  cbn [find]; unfold prefixMatches; cbn [fst].
  change (JsMore.beforeFirst "-preview" "gpt-4-turbo-preview") with "gpt-4-turbo".
  change (JsMore.beforeFirst "-preview" "gpt-4-1106-preview") with "gpt-4-1106".
  change (JsMore.beforeFirst "-preview" "gpt-4-vision-preview") with "gpt-4-vision".
  change (JsMore.beforeFirst "-preview" "gpt-4") with "gpt-4".
  change (JsMore.beforeFirst "-preview" "gpt-4-32k") with "gpt-4-32k".
  change (JsMore.beforeFirst "-preview" "gpt-3.5-turbo") with "gpt-3.5-turbo".
  change (JsMore.beforeFirst "-preview" "gpt-3.5-turbo-16k") with "gpt-3.5-turbo-16k".
  change (JsMore.beforeFirst "-preview" "default") with "default".
  cbn [Js.truthy andb].
  destruct (Js.startsWith model "gpt-4-turbo"); [reflexivity|].
  destruct (Js.startsWith model "gpt-4-1106"); [reflexivity|].
  destruct (Js.startsWith model "gpt-4-vision"); [reflexivity|].
  cbn [orb].
  destruct (String.eqb_spec model "gpt-4-32k") as [Heq | _];
    [symmetry in Heq; contradiction|].
  destruct (Js.startsWith model "gpt-4") eqn:E4.
  - destruct (Js.startsWith model "gpt-3.5-turbo") eqn:E3; [|reflexivity].
    unfold Js.startsWith in E4, E3.
    destruct (prefix_split _ _ E4) as [r ->].
    vm_compute in E3. discriminate.
  - destruct (Js.startsWith model "gpt-4-32k") eqn:E32.
    + unfold Js.startsWith in E4, E32.
      rewrite (prefix_app "gpt-4" "-32k" model E32) in E4. discriminate.
    + destruct (Js.startsWith model "gpt-3.5-turbo") eqn:E3; [reflexivity|].
      destruct (Js.startsWith model "gpt-3.5-turbo-16k") eqn:E16.
      * unfold Js.startsWith in E3, E16.
        rewrite (prefix_app "gpt-3.5-turbo" "-16k" model E16) in E3. discriminate.
      * now destruct (Js.startsWith model "default").
Qed.

(** X22.  The standard manager gives the 32768-token window to the model
    named exactly [gpt-4-32k] and to no other: a longer name that starts
    with it (a dated variant) meets the entry [gpt-4] first in the prefix
    loop and gets 8192. *)
Theorem window_32768_for_exact_name_only (model : string) :
  (getContextWindowSize model = 32768 <-> model = "gpt-4-32k")
  /\ forall (c : ascii) (suffix : string),
       getContextWindowSize ("gpt-4-32k" ++ String c suffix) = 8192.
Proof.
  split.
  - rewrite getContextWindowSize_cases.
    split.
    + destruct (_ || _); [discriminate|].
      destruct (String.eqb_spec model "gpt-4-32k"); [trivial|].
      destruct (Js.startsWith model "gpt-3.5-turbo"); discriminate.
    + intros ->. reflexivity.
  - intros c suffix.
    rewrite getContextWindowSize_cases.
    assert (Hneq : String.eqb ("gpt-4-32k" ++ String c suffix) "gpt-4-32k" = false).
    { apply String.eqb_neq. simpl. congruence. }
    rewrite Hneq.
    reflexivity.
Qed.
End ContextWindows.

(** A comparator that is a total preorder sorts into its own order. *)
Section SortOrdered.
Context {A : Type} (cmp : A -> A -> Z).
Hypothesis cmp_total : forall x y, 0 < cmp x y -> cmp y x <= 0.
Hypothesis cmp_trans : forall x y z, cmp x y <= 0 -> cmp y z <= 0 -> cmp x z <= 0.


End SortOrdered.

Section ImportanceOrder.
Import ContextManager.







End ImportanceOrder.

Section StandardEstimates.
Import ContextManager.

Lemma standard_estimateTokens_nonneg (content : string) (type : option ContentType) :
  0 <= estimateTokens content type.
Proof.
  unfold estimateTokens; cbv zeta.
  apply ceil_unsigned, mul_unsigned; [apply ofZ_unsigned|].
  destruct type as [[]|]; vm_compute; reflexivity.
Qed.

Lemma standard_estimateHunkTokens_nonneg (hunk : DiffHunk.t) :
  0 <= estimateHunkTokens hunk.
Proof.
  unfold estimateHunkTokens.
  pose proof (standard_estimateTokens_nonneg (DiffHunk.content hunk) (Some code)).
  destruct (DiffHunk.context hunk) as [ctx|]; [|lia].
  pose proof (standard_estimateTokens_nonneg (DiffHunk.before ctx) (Some code)).
  pose proof (standard_estimateTokens_nonneg (DiffHunk.after ctx) (Some code)).
  destruct (Js.truthy (DiffHunk.before ctx)), (Js.truthy (DiffHunk.after ctx)); lia.
Qed.

Lemma standard_estimateChangeTokens_base (change : CodeChange.t) :
  50 <= estimateChangeTokens change.
Proof.
  unfold estimateChangeTokens.
  assert (forall hunks tokens,
             tokens <= fold_left (fun tokens hunk => tokens + estimateHunkTokens hunk)
                                 hunks tokens) as Hgen.
  { induction hunks as [|hunk rest IH]; intros tokens; simpl; [lia|].
    pose proof (standard_estimateHunkTokens_nonneg hunk).
    specialize (IH (tokens + estimateHunkTokens hunk)). lia. }
  apply Hgen.
Qed.

Lemma sumTokens_nonneg (changes : list CodeChange.t) :
  0 <= Importance.sumTokens changes.
Proof.
  induction changes as [|c rest IH]; simpl; [lia|].
  pose proof (standard_estimateChangeTokens_base c). lia.
Qed.

Lemma sumTokens_app (l l' : list CodeChange.t) :
  Importance.sumTokens (l ++ l') = Importance.sumTokens l + Importance.sumTokens l'.
Proof. induction l as [|c rest IH]; simpl; lia. Qed.

Lemma sumTokens_Permutation (l l' : list CodeChange.t) :
  Permutation l l' -> Importance.sumTokens l = Importance.sumTokens l'.
Proof. induction 1; simpl; lia. Qed.

Lemma sumContentTokens_app (l l' : list DiffHunk.t) :
  Importance.sumContentTokens (l ++ l')
  = Importance.sumContentTokens l + Importance.sumContentTokens l'.
Proof. induction l as [|c rest IH]; simpl; lia. Qed.
End StandardEstimates.

Section Truncation.
Import ContextManager.



Lemma truncateChange_Some (change truncated : CodeChange.t) (maxTokens : Z) :
  truncateChange change maxTokens = Some truncated ->
  100 <= maxTokens
  /\ CodeChange.file truncated = CodeChange.file change
  /\ CodeChange.changeType truncated = CodeChange.changeType change
  /\ CodeChange.hunks truncated
     = truncateHunks maxTokens (CodeChange.hunks change) [] 50
  /\ CodeChange.hunks truncated <> [].
Proof.
  unfold truncateChange.
  destruct (maxTokens <? 100) eqn:E; [discriminate|].
  apply Z.ltb_ge in E. cbv zeta.
  destruct (0 <? len _) eqn:Elen; [|discriminate].
  intros [= <-]. cbn.
  repeat split; try lia.
  intros Hnil. rewrite Hnil in Elen. discriminate.
Qed.



Lemma split_single (s : string) :
  Js.includes s (String Js.LF EmptyString) = false -> Js.split Js.LF s = [s].
Proof.
  induction s as [|c s IH]; [reflexivity|].
  cbn [Js.includes Js.split].
  intros H. apply orb_false_iff in H. destruct H as [Hp Hrest].
  destruct (Ascii.eqb_spec c Js.LF) as [-> | Hne].
  - exfalso. simpl in Hp. now destruct s.
  - now rewrite (IH Hrest).
Qed.

(** X25.  A hunk whose content has no line break is cut to nothing: its
    truncated version holds the marker alone. *)
Theorem one_line_hunk_is_cut_to_the_marker (hunk : DiffHunk.t)
    (Hline : Js.includes (DiffHunk.content hunk) (String Js.LF EmptyString) = false) :
  DiffHunk.content (truncateHunk hunk) = String Js.LF "... (truncated)".
Proof.
  unfold truncateHunk; cbn [DiffHunk.content]; cbv zeta.
  rewrite (split_single _ Hline). reflexivity.
Qed.

Lemma one_line_hunk_is_cut_to_the_marker_witness :
  Js.includes (Sample.repeatChar 100 "a") (String Js.LF EmptyString) = false
  /\ DiffHunk.content (truncateHunk (Sample.hunk (Sample.repeatChar 100 "a")))
     = String Js.LF "... (truncated)".
Proof.
  split; [vm_compute; reflexivity|].
  apply (one_line_hunk_is_cut_to_the_marker (Sample.hunk (Sample.repeatChar 100 "a"))).
  vm_compute; reflexivity.
Defined.
End Truncation.

Section StandardPlan.
Import ContextManager.

Lemma fromInput_cons (changes : list CodeChange.t) (c change : CodeChange.t) :
  Importance.fromInput changes change -> Importance.fromInput (c :: changes) change.
Proof.
  intros [Hin | (original & maxTokens & Hin & Heq)]; [left; now right | right].
  exists original, maxTokens; split; [now right | assumption].
Qed.

(** What the loop of [prioritizeChanges] keeps true. *)
Lemma fill_loop (availableTokens : Z) (l : list CodeChange.t) (st : Fill) :
  let st' := fold_left (fillStep availableTokens) l st in
  Permutation (map CodeChange.file (includedChanges st' ++ excludedChanges st'))
              (map CodeChange.file (includedChanges st ++ excludedChanges st)
               ++ map CodeChange.file l)
  /\ (forall c, In c (excludedChanges st') -> In c (excludedChanges st) \/ In c l)
  /\ (forall c, In c (includedChanges st') ->
                In c (includedChanges st) \/ Importance.fromInput l c)
  /\ currentTokens st' - Importance.sumTokens (includedChanges st')
     = currentTokens st - Importance.sumTokens (includedChanges st).
Proof.
  cbv zeta. revert st; induction l as [|change rest IH]; intros st.
  - cbn [fold_left map]. rewrite app_nil_r.
    split; [|split; [|split]]; auto.
  - cbn [fold_left].
    destruct (IH (fillStep availableTokens st change)) as (Hperm & Hex & Hin & Hsum).
    assert (Hstep :
      Permutation
        (map CodeChange.file (includedChanges (fillStep availableTokens st change)
                              ++ excludedChanges (fillStep availableTokens st change)))
        (map CodeChange.file (includedChanges st ++ excludedChanges st) ++ [CodeChange.file change])
      /\ (forall c, In c (excludedChanges (fillStep availableTokens st change)) ->
                    In c (excludedChanges st) \/ c = change)
      /\ (forall c, In c (includedChanges (fillStep availableTokens st change)) ->
                    In c (includedChanges st) \/ Importance.fromInput [change] c)
      /\ currentTokens (fillStep availableTokens st change)
         - Importance.sumTokens (includedChanges (fillStep availableTokens st change))
         = currentTokens st - Importance.sumTokens (includedChanges st)).
    { unfold fillStep; cbv zeta.
      destruct (currentTokens st + estimateChangeTokens change <=? availableTokens).
      - cbn [includedChanges excludedChanges currentTokens].
        split; [|split; [|split]].
        + rewrite !map_app. cbn [map].
          rewrite <- !app_assoc. apply Permutation_app_head, Permutation_app_comm.
        + auto.
        + intros c Hc. apply in_app_or in Hc.
          destruct Hc as [Hc | [<- | []]]; [now left | right; left; now left].
        + rewrite sumTokens_app. simpl. lia.
      - destruct (truncateChange change (availableTokens - currentTokens st))
          as [truncated|] eqn:Etrunc;
          cbn [includedChanges excludedChanges currentTokens].
        + split; [|split; [|split]].
          * rewrite !map_app. cbn [map].
            destruct (truncateChange_Some _ _ _ Etrunc) as (_ & -> & _).
            rewrite <- !app_assoc. apply Permutation_app_head, Permutation_app_comm.
          * auto.
          * intros c Hc. apply in_app_or in Hc.
            destruct Hc as [Hc | [<- | []]]; [now left | right; right].
            exists change, (availableTokens - currentTokens st).
            split; [now left | assumption].
          * rewrite sumTokens_app. simpl. lia.
        + split; [|split; [|split]].
          * rewrite app_assoc, !map_app. reflexivity.
          * intros c Hc. apply in_app_or in Hc.
            destruct Hc as [Hc | [<- | []]]; auto.
          * auto.
          * reflexivity. }
    destruct Hstep as (Hperm1 & Hex1 & Hin1 & Hsum1).
    split; [|split; [|split]].
    + eapply perm_trans; [exact Hperm|].
      cbn [map]. change (CodeChange.file change :: map CodeChange.file rest)
        with ([CodeChange.file change] ++ map CodeChange.file rest).
      rewrite app_assoc. now apply Permutation_app_tail.
    + intros c Hc. destruct (Hex c Hc) as [Hc' | Hc']; [|right; now right].
      destruct (Hex1 c Hc') as [? | ->]; [now left | right; now left].
    + intros c Hc. destruct (Hin c Hc) as [Hc' | Hc'].
      * destruct (Hin1 c Hc') as [? | Hfrom]; [now left | right].
        destruct Hfrom as [[<- | []] | (original & maxTokens & [<- | []] & Heq)].
        -- left; now left.
        -- right. exists change, maxTokens. split; [now left | assumption].
      * right. now apply fromInput_cons.
    + lia.
Qed.

Lemma fromInput_Permutation (l l' : list CodeChange.t) (c : CodeChange.t) :
  Permutation l l' -> Importance.fromInput l c -> Importance.fromInput l' c.
Proof.
  intros Hperm [Hin | (original & maxTokens & Hin & Heq)].
  - left. now apply (Permutation_in _ Hperm).
  - right. exists original, maxTokens.
    split; [now apply (Permutation_in _ Hperm) | assumption].
Qed.

(** X26.  [prioritizeChanges] accounts for every file of the request once:
    the files of the included changes together with those of the excluded
    changes are the files of the request.  An excluded change is a change
    of the request as it came; an included change is a change of the
    request, whole or truncated. *)
Theorem prioritizeChanges_partitions_the_files
    (this : ContextManager.t) (changes : list CodeChange.t)
    (findings : list Finding.t) (systemPromptTokens : option Z) :
  let result := prioritizeChanges this changes findings systemPromptTokens in
  Permutation
    (map CodeChange.file (Prioritized.includedChanges result ++ Prioritized.excludedChanges result))
    (map CodeChange.file changes)
  /\ incl (Prioritized.excludedChanges result) changes
  /\ Forall (Importance.fromInput changes) (Prioritized.includedChanges result).
Proof.
  cbv zeta. unfold prioritizeChanges; cbv zeta.
  cbn [Prioritized.includedChanges Prioritized.excludedChanges].
  match goal with
  | |- context [fold_left (fillStep ?av) ?l ?st] =>
      destruct (fill_loop av l st) as (Hperm & Hex & Hin & _)
  end.
  cbv zeta in Hperm, Hex, Hin. cbn [includedChanges excludedChanges app map] in Hperm, Hex, Hin.
  pose proof (sort_Permutation (compareImportance (fileSeverityMap findings)) changes)
    as Hsort.
  fold (prioritizeChangesByImportance changes findings) in Hsort.
  split; [|split].
  - eapply perm_trans; [exact Hperm|]. now apply Permutation_map.
  - intros c Hc. destruct (Hex c Hc) as [[] | Hc'].
    now apply (Permutation_in _ Hsort).
  - apply Forall_forall; intros c Hc.
    destruct (Hin c Hc) as [[] | Hfrom].
    now apply (fromInput_Permutation _ _ _ Hsort).
Qed.


Lemma fill_all_fit (availableTokens : Z) (l : list CodeChange.t) (st : Fill) :
  currentTokens st + Importance.sumTokens l <= availableTokens ->
  includedChanges (fold_left (fillStep availableTokens) l st) = includedChanges st ++ l
  /\ excludedChanges (fold_left (fillStep availableTokens) l st) = excludedChanges st.
Proof.
  revert st; induction l as [|change rest IH]; intros st Hfit.
  - cbn [fold_left]. now rewrite app_nil_r.
  - cbn [fold_left]. cbn [Importance.sumTokens fold_right] in Hfit.
    fold (Importance.sumTokens rest) in Hfit.
    pose proof (sumTokens_nonneg rest) as Hrest.
    assert (Hstep : fillStep availableTokens st change
                    = {| includedChanges := includedChanges st ++ [change];
                         excludedChanges := excludedChanges st;
                         currentTokens := currentTokens st + estimateChangeTokens change |}).
    { unfold fillStep; cbv zeta.
      replace (currentTokens st + estimateChangeTokens change <=? availableTokens)
        with true by (symmetry; apply Z.leb_le; lia).
      reflexivity. }
    rewrite Hstep.
    destruct (IH {| includedChanges := includedChanges st ++ [change];
                    excludedChanges := excludedChanges st;
                    currentTokens := currentTokens st + estimateChangeTokens change |})
      as (Hin & Hex); [cbn [currentTokens]; lia|].
    cbn [includedChanges excludedChanges] in Hin, Hex.
    rewrite Hin, Hex, <- app_assoc. now split.
Qed.

(** X28.  When the severe findings (50 tokens each) and all the changes
    fit in the window next to the reserve and the system prompt, nothing is
    excluded and nothing is truncated: the included changes are the changes
    of the request in their order of importance. *)
Theorem prioritizeChanges_includes_all_when_all_fits
    (this : ContextManager.t) (changes : list CodeChange.t)
    (findings : list Finding.t) (systemPromptTokens : Z)
    (Hfit : 50 * len (criticalFindings findings) + Importance.sumTokens changes
            <= getAvailableTokens this - systemPromptTokens) :
  let result := prioritizeChanges this changes findings (Some systemPromptTokens) in
  Prioritized.includedChanges result = prioritizeChangesByImportance changes findings
  /\ Prioritized.excludedChanges result = [].
Proof.
  cbv zeta. unfold prioritizeChanges; cbv zeta.
  cbn [Prioritized.includedChanges Prioritized.excludedChanges].
  match goal with
  | |- context [fold_left (fillStep ?av) ?l ?st] =>
      destruct (fill_all_fit av l st) as (Hin & Hex)
  end.
  - cbn [currentTokens].
    rewrite (sumTokens_Permutation _ changes) by apply sort_Permutation.
    unfold estimateFindingsTokens, criticalFindings in *. lia.
  - now rewrite Hin, Hex.
Qed.

Lemma prioritizeChanges_includes_all_when_all_fits_witness :
  let result :=
    prioritizeChanges StandardSamples.gpt4 StandardSamples.small [] (Some 500) in
  50 * len (criticalFindings []) + Importance.sumTokens StandardSamples.small
    <= getAvailableTokens StandardSamples.gpt4 - 500
  /\ Prioritized.includedChanges result = prioritizeChangesByImportance StandardSamples.small []
  /\ Prioritized.excludedChanges result = [].
Proof.
  cbv zeta.
  split; [vm_compute; discriminate|].
  apply (prioritizeChanges_includes_all_when_all_fits
           StandardSamples.gpt4 StandardSamples.small [] 500).
  vm_compute; discriminate.
Defined.
End StandardPlan.

Section Batching.
Import ContextManager.

Lemma groupRelatedFiles_Permutation (changes : list CodeChange.t) :
  Permutation (flat_map FileGroup.changes (groupRelatedFiles changes)) changes.
Proof.
  unfold groupRelatedFiles.
  rewrite flat_map_concat_map, map_map. cbn [FileGroup.changes].
  rewrite <- flat_map_concat_map.
  apply groupBy_Permutation.
Qed.

(** What the loop of [createBatches] keeps true: the batches hold, in the
    order of the groups, the changes of the groups visited; no closed batch
    is empty; the number of closed batches stays below the bound. *)
Lemma batchLoop_inv (findings : list Finding.t) (availableTokens maxBatches : Z)
    (groups : list FileGroup.t) (st : BatchLoop) :
  Forall (fun b => Batch.changes b <> []) (batches st) ->
  len (batches st) < maxBatches - 1
  \/ (len (batches st) = 0 /\ Batch.changes (currentBatch st) = []) ->
  let st' := batchLoop findings availableTokens maxBatches groups st in
  Forall (fun b => Batch.changes b <> []) (batches st')
  /\ len (batches st') <= Z.max 0 (maxBatches - 1)
  /\ exists visited dropped,
       groups = visited ++ dropped
       /\ flat_map Batch.changes (batches st') ++ Batch.changes (currentBatch st')
          = (flat_map Batch.changes (batches st) ++ Batch.changes (currentBatch st))
            ++ flat_map FileGroup.changes visited
       /\ (dropped = [] \/ maxBatches - 1 <= len (batches st')).
Proof.
  cbv zeta. revert st; induction groups as [|group rest IH]; intros st Hne Hlen.
  - cbn [batchLoop]. split; [assumption|]. split; [lia|].
    exists [], []. cbn [app flat_map]. rewrite app_nil_r. auto.
  - cbn [batchLoop]; cbv zeta.
    assert (Hstep :
      Forall (fun b => Batch.changes b <> [])
             (batches (batchStep findings availableTokens st group))
      /\ (len (batches (batchStep findings availableTokens st group)) <= maxBatches - 1
          \/ len (batches (batchStep findings availableTokens st group)) = 0)
      /\ flat_map Batch.changes (batches (batchStep findings availableTokens st group))
         ++ Batch.changes (currentBatch (batchStep findings availableTokens st group))
         = (flat_map Batch.changes (batches st) ++ Batch.changes (currentBatch st))
           ++ FileGroup.changes group).
    { unfold batchStep; cbv zeta.
      destruct (availableTokens <? _); cbn [batches currentBatch Batch.changes].
      - destruct (0 <? len (Batch.changes (currentBatch st))) eqn:E.
        + split; [|split].
          * apply Forall_app; split; [assumption|].
            constructor; [|constructor].
            intros Hnil. rewrite Hnil in E. discriminate.
          * destruct Hlen as [Hlt | [_ Hnil]].
            -- left. unfold len in *. rewrite length_app. simpl. lia.
            -- rewrite Hnil in E. discriminate.
          * rewrite flat_map_app. cbn [flat_map]. now rewrite app_nil_r.
        + split; [assumption|]. split; [lia|].
          destruct (Batch.changes (currentBatch st)); [|discriminate].
          now rewrite app_nil_r.
      - split; [assumption|]. split; [lia|].
        now rewrite app_assoc. }
    destruct Hstep as (Hne1 & Hlen1 & Hcov1).
    destruct (maxBatches - 1 <=? len (batches (batchStep findings availableTokens st group)))
      eqn:Ebreak.
    + apply Z.leb_le in Ebreak.
      split; [assumption|]. split; [lia|].
      exists [group], rest. cbn [app flat_map]. rewrite app_nil_r.
      split; [reflexivity|]. split; [assumption | now right].
    + apply Z.leb_gt in Ebreak.
      destruct (IH _ Hne1) as (Hne2 & Hlen2 & visited & dropped & -> & Hcov2 & Hdrop);
        [now left|].
      split; [assumption|]. split; [assumption|].
      exists (group :: visited), dropped. cbn [app flat_map].
      split; [reflexivity|]. split; [|assumption].
      now rewrite Hcov2, Hcov1, <- !app_assoc.
Qed.

Lemma createBatches_inv (this : ContextManager.t) (changes : list CodeChange.t)
    (findings : list Finding.t) (maxBatches : Z) :
  let result := createBatches this changes findings (Some maxBatches) in
  Forall (fun b => Batch.changes b <> []) (Batches.batches result)
  /\ len (Batches.batches result) <= Z.max 1 maxBatches
  /\ exists visited dropped,
       groupRelatedFiles changes = visited ++ dropped
       /\ flat_map Batch.changes (Batches.batches result)
          = flat_map FileGroup.changes visited
       /\ (dropped = [] \/ maxBatches - 1 <= len (Batches.batches result)).
Proof.
  cbv zeta. unfold createBatches; cbv zeta. cbn [Batches.batches].
  match goal with
  | |- context [batchLoop ?f ?av ?m ?g ?st] =>
      destruct (batchLoop_inv f av m g st)
        as (Hne & Hlen & visited & dropped & Hgroups & Hcov & Hdrop);
      [constructor | right; now split |];
      remember (batchLoop f av m g st) as st' eqn:Est; clear Est
  end.
  cbn [batches currentBatch Batch.changes flat_map app] in Hcov.
  destruct (0 <? len (Batch.changes (currentBatch st'))) eqn:E.
  - split; [|split].
    + apply Forall_app; split; [assumption|].
      constructor; [|constructor].
      intros Hnil. rewrite Hnil in E. discriminate.
    + unfold len in *. rewrite length_app. simpl. lia.
    + exists visited, dropped. split; [assumption|]. split.
      * rewrite flat_map_app. cbn [flat_map]. now rewrite app_nil_r.
      * destruct Hdrop as [? | Hge]; [now left | right].
        unfold len in *. rewrite length_app. simpl. lia.
  - split; [assumption|]. split; [lia|].
    exists visited, dropped. split; [assumption|]. split; [|assumption].
    destruct (Batch.changes (currentBatch st')); [|discriminate].
    now rewrite app_nil_r in Hcov.
Qed.

(** X29.  [createBatches] returns at most [maxBatches] batches (one when
    [maxBatches] is below 1) and no empty batch, whatever the size of the
    request.  The batches hold changes of the request, none twice; the
    groups of files left when the bound is reached are in no batch. *)
Theorem createBatches_is_bounded
    (this : ContextManager.t) (changes : list CodeChange.t)
    (findings : list Finding.t) (maxBatches : Z) :
  let result := createBatches this changes findings (Some maxBatches) in
  len (Batches.batches result) <= Z.max 1 maxBatches
  /\ Forall (fun b => Batch.changes b <> []) (Batches.batches result)
  /\ Plan.subPermutation (flat_map Batch.changes (Batches.batches result)) changes.
Proof.
  cbv zeta.
  destruct (createBatches_inv this changes findings maxBatches)
    as (Hne & Hlen & visited & dropped & Hgroups & Hcov & _).
  cbv zeta in *.
  split; [assumption|]. split; [assumption|].
  exists (flat_map FileGroup.changes dropped).
  rewrite Hcov, <- flat_map_app, <- Hgroups.
  apply groupRelatedFiles_Permutation.
Qed.

(** X30.  When [createBatches] returns fewer than [maxBatches - 1] batches
    it has dropped nothing: every change of the request is in exactly one
    batch. *)
Theorem createBatches_is_complete_below_the_bound
    (this : ContextManager.t) (changes : list CodeChange.t)
    (findings : list Finding.t) (maxBatches : Z)
    (Hbelow : len (Batches.batches (createBatches this changes findings (Some maxBatches)))
              < maxBatches - 1) :
  Permutation
    (flat_map Batch.changes
       (Batches.batches (createBatches this changes findings (Some maxBatches))))
    changes.
Proof.
  destruct (createBatches_inv this changes findings maxBatches)
    as (_ & _ & visited & dropped & Hgroups & Hcov & Hdrop).
  cbv zeta in *.
  destruct Hdrop as [-> | Hge]; [|lia].
  rewrite app_nil_r in Hgroups.
  rewrite Hcov, <- Hgroups.
  apply groupRelatedFiles_Permutation.
Qed.

Lemma createBatches_is_complete_below_the_bound_witness :
  len (Batches.batches (createBatches StandardSamples.gpt4 StandardSamples.small [] (Some 5)))
    < 5 - 1
  /\ Permutation
       (flat_map Batch.changes
          (Batches.batches
             (createBatches StandardSamples.gpt4 StandardSamples.small [] (Some 5))))
       StandardSamples.small.
Proof.
  split; [vm_compute; reflexivity|].
  apply (createBatches_is_complete_below_the_bound
           StandardSamples.gpt4 StandardSamples.small [] 5).
  vm_compute; reflexivity.
Defined.
End Batching.
